(** * The BBS ANSI-art to HTML converter (TypeScript library), embedded in Rocq

    The development follows [converter.ts], [colors.ts] and [cp437.ts] of the
    TypeScript library.  A JavaScript string is a sequence of UTF-16 code
    units, so it is modelled as a list of integers; the converter object is a
    record and each method a function from converter to converter. *)

From Stdlib Require Import ZArith List Bool String Ascii Lia DecimalString.
Import ListNotations.
Local Open Scope Z_scope.

(** ** JavaScript strings and the built-ins the converter calls *)

Module Js.

Definition jsstring := list Z.

(** A string literal of the source (ASCII only). *)
Definition lit (s : string) : jsstring :=
  map (fun a => Z.of_N (N_of_ascii a)) (list_ascii_of_string s).

(** [a === b] on strings. *)
Definition streq (a b : jsstring) : bool :=
  if list_eq_dec Z.eq_dec a b then true else false.

(** [s.charCodeAt(i)]; every call of the converter is in range (out of range
    JavaScript answers NaN, which the one bitwise use would read as 0). *)
Definition charCodeAt (s : jsstring) (i : Z) : Z := nth (Z.to_nat i) s 0.

(** [s.slice(a, b)] and [s.slice(a)] for the non-negative indices the
    converter passes. *)
Definition slice (s : jsstring) (a b : Z) : jsstring :=
  firstn (Z.to_nat (b - a)) (skipn (Z.to_nat a) s).

Definition sliceFrom (s : jsstring) (a : Z) : jsstring := skipn (Z.to_nat a) s.

Definition length (s : jsstring) : Z := Z.of_nat (List.length s).

Fixpoint isPrefix (p s : jsstring) : bool :=
  match p, s with
  | [], _ => true
  | x :: p', y :: s' => (x =? y) && isPrefix p' s'
  | _ :: _, [] => false
  end.

(** [s.indexOf(needle)], counted from offset [i]; -1 when absent. *)
Fixpoint indexOfFrom (needle s : jsstring) (i : Z) : Z :=
  if isPrefix needle s then i
  else match s with
       | [] => -1
       | _ :: r => indexOfFrom needle r (i + 1)
       end.

Definition indexOf (s needle : jsstring) : Z := indexOfFrom needle s 0.

(** [s.lastIndexOf(needle)], counted from offset [i]; -1 when absent. *)
Fixpoint lastIndexOfFrom (needle s : jsstring) (i : Z) : Z :=
  match s with
  | [] => if isPrefix needle [] then i else -1
  | _ :: r =>
      let later := lastIndexOfFrom needle r (i + 1) in
      if later =? -1 then (if isPrefix needle s then i else -1) else later
  end.

Definition lastIndexOf (s needle : jsstring) : Z := lastIndexOfFrom needle s 0.

(** [s.includes(needle)]. *)
Definition includes (s needle : jsstring) : bool :=
  negb (indexOf s needle =? -1).

(** [s.split(sep)] for a one-character separator: never an empty array. *)
Fixpoint split (sep : Z) (s : jsstring) : list jsstring :=
  match s with
  | [] => [[]]
  | x :: r =>
      if x =? sep then [] :: split sep r
      else match split sep r with
           | h :: t => (x :: h) :: t
           | [] => [[x]]
           end
  end.

(** White space as [parseInt] and the regular expression class [\s] see it. *)
Definition isWhiteSpace (c : Z) : bool :=
  ((9 <=? c) && (c <=? 13)) || (c =? 32) || (c =? 160) || (c =? 5760)
  || ((8192 <=? c) && (c <=? 8202)) || (c =? 8232) || (c =? 8233)
  || (c =? 8239) || (c =? 8287) || (c =? 12288) || (c =? 65279).

Definition isDigit (c : Z) : bool := (48 <=? c) && (c <=? 57).

Fixpoint dropWhite (s : jsstring) : jsstring :=
  match s with
  | c :: r => if isWhiteSpace c then dropWhite r else s
  | [] => []
  end.

Fixpoint digitsValue (acc : Z) (s : jsstring) : Z :=
  match s with
  | c :: r => if isDigit c then digitsValue (acc * 10 + (c - 48)) r else acc
  | [] => acc
  end.

Definition startsWithDigit (s : jsstring) : bool :=
  match s with
  | c :: _ => isDigit c
  | [] => false
  end.

(** [parseInt(s, 10)]: leading white space, an optional sign, then the longest
    run of decimal digits; [None] stands for NaN.  The value is exact here,
    where JavaScript rounds to a double beyond 2^53; no comparison made by the
    converter tells the two apart. *)
Definition parseInt (s : jsstring) : option Z :=
  match dropWhite s with
  | 45 :: r => if startsWithDigit r then Some (- digitsValue 0 r) else None
  | 43 :: r => if startsWithDigit r then Some (digitsValue 0 r) else None
  | r => if startsWithDigit r then Some (digitsValue 0 r) else None
  end.

(** [parseInt(s, 10) || d]: NaN and 0 are falsy. *)
Definition parseIntOr (s : jsstring) (d : Z) : Z :=
  match parseInt s with
  | Some n => if n =? 0 then d else n
  | None => d
  end.

(** Template interpolation of an integer. *)
Definition numberToString (n : Z) : jsstring :=
  lit (NilZero.string_of_int (Z.to_int n)).

(** The string iterator ([for (const ch of s)]): one string per code point,
    a high surrogate followed by a low one forming a single element. *)
Definition isHighSurrogate (c : Z) : bool := (55296 <=? c) && (c <=? 56319).
Definition isLowSurrogate (c : Z) : bool := (56320 <=? c) && (c <=? 57343).

Fixpoint codePoints (s : jsstring) : list jsstring :=
  match s with
  | [] => []
  | h :: r =>
      match r with
      | l :: r' =>
          if isHighSurrogate h && isLowSurrogate l
          then [h; l] :: codePoints r'
          else [h] :: codePoints r
      | [] => [[h]]
      end
  end.

(** 32-bit integer view of a number, as the bitwise operators take it. *)
Definition toInt32 (z : Z) : Z := (z + 2147483648) mod 4294967296 - 2147483648.

Definition bor (a b : Z) : Z := toInt32 (Z.lor (toInt32 a) (toInt32 b)).
Definition band (a b : Z) : Z := toInt32 (Z.land (toInt32 a) (toInt32 b)).
Definition shl (a n : Z) : Z := toInt32 (Z.shiftl (toInt32 a) (n mod 32)).

End Js.

Import Js.

(** ** cp437.ts *)

(** [CP437_TO_UNICODE]: the 256 code points, in the table's order. *)
Definition CP437_TO_UNICODE : list Z := [
  0; 9786; 9787; 9829; 9830; 9827; 9824; 8226;
  9688; 9675; 9689; 9794; 9792; 9834; 9835; 9788;
  9658; 9668; 8597; 8252; 182; 167; 9644; 8616;
  8593; 8595; 8594; 8592; 8735; 8596; 9650; 9660;
  32; 33; 34; 35; 36; 37; 38; 39;
  40; 41; 42; 43; 44; 45; 46; 47;
  48; 49; 50; 51; 52; 53; 54; 55;
  56; 57; 58; 59; 60; 61; 62; 63;
  64; 65; 66; 67; 68; 69; 70; 71;
  72; 73; 74; 75; 76; 77; 78; 79;
  80; 81; 82; 83; 84; 85; 86; 87;
  88; 89; 90; 91; 92; 93; 94; 95;
  96; 97; 98; 99; 100; 101; 102; 103;
  104; 105; 106; 107; 108; 109; 110; 111;
  112; 113; 114; 115; 116; 117; 118; 119;
  120; 121; 122; 123; 124; 125; 126; 8962;
  199; 252; 233; 226; 228; 224; 229; 231;
  234; 235; 232; 239; 238; 236; 196; 197;
  201; 230; 198; 244; 246; 242; 251; 249;
  255; 214; 220; 162; 163; 165; 8359; 402;
  225; 237; 243; 250; 241; 209; 170; 186;
  191; 8976; 172; 189; 188; 161; 171; 187;
  9617; 9618; 9619; 9474; 9508; 9569; 9570; 9558;
  9557; 9571; 9553; 9559; 9565; 9564; 9563; 9488;
  9492; 9524; 9516; 9500; 9472; 9532; 9566; 9567;
  9562; 9556; 9577; 9574; 9568; 9552; 9580; 9575;
  9576; 9572; 9573; 9561; 9560; 9554; 9555; 9579;
  9578; 9496; 9484; 9608; 9604; 9612; 9616; 9600;
  945; 223; 915; 960; 931; 963; 181; 964;
  934; 920; 937; 948; 8734; 966; 949; 8745;
  8801; 177; 8805; 8804; 8992; 8993; 247; 8776;
  176; 8729; 183; 8730; 8319; 178; 9632; 160
].

(** [CP437_TO_UNICODE[code]], [None] for [undefined]. *)
Definition cp437 (code : Z) : option Z :=
  if code <? 0 then None else nth_error CP437_TO_UNICODE (Z.to_nat code).

(** ** colors.ts *)

Definition colorToHex (color : Z) : jsstring :=
  if (0 <=? color) && (color <=? 9) then [48 + color]
  else if (10 <=? color) && (color <=? 15) then [97 + color - 10]
  else lit "0".

(** ** converter.ts: the SAUCE trailer *)

Definition LF : jsstring := [10].
Definition CR : jsstring := [13].
Definition QUOTE : jsstring := [34].

Definition nonEmpty (s : jsstring) : bool :=
  match s with
  | [] => false
  | _ :: _ => true
  end.

Record SauceRecord := mkSauce {
  title : jsstring;
  author : jsstring;
  group : jsstring;
  date : jsstring;
  width : Z;
  height : Z;
  comments : list jsstring;
  font : jsstring
}.

(** [CP437_TO_UNICODE[code] ?? String.fromCharCode(code)]. *)
Definition decodeChar (code : Z) : Z :=
  match cp437 code with
  | Some u => u
  | None => code
  end.

(** [result.replace(/[\s\0]+$/, '')]: the trailing run of white space and
    NUL characters is removed. *)
Definition isTrimmed (c : Z) : bool := isWhiteSpace c || (c =? 0).

Fixpoint trimEnd (s : jsstring) : jsstring :=
  match s with
  | [] => []
  | c :: r =>
      match trimEnd r with
      | [] => if isTrimmed c then [] else [c]
      | r' => c :: r'
      end
  end.

Definition decodeField (input : jsstring) (start len : Z) : jsstring :=
  trimEnd (map decodeChar (slice input start (start + len))).

(** The loop over the COMNT body, 64 characters a line, empty lines dropped. *)
Definition commentLines (commentData : jsstring) : list jsstring :=
  filter nonEmpty
    (map (fun k => decodeField commentData (64 * Z.of_nat k) 64)
         (seq 0 (Z.to_nat ((Js.length commentData + 63) / 64)))).

Definition parseSauceRecord (input : jsstring) (saucePos : Z)
    (comntPos : option Z) : option SauceRecord :=
  if saucePos + 128 >? Js.length input then None
  else if negb (streq (slice input saucePos (saucePos + 5)) (lit "SAUCE"))
  then None
  else
    let cs :=
      match comntPos with
      | Some cp =>
          if (cp <? saucePos)
             && streq (slice input cp (cp + 5)) (lit "COMNT")
          then commentLines (slice input (cp + 5) saucePos)
          else []
      | None => []
      end in
    Some {| title := decodeField input (saucePos + 7) 35;
            author := decodeField input (saucePos + 42) 20;
            group := decodeField input (saucePos + 62) 20;
            date := decodeField input (saucePos + 82) 8;
            width := bor (charCodeAt input (saucePos + 96))
                         (shl (charCodeAt input (saucePos + 97)) 8);
            height := bor (charCodeAt input (saucePos + 98))
                          (shl (charCodeAt input (saucePos + 99)) 8);
            comments := cs;
            font := decodeField input (saucePos + 106) 22 |}.

(** [/^\d{8}$/.test(s)]: exactly eight ASCII digits. *)
Definition eightDigits (s : jsstring) : bool :=
  (List.length s =? 8)%nat && forallb isDigit s.

Definition formatSauceOutput (sauce : SauceRecord) : jsstring :=
  let output := [] in
  let output :=
    if nonEmpty (title sauce)
    then output ++ lit "Title: " ++ title sauce ++ LF else output in
  let output :=
    if nonEmpty (author sauce)
    then output ++ lit "Author: " ++ author sauce ++ LF else output in
  let output :=
    if nonEmpty (group sauce)
    then output ++ lit "Group: " ++ group sauce ++ LF else output in
  let output :=
    if nonEmpty (date sauce) then
      if (Js.length (date sauce) =? 8) && eightDigits (date sauce)
      then output ++ lit "Date: " ++ slice (date sauce) 0 4 ++ lit "-"
                  ++ slice (date sauce) 4 6 ++ lit "-"
                  ++ slice (date sauce) 6 8 ++ LF
      else output ++ lit "Date: " ++ date sauce ++ LF
    else output in
  let output :=
    if (width sauce >? 0) || (height sauce >? 0)
    then output ++ lit "Size: " ++ numberToString (width sauce) ++ lit "x"
                ++ numberToString (height sauce) ++ LF
    else output in
  let output :=
    if nonEmpty (font sauce)
    then output ++ lit "Font: " ++ font sauce ++ LF else output in
  fold_left (fun out comment => out ++ lit "Comment: " ++ comment ++ LF)
            (comments sauce) output.

(** [findSaucePositions]: [None] stands for [null]. *)
Definition findSaucePositions (input : jsstring)
    : option Z * option Z * option Z :=
  let saucePos := lastIndexOf input (lit "SAUCE00") in
  if saucePos =? -1 then (None, None, None)
  else
    let searchStart := Z.max 0 (saucePos - (64 * 256 + 5)) in
    let searchArea := slice input searchStart saucePos in
    let comntRelPos := lastIndexOf searchArea (lit "COMNT") in
    let comntPos :=
      if negb (comntRelPos =? -1) then Some (searchStart + comntRelPos)
      else None in
    (Some saucePos, comntPos, Some (saucePos + 128)).

(** ** converter.ts: colours *)

Inductive ParseState :=
| Normal | Escape | Csi | SynchronetCtrlA | RenegadePipe1 | RenegadePipe2.

Definition ansiToCga (ansiColor : Z) : Z :=
  if ansiColor =? 0 then 0
  else if ansiColor =? 1 then 4
  else if ansiColor =? 2 then 2
  else if ansiColor =? 3 then 6
  else if ansiColor =? 4 then 1
  else if ansiColor =? 5 then 5
  else if ansiColor =? 6 then 3
  else if ansiColor =? 7 then 7
  else 7.

Definition ansiBrightToCga (ansiColor : Z) : Z :=
  if ansiColor =? 0 then 8
  else if ansiColor =? 1 then 12
  else if ansiColor =? 2 then 10
  else if ansiColor =? 3 then 14
  else if ansiColor =? 4 then 9
  else if ansiColor =? 5 then 13
  else if ansiColor =? 6 then 11
  else if ansiColor =? 7 then 15
  else 15.

(** ** converter.ts: the converter object *)

Record ConvertOptions := mkOptions {
  synchronetCtrlA : bool;
  renegadePipe : bool;
  utf8Input : bool
}.

Definition defaultOptions : ConvertOptions := mkOptions false false false.

Record Converter := mkConverter {
  foreground : Z;
  background : Z;
  output : jsstring;
  currentColumn : Z;
  lineHasAnsi : bool;
  savePositionActive : bool;
  parseState : ParseState;
  csiParams : jsstring;
  renegadeFirstDigit : Z;
  options : ConvertOptions
}.

(** [new Converter(options)]. *)
Definition newConverter (o : ConvertOptions) : Converter :=
  {| foreground := 7; background := 0; output := [];
     currentColumn := 0; lineHasAnsi := false; savePositionActive := false;
     parseState := Normal; csiParams := []; renegadeFirstDigit := 0;
     options := o |}.

(** Field assignments. *)
Definition set_colors (bg fg : Z) (c : Converter) : Converter :=
  mkConverter fg bg (output c) (currentColumn c) (lineHasAnsi c)
    (savePositionActive c) (parseState c) (csiParams c)
    (renegadeFirstDigit c) (options c).

Definition set_output (s : jsstring) (c : Converter) : Converter :=
  mkConverter (foreground c) (background c) s (currentColumn c)
    (lineHasAnsi c) (savePositionActive c) (parseState c) (csiParams c)
    (renegadeFirstDigit c) (options c).

Definition set_currentColumn (n : Z) (c : Converter) : Converter :=
  mkConverter (foreground c) (background c) (output c) n (lineHasAnsi c)
    (savePositionActive c) (parseState c) (csiParams c)
    (renegadeFirstDigit c) (options c).

Definition set_lineHasAnsi (b : bool) (c : Converter) : Converter :=
  mkConverter (foreground c) (background c) (output c) (currentColumn c) b
    (savePositionActive c) (parseState c) (csiParams c)
    (renegadeFirstDigit c) (options c).

Definition set_savePositionActive (b : bool) (c : Converter) : Converter :=
  mkConverter (foreground c) (background c) (output c) (currentColumn c)
    (lineHasAnsi c) b (parseState c) (csiParams c)
    (renegadeFirstDigit c) (options c).

Definition set_parseState (p : ParseState) (c : Converter) : Converter :=
  mkConverter (foreground c) (background c) (output c) (currentColumn c)
    (lineHasAnsi c) (savePositionActive c) p (csiParams c)
    (renegadeFirstDigit c) (options c).

Definition set_csiParams (s : jsstring) (c : Converter) : Converter :=
  mkConverter (foreground c) (background c) (output c) (currentColumn c)
    (lineHasAnsi c) (savePositionActive c) (parseState c) s
    (renegadeFirstDigit c) (options c).

Definition set_renegadeFirstDigit (d : Z) (c : Converter) : Converter :=
  mkConverter (foreground c) (background c) (output c) (currentColumn c)
    (lineHasAnsi c) (savePositionActive c) (parseState c) (csiParams c)
    d (options c).

(** [this.output += s]. *)
Definition write (s : jsstring) (c : Converter) : Converter :=
  set_output (output c ++ s) c.

Definition openTag (c : Converter) : Converter :=
  let bg := colorToHex (background c) in
  let fg := colorToHex (foreground c) in
  write (lit "<ans-" ++ bg ++ fg ++ lit ">") c.

Definition closeTag (c : Converter) : Converter :=
  let bg := colorToHex (background c) in
  let fg := colorToHex (foreground c) in
  write (lit "</ans-" ++ bg ++ fg ++ lit ">") c.

Definition switchColor (newBg newFg : Z) (c : Converter) : Converter :=
  if negb (newBg =? background c) || negb (newFg =? foreground c)
  then openTag (set_colors newBg newFg (closeTag c))
  else c.

(** One emitted character: the text appended, the column advanced. *)
Definition put (s : jsstring) (c : Converter) : Converter :=
  set_currentColumn (currentColumn c + 1) (write s c).

Definition emitChar (ch : jsstring) (c : Converter) : Converter :=
  if savePositionActive c then c
  else
    let c :=
      if lineHasAnsi c && (currentColumn c >=? 80) && negb (streq ch LF)
      then set_currentColumn 0 (write LF c)
      else c in
    if streq ch (lit "<") then put (lit "&lt;") c
    else if streq ch (lit ">") then put (lit "&gt;") c
    else if streq ch (lit "&") then put (lit "&amp;") c
    else if streq ch QUOTE then put (lit "&quot;") c
    else if streq ch (lit "'") then put (lit "&apos;") c
    else if streq ch LF
    then set_lineHasAnsi false (set_currentColumn 0 (write LF c))
    else if streq ch CR then c
    else put ch c.

(** One parameter of an SGR sequence, on the working copy (newFg, newBg). *)
Definition sgrCode (fb : Z * Z) (code : Z) : Z * Z :=
  let '(newFg, newBg) := fb in
  if code =? 0 then (7, 0)
  else if code =? 1 then (bor newFg 8, newBg)
  else if (code =? 2) || (code =? 22) then (band newFg 7, newBg)
  else if (code =? 5) || (code =? 6) then (newFg, bor newBg 8)
  else if code =? 25 then (newFg, band newBg 7)
  else if code =? 7 then (newBg, newFg)
  else if (30 <=? code) && (code <=? 37)
  then (bor (band newFg 8) (ansiToCga (code - 30)), newBg)
  else if code =? 39 then (7, newBg)
  else if (40 <=? code) && (code <=? 47)
  then (newFg, bor (band newBg 8) (ansiToCga (code - 40)))
  else if code =? 49 then (newFg, 0)
  else if (90 <=? code) && (code <=? 97)
  then (ansiBrightToCga (code - 90), newBg)
  else if (100 <=? code) && (code <=? 107)
  then (newFg, ansiBrightToCga (code - 100))
  else (newFg, newBg).

Definition sgrCodes (params : jsstring) : list Z :=
  if streq params [] then [0]
  else map (fun s => parseIntOr s 0) (split 59 params).

Definition processSgr (params : jsstring) (c : Converter) : Converter :=
  let codes := sgrCodes params in
  let '(newFg, newBg) :=
    fold_left sgrCode codes (foreground c, background c) in
  switchColor newBg newFg c.

(** [for (let i = 0; i < n; i++) this.emitChar(ch)]. *)
Definition emitTimes (n : Z) (ch : jsstring) (c : Converter) : Converter :=
  Nat.iter (Z.to_nat n) (emitChar ch) c.

Definition processCsi (params command : jsstring) (c : Converter)
    : Converter :=
  let c := set_lineHasAnsi true c in
  if streq command (lit "m") then processSgr params c
  else if streq command (lit "J") then
    let n := parseIntOr params 0 in
    if (n =? 2) || (n =? 3)
    then emitChar LF (emitChar LF (emitChar LF c))
    else c
  else if streq command (lit "s") then set_savePositionActive true c
  else if streq command (lit "u") then set_savePositionActive false c
  else if streq command (lit "H") || streq command (lit "f") then c
  else if streq command (lit "C") then
    let n := Z.max 1 (parseIntOr params 1) in
    emitTimes n (lit " ") c
  else c.

(** The [switch] of [processSynchronetCode], on the working copy. *)
Definition synchronetSwitch (code newFg newBg : Z) : Z * Z :=
  if code =? 107 then (0, newBg)        (* k *)
  else if code =? 98 then (1, newBg)    (* b *)
  else if code =? 103 then (2, newBg)   (* g *)
  else if code =? 99 then (3, newBg)    (* c *)
  else if code =? 114 then (4, newBg)   (* r *)
  else if code =? 109 then (5, newBg)   (* m *)
  else if code =? 121 then (6, newBg)   (* y *)
  else if code =? 119 then (7, newBg)   (* w *)
  else if code =? 75 then (8, newBg)    (* K *)
  else if code =? 66 then (9, newBg)    (* B *)
  else if code =? 71 then (10, newBg)   (* G *)
  else if code =? 67 then (11, newBg)   (* C *)
  else if code =? 82 then (12, newBg)   (* R *)
  else if code =? 77 then (13, newBg)   (* M *)
  else if code =? 89 then (14, newBg)   (* Y *)
  else if code =? 87 then (15, newBg)   (* W *)
  else if code =? 48 then (newFg, 0)    (* 0 *)
  else if code =? 49 then (newFg, 1)
  else if code =? 50 then (newFg, 2)
  else if code =? 51 then (newFg, 3)
  else if code =? 52 then (newFg, 4)
  else if code =? 53 then (newFg, 5)
  else if code =? 54 then (newFg, 6)
  else if code =? 55 then (newFg, 7)    (* 7 *)
  else if (code =? 72) || (code =? 104) then (bor newFg 8, newBg)   (* H h *)
  else if (code =? 73) || (code =? 105) then (newFg, bor newBg 8)   (* I i *)
  else if (code =? 78) || (code =? 110) then (7, 0)                 (* N n *)
  else if code =? 45 then (band newFg 7, newBg)                     (* - *)
  else if code =? 95 then (newFg, band newBg 7)                     (* _ *)
  else (newFg, newBg).

Definition processSynchronetCode (code : Z) (c : Converter) : Converter :=
  let c := set_lineHasAnsi true c in
  let '(newFg, newBg) :=
    synchronetSwitch code (foreground c) (background c) in
  switchColor newBg newFg c.

Definition processRenegadeCode (code : Z) (c : Converter) : Converter :=
  let c := set_lineHasAnsi true c in
  let newFg := foreground c in
  let newBg := background c in
  let '(newFg, newBg) :=
    if (code >=? 0) && (code <=? 15) then (code, newBg)
    else if (code >=? 16) && (code <=? 23) then (newFg, code - 16)
    else (newFg, newBg) in
  switchColor newBg newFg c.

(** The [ParseState.Normal] case of [processCharCode]. *)
Definition processNormal (charCode : Z) (c : Converter) : Converter :=
  if charCode =? 27 then set_parseState Escape c
  else if synchronetCtrlA (options c) && (charCode =? 1)
  then set_parseState SynchronetCtrlA c
  else if renegadePipe (options c) && (charCode =? 124)
  then set_parseState RenegadePipe1 c
  else if charCode =? 10 then emitChar LF c
  else if charCode =? 13 then c
  else if (charCode <? 32) || (charCode >=? 127) then
    let unicodeChar :=
      match cp437 charCode with
      | Some u => u
      | None => 65533
      end in
    emitChar [unicodeChar] c
  else emitChar [charCode] c.

(** [processCharCode].  Its two recursive calls are made right after
    [parseState] is set to [Normal], so they run the [Normal] case. *)
Definition processCharCode (charCode : Z) (c : Converter) : Converter :=
  match parseState c with
  | Normal => processNormal charCode c
  | Escape =>
      if charCode =? 91 (* [ *)
      then set_csiParams [] (set_parseState Csi c)
      else if charCode =? 55 (* 7 *)
      then set_parseState Normal
             (set_lineHasAnsi true (set_savePositionActive true c))
      else if charCode =? 56 (* 8 *)
      then set_parseState Normal
             (set_lineHasAnsi true (set_savePositionActive false c))
      else set_parseState Normal c
  | Csi =>
      if ((charCode >=? 48) && (charCode <=? 57)) || (charCode =? 59)
      then set_csiParams (csiParams c ++ [charCode]) c
      else if (charCode >=? 64) && (charCode <=? 126)
      then set_parseState Normal (processCsi (csiParams c) [charCode] c)
      else set_parseState Normal c
  | SynchronetCtrlA =>
      set_parseState Normal (processSynchronetCode charCode c)
  | RenegadePipe1 =>
      if (charCode >=? 48) && (charCode <=? 57)
      then set_parseState RenegadePipe2
             (set_renegadeFirstDigit (charCode - 48) c)
      else processNormal charCode
             (set_parseState Normal (emitChar (lit "|") c))
  | RenegadePipe2 =>
      if (charCode >=? 48) && (charCode <=? 57) then
        let code := renegadeFirstDigit c * 10 + (charCode - 48) in
        set_parseState Normal
          (if code <=? 23 then processRenegadeCode code c else c)
      else
        processNormal charCode
          (set_parseState Normal
             (emitChar [48 + renegadeFirstDigit c] (emitChar (lit "|") c)))
  end.

(** The [ParseState.Normal] case of [processUtf8Char]; [ch] is one element of
    the string iterator and [code] its first code unit. *)
Definition processUtf8Normal (ch : jsstring) (c : Converter) : Converter :=
  let code := charCodeAt ch 0 in
  if code =? 27 then set_parseState Escape c
  else if synchronetCtrlA (options c) && (code =? 1)
  then set_parseState SynchronetCtrlA c
  else if renegadePipe (options c) && streq ch (lit "|")
  then set_parseState RenegadePipe1 c
  else if streq ch LF then emitChar LF c
  else if streq ch CR then c
  else if code <? 32 then
    let unicodeChar :=
      match cp437 code with
      | Some u => u
      | None => 65533
      end in
    emitChar [unicodeChar] c
  else emitChar ch c.

Definition processUtf8Char (ch : jsstring) (c : Converter) : Converter :=
  let code := charCodeAt ch 0 in
  match parseState c with
  | Normal => processUtf8Normal ch c
  | Escape =>
      if streq ch (lit "[")
      then set_csiParams [] (set_parseState Csi c)
      else if streq ch (lit "7")
      then set_parseState Normal
             (set_lineHasAnsi true (set_savePositionActive true c))
      else if streq ch (lit "8")
      then set_parseState Normal
             (set_lineHasAnsi true (set_savePositionActive false c))
      else set_parseState Normal c
  | Csi =>
      if ((code >=? 48) && (code <=? 57)) || streq ch (lit ";")
      then set_csiParams (csiParams c ++ ch) c
      else if (code >=? 64) && (code <=? 126)
      then set_parseState Normal (processCsi (csiParams c) ch c)
      else set_parseState Normal c
  | SynchronetCtrlA =>
      set_parseState Normal
        (if code <=? 255 then processSynchronetCode code c else c)
  | RenegadePipe1 =>
      if (code >=? 48) && (code <=? 57)
      then set_parseState RenegadePipe2
             (set_renegadeFirstDigit (code - 48) c)
      else processUtf8Normal ch
             (set_parseState Normal (emitChar (lit "|") c))
  | RenegadePipe2 =>
      if (code >=? 48) && (code <=? 57) then
        let pipeCode := renegadeFirstDigit c * 10 + (code - 48) in
        set_parseState Normal
          (if pipeCode <=? 23 then processRenegadeCode pipeCode c else c)
      else
        processUtf8Normal ch
          (set_parseState Normal
             (emitChar [48 + renegadeFirstDigit c] (emitChar (lit "|") c)))
  end.

(** A loop feeding characters to the state machine. *)
Definition processAll (cs : jsstring) (c : Converter) : Converter :=
  fold_left (fun c ch => processCharCode ch c) cs c.

Definition processAllUtf8 (chs : list jsstring) (c : Converter) : Converter :=
  fold_left (fun c ch => processUtf8Char ch c) chs c.

Definition emitAll (chs : list jsstring) (c : Converter) : Converter :=
  fold_left (fun c ch => emitChar ch c) chs c.

(** The loop over the text after the SAUCE record, left at a SUB. *)
Fixpoint processUntilSub (cs : jsstring) (c : Converter) : Converter :=
  match cs with
  | [] => c
  | ch :: r => if ch =? 26 then c else processUntilSub r (processCharCode ch c)
  end.

Fixpoint processUtf8UntilSub (chs : list jsstring) (c : Converter)
    : Converter :=
  match chs with
  | [] => c
  | ch :: r =>
      if streq ch [26] then c
      else processUtf8UntilSub r (processUtf8Char ch c)
  end.

(** [contentEnd], from the first SUB (-1 when absent) and the positions of
    [findSaucePositions]. *)
Definition contentEnd (input : jsstring) (subPos : Z)
    (comntPos saucePos : option Z) : Z :=
  if negb (subPos =? -1) then subPos
  else match comntPos with
       | Some p => p
       | None => match saucePos with
                 | Some p => p
                 | None => Js.length input
                 end
       end.

(** The opening [<pre class=...>] with its quoted class name. *)
Definition header : jsstring :=
  lit "<pre class=" ++ QUOTE ++ lit "ansi" ++ QUOTE ++ lit ">".

(** The metadata block of a trailer, through the emitter. *)
Definition emitSauce (input : jsstring) (saucePos : Z) (comntPos : option Z)
    (c : Converter) : Converter :=
  match parseSauceRecord input saucePos comntPos with
  | Some sauce =>
      let sauceOutput := formatSauceOutput sauce in
      if nonEmpty sauceOutput
      then emitAll (codePoints sauceOutput) (emitChar LF c)
      else c
  | None => c
  end.

(** Not only NUL and SUB characters. *)
Definition hasMeaningfulContent (codes : list Z) : bool :=
  existsb (fun code => negb (code =? 0) && negb (code =? 26)) codes.

(** [convert], the CP437 path: the converter as it stands before the closing
    tag is written. *)
Definition convertState (input : jsstring) (c : Converter) : Converter :=
  let c := openTag (set_output header c) in
  let subPos := indexOf input [26] in
  let '(saucePos, comntPos, afterSaucePos) := findSaucePositions input in
  let c :=
    processAll (slice input 0 (contentEnd input subPos comntPos saucePos)) c in
  match saucePos with
  | Some sp =>
      let c := emitSauce input sp comntPos c in
      match afterSaucePos with
      | Some ap =>
          if ap <? Js.length input then
            let remaining := sliceFrom input ap in
            if hasMeaningfulContent remaining
            then processUntilSub remaining (emitChar LF c)
            else c
          else c
      | None => c
      end
  | None => c
  end.

Definition convert (input : jsstring) (c : Converter) : jsstring :=
  output (closeTag (convertState input c)) ++ lit "</pre>".

(** [convertUtf8], the UTF-8 path, in the same two parts. *)
Definition convertUtf8State (input : jsstring) (c : Converter) : Converter :=
  let c := openTag (set_output header c) in
  let subPos := indexOf input [26] in
  let '(saucePos, comntPos, afterSaucePos) := findSaucePositions input in
  let c :=
    processAllUtf8
      (codePoints
         (slice input 0 (contentEnd input subPos comntPos saucePos))) c in
  match saucePos with
  | Some sp =>
      let c := emitSauce input sp comntPos c in
      match afterSaucePos with
      | Some ap =>
          if ap <? Js.length input then
            let remaining := codePoints (sliceFrom input ap) in
            if hasMeaningfulContent
                 (map (fun ch => charCodeAt ch 0) remaining)
            then processUtf8UntilSub remaining (emitChar LF c)
            else c
          else c
      | None => c
      end
  | None => c
  end.

Definition convertUtf8 (input : jsstring) (c : Converter) : jsstring :=
  output (closeTag (convertUtf8State input c)) ++ lit "</pre>".

Definition ansiToHtml (input : jsstring) (o : ConvertOptions) : jsstring :=
  let converter := newConverter o in
  if utf8Input o then convertUtf8 input converter
  else convert input converter.

Definition ESC : Z := 27.
Definition SUB : Z := 26.

(** * Vocabulary of the statements *)

(** ** Nibbles: the range 0..15 by enumeration *)

Definition nibbles : list Z := map Z.of_nat (seq 0 16).

Definition inNibble (z : Z) : bool := (0 <=? z) && (z <=? 15).

(** ** The colour fields stay CGA indices *)

Definition cga (c : Converter) : Prop :=
  0 <= foreground c <= 15 /\ 0 <= background c <= 15.

Definition cgaPair (fb : Z * Z) : Prop :=
  0 <= fst fb <= 15 /\ 0 <= snd fb <= 15.

(** The calls a conversion makes on its converter. *)
Inductive step : Converter -> Converter -> Prop :=
| step_processCharCode ch c : step c (processCharCode ch c)
| step_processUtf8Char ch c : step c (processUtf8Char ch c)
| step_processCsi params command c : step c (processCsi params command c)
| step_processSgr params c : step c (processSgr params c)
| step_processSynchronetCode code c : step c (processSynchronetCode code c)
| step_processRenegadeCode code c : step c (processRenegadeCode code c)
| step_emitChar ch c : step c (emitChar ch c)
| step_openTag c : step c (openTag c)
| step_closeTag c : step c (closeTag c)
| step_output s c : step c (set_output s c).

(** The converters a conversion with options [o] can go through. *)
Inductive reachable (o : ConvertOptions) : Converter -> Prop :=
| reach_new : reachable o (newConverter o)
| reach_step c c' : reachable o c -> step c c' -> reachable o c'.

(** A lowercase hexadecimal digit and the nibble it writes. *)
Definition lowerHex (h : Z) : Prop := 48 <= h <= 57 \/ 97 <= h <= 102.

Definition hexValue (h : Z) : Z := if h <=? 57 then h - 48 else h - 87.

(** ** Save-position suppression *)

(** The characters that leave the [Normal] state: ESC and the prefix of an
    enabled vendor dialect. *)
Definition startsSequence (o : ConvertOptions) (ch : Z) : bool :=
  (ch =? 27) || (synchronetCtrlA o && (ch =? 1))
  || (renegadePipe o && (ch =? 124)).

Definition plainText (o : ConvertOptions) (cs : jsstring) : bool :=
  forallb (fun ch => negb (startsSequence o ch)) cs.

(** ** The SAUCE metadata block *)

(** The block as the specification words it: the lines, in order, as
    key and value. *)
Definition formattedDate (d : jsstring) : jsstring :=
  if eightDigits d
  then slice d 0 4 ++ lit "-" ++ slice d 4 6 ++ lit "-" ++ slice d 6 8
  else d.

Definition fieldLine (key value : jsstring) : list (jsstring * jsstring) :=
  if nonEmpty value then [(key, value)] else [].

Definition sauceLines (s : SauceRecord) : list (jsstring * jsstring) :=
  fieldLine (lit "Title") (title s)
  ++ fieldLine (lit "Author") (author s)
  ++ fieldLine (lit "Group") (group s)
  ++ (if nonEmpty (date s) then [(lit "Date", formattedDate (date s))] else [])
  ++ (if negb (width s =? 0) || negb (height s =? 0)
      then [(lit "Size",
             numberToString (width s) ++ lit "x" ++ numberToString (height s))]
      else [])
  ++ fieldLine (lit "Font") (font s)
  ++ map (fun comment => (lit "Comment", comment)) (comments s).

Definition keyValue (kv : jsstring * jsstring) : jsstring :=
  fst kv ++ lit ": " ++ snd kv.

Definition renderLines (lines : list (jsstring * jsstring)) : jsstring :=
  List.concat (map (fun kv => keyValue kv ++ LF) lines).

(** A JavaScript string: UTF-16 code units. *)
Definition codeUnits (s : jsstring) : Prop :=
  forallb (fun c => (0 <=? c) && (c <=? 65535)) s = true.

(** Nothing in a decoded field is a line feed, so every key and value of the
    block sits on a line of its own. *)
Definition noLF (s : jsstring) : Prop := ~ In 10 s.

(** The helper of the test suite that builds a 128-byte SAUCE record. *)
Fixpoint padEnd (s : jsstring) (len : nat) (fill : Z) : jsstring :=
  match len with
  | O => []
  | S len' =>
      match s with
      | [] => fill :: padEnd [] len' fill
      | x :: r => x :: padEnd r len' fill
      end
  end.

Definition createSauceRecord (title author group date : jsstring)
    (w h : Z) (font : jsstring) : jsstring :=
  lit "SAUCE00"
  ++ padEnd title 35 32 ++ padEnd author 20 32 ++ padEnd group 20 32
  ++ padEnd date 8 32
  ++ [0; 0; 0; 0] ++ [1; 1]
  ++ [Z.land w 255; Z.land (Z.shiftr w 8) 255]
  ++ [Z.land h 255; Z.land (Z.shiftr h 8) 255]
  ++ [0; 0; 0; 0] ++ [0] ++ [0]
  ++ padEnd font 22 0.

Definition sampleSauce : jsstring :=
  createSauceRecord (lit "Test Title") (lit "Test Author") (lit "Test Group")
    (lit "20240115") 80 25 (lit "IBM VGA").

Definition sampleRecord : SauceRecord :=
  {| title := lit "Test Title"; author := lit "Test Author";
     group := lit "Test Group"; date := lit "20240115";
     width := 80; height := 25; comments := []; font := lit "IBM VGA" |}.

(** ** Extended colours, doubled pipes and the content bound: what the
    converter does on the inputs of the test suite *)

Definition renegadeOptions : ConvertOptions := mkOptions false true false.
Definition synchronetOptions : ConvertOptions := mkOptions true false false.

(** The tag the 256-colour test expects. *)
Definition tag256 : jsstring :=
  lit "<ans-256 fg=" ++ QUOTE ++ lit "196" ++ QUOTE
  ++ lit " bg=" ++ QUOTE ++ lit "bg-0" ++ QUOTE ++ lit ">".

(** ** Searching a marker *)

(** [needle] stands somewhere in [s]. *)
Fixpoint occurs (needle s : jsstring) : bool :=
  isPrefix needle s
  || match s with
     | [] => false
     | _ :: r => occurs needle r
     end.

(** ** The string iterator *)

(** An element of the iterator: one code unit, or a surrogate pair. *)
Definition isChar (ch : jsstring) : Prop :=
  (exists u, ch = [u])
  \/ (exists h l, ch = [h; l] /\ isHighSurrogate h = true
                  /\ isLowSurrogate l = true).

(** Characters that are no surrogates are iterated one by one. *)
Definition noSurrogate (s : jsstring) : bool :=
  forallb (fun c => negb (isHighSurrogate c)) s.

(** ** A conversion without trailer *)

(** The converter when the content loop starts, and the content loop of
    either path. *)
Definition start (o : ConvertOptions) : Converter :=
  openTag (set_output header (newConverter o)).

Definition feed (o : ConvertOptions) (s : jsstring) (c : Converter)
    : Converter :=
  if utf8Input o then processAllUtf8 (codePoints s) c else processAll s c.

(** ** A prefix at the end of the input *)

(** The state a vendor prefix leaves the machine in. *)
Definition pendingState (p : Z) : ParseState :=
  if p =? 1 then SynchronetCtrlA else RenegadePipe1.

Definition vendorPrefix (o : ConvertOptions) (p : Z) : Prop :=
  (p = 124 /\ renegadePipe o = true) \/ (p = 1 /\ synchronetCtrlA o = true).

(** ** The emitter on text *)

(** What [emitChar] writes for a character other than LF and CR. *)
Definition escapeHtml (ch : jsstring) : jsstring :=
  if streq ch (lit "<") then lit "&lt;"
  else if streq ch (lit ">") then lit "&gt;"
  else if streq ch (lit "&") then lit "&amp;"
  else if streq ch QUOTE then lit "&quot;"
  else if streq ch (lit "'") then lit "&apos;"
  else ch.

(** The soft wrap [emitChar] makes before such a character. *)
Definition wrapIfNeeded (c : Converter) : Converter :=
  if lineHasAnsi c && (currentColumn c >=? 80)
  then set_currentColumn 0 (write LF c)
  else c.

Definition isText (ch : jsstring) : bool :=
  negb (streq ch LF) && negb (streq ch CR).

(** [n] characters written as [s], no wrap. *)
Definition typed (s : jsstring) (n : Z) (c : Converter) : Converter :=
  set_currentColumn (currentColumn c + n) (write s c).



Definition renderText (gs : list jsstring) : jsstring :=
  List.concat (map escapeHtml gs).

(** ** Text in the [Normal] state *)

(** The character [processCharCode] hands to the emitter for a character code
    that is neither LF nor CR, and the one [processUtf8Char] hands on. *)
Definition glyph437 (charCode : Z) : jsstring :=
  if (charCode <? 32) || (charCode >=? 127)
  then [match cp437 charCode with
        | Some u => u
        | None => 65533
        end]
  else [charCode].

Definition glyphUtf8 (ch : jsstring) : jsstring :=
  if charCodeAt ch 0 <? 32
  then [match cp437 (charCodeAt ch 0) with
        | Some u => u
        | None => 65533
        end]
  else ch.

(** ** A run of literal characters *)

(** The units either path iterates over, the characters that are written as
    text, and what is handed to the emitter for them. *)
Definition characters (o : ConvertOptions) (s : jsstring) : list jsstring :=
  if utf8Input o then codePoints s else map (fun c => [c]) s.


Definition glyph (o : ConvertOptions) (ch : jsstring) : jsstring :=
  if utf8Input o then glyphUtf8 ch else glyph437 (charCodeAt ch 0).

(** ** An SGR sequence in front *)

Definition isParam (c : Z) : bool := isDigit c || (c =? 59).


(** ** A line without escape sequence *)

(** What the [Normal] state hands to the emitter for one character of plain
    text: the line feed itself, nothing for a carriage return, else the
    glyph. *)
Definition plainGlyph (o : ConvertOptions) (ch : jsstring) : list jsstring :=
  if charCodeAt ch 0 =? 10 then [LF]
  else if charCodeAt ch 0 =? 13 then []
  else [glyph o ch].

Definition plainGlyphs (o : ConvertOptions) (s : jsstring) : list jsstring :=
  flat_map (plainGlyph o) (characters o s).

Definition notCR (ch : jsstring) : bool := negb (streq ch CR).


(** ** colors.ts: the palette *)

(** [CGA_COLORS]. *)
Definition CGA_COLORS : list jsstring := [
  lit "#000000"; lit "#0000AA"; lit "#00AA00"; lit "#00AAAA";
  lit "#AA0000"; lit "#AA00AA"; lit "#AA5500"; lit "#AAAAAA";
  lit "#555555"; lit "#5555FF"; lit "#55FF55"; lit "#55FFFF";
  lit "#FF5555"; lit "#FF55FF"; lit "#FFFF55"; lit "#FFFFFF"
].

(** A byte as two upper-case hexadecimal digits. *)
Definition upperHex (d : Z) : Z := if d <=? 9 then 48 + d else 55 + d.

Definition hexByte (n : Z) : jsstring :=
  [upperHex (n / 16); upperHex (n mod 16)].

(** The level of one channel of colour [i] in the IRGB layout: bit 3 is the
    intensity, bits 2, 1 and 0 are red, green and blue. *)
Definition channel (i bit : Z) : Z :=
  (if Z.testbit i bit then 170 else 0) + (if Z.testbit i 3 then 85 else 0).

Definition irgb (i : Z) : jsstring :=
  lit "#" ++ hexByte (channel i 2) ++ hexByte (channel i 1)
  ++ hexByte (channel i 0).

(** A range of integers by enumeration. *)
Definition range (lo : nat) (len : nat) : list Z := map Z.of_nat (seq lo len).

(** ** Writing a record and reading it back *)

(** A value a field of [n] characters holds unchanged: it fits, is printable
    ASCII and does not end in a space. *)
Definition printable (c : Z) : bool := (32 <=? c) && (c <=? 126).

Definition fieldText (n : nat) (s : jsstring) : bool :=
  (List.length s <=? n)%nat && forallb printable s
  && negb (isTrimmed (last s 65)).

(** ** Elements and the text between their tags *)

Definition openingTag (bg fg : Z) : jsstring :=
  lit "<ans-" ++ colorToHex bg ++ colorToHex fg ++ lit ">".

Definition closingTag (bg fg : Z) : jsstring :=
  lit "</ans-" ++ colorToHex bg ++ colorToHex fg ++ lit ">".

(** A character of escaped text: no angle bracket, no quote of either kind,
    no carriage return. *)
Definition textUnit (x : Z) : bool :=
  negb (x =? 60) && negb (x =? 62) && negb (x =? 34) && negb (x =? 39)
  && negb (x =? 13).

(** What stands between the header and the last closing tag: elements one
    after the other, each closed by the tag of its own colours before the
    next is opened, the last one, of colours [bg] and [fg], still open. *)
Inductive body : Z -> Z -> jsstring -> Prop :=
| body_open bg fg : body bg fg (openingTag bg fg)
| body_text bg fg s t :
    body bg fg s -> forallb textUnit t = true -> body bg fg (s ++ t)
| body_switch bg fg s bg' fg' :
    body bg fg s -> body bg' fg' (s ++ closingTag bg fg ++ openingTag bg' fg').

(** The output so far is the header and such a body. *)
Definition shaped (c : Converter) : Prop :=
  exists s, output c = header ++ s /\ body (background c) (foreground c) s.

(** The converter before the last closing tag, on either path. *)
Definition finalState (input : jsstring) (o : ConvertOptions) : Converter :=
  if utf8Input o then convertUtf8State input (newConverter o)
  else convertState input (newConverter o).

(** ** Counting markup characters *)

Definition occurrences (x : Z) (s : jsstring) : nat := count_occ Z.eq_dec s x.

(** ** The two paths on ASCII *)

(** Code units below 0x7F only. *)
Definition isAscii (s : jsstring) : bool :=
  forallb (fun u => (0 <=? u) && (u <? 127)) s.

(** The converter with the [utf8Input] option set to [b]. *)
Definition withUtf8 (b : bool) (c : Converter) : Converter :=
  mkConverter (foreground c) (background c) (output c) (currentColumn c)
    (lineHasAnsi c) (savePositionActive c) (parseState c) (csiParams c)
    (renegadeFirstDigit c)
    (mkOptions (synchronetCtrlA (options c)) (renegadePipe (options c)) b).

(** ** One CSI sequence *)

(** The converter after ESC [ params x, met in the [Normal] state, where [x]
    is the first character that is no parameter character. *)
Definition csiEnd (params : jsstring) (x : Z) (c : Converter) : Converter :=
  let c := set_csiParams params (set_parseState Csi c) in
  set_parseState Normal
    (if (x >=? 64) && (x <=? 126) then processCsi params [x] c else c).

Definition notLF (x : Z) : bool := negb (x =? 10).

(** ** wwwroot/ansi-display.js: the custom elements *)

(** [colors] and [hexChars] of the script. *)
Definition colors : list jsstring := [
  lit "#000000"; lit "#0000AA"; lit "#00AA00"; lit "#00AAAA";
  lit "#AA0000"; lit "#AA00AA"; lit "#AA5500"; lit "#AAAAAA";
  lit "#555555"; lit "#5555FF"; lit "#55FF55"; lit "#55FFFF";
  lit "#FF5555"; lit "#FF55FF"; lit "#FFFF55"; lit "#FFFFFF"
].

Definition hexChars : jsstring := lit "0123456789abcdef".

(** [s.toLowerCase()] on the ASCII letters. *)
Definition toLowerCase (s : jsstring) : jsstring :=
  map (fun c => if (65 <=? c) && (c <=? 90) then c + 32 else c) s.

(** The registry of custom elements: a name and, for an element of the
    script, the background and the foreground colour its
    [connectedCallback] sets. *)
Definition Registry := list (jsstring * (jsstring * jsstring)).

(** [customElements.get(name)], [None] for [undefined]. *)
Fixpoint get (r : Registry) (name : jsstring)
    : option (jsstring * jsstring) :=
  match r with
  | [] => None
  | (n, style) :: r' => if streq n name then Some style else get r' name
  end.

(** [customElements.define(name, AnsElement)]. *)
Definition define (name : jsstring) (style : jsstring * jsstring)
    (r : Registry) : Registry :=
  (name, style) :: r.

(** [`ans-${hexChars[bg]}${hexChars[fg]}`]. *)
Definition tagName (bg fg : nat) : jsstring :=
  lit "ans-" ++ [nth bg hexChars 0] ++ [nth fg hexChars 0].

(** The body of the two loops. *)
Definition registerElement (r : Registry) (bgfg : nat * nat) : Registry :=
  let '(bg, fg) := bgfg in
  match get r (toLowerCase (tagName bg fg)) with
  | None =>
      let bgColor := nth bg colors [] in
      let fgColor := nth fg colors [] in
      define (toLowerCase (tagName bg fg)) (bgColor, fgColor) r
  | Some _ => r
  end.

(** [for (let bg = 0; bg < 16; bg++) for (let fg = 0; fg < 16; fg++) ...]. *)
Definition registerAll (r : Registry) : Registry :=
  fold_left
    (fun r bg => fold_left (fun r fg => registerElement r (bg, fg))
                   (seq 0 16) r)
    (seq 0 16) r.

(** The pairs in the order of the loops. *)
Definition colourPairs : list (nat * nat) :=
  flat_map (fun bg => map (pair bg) (seq 0 16)) (seq 0 16).

(** The first element of the loops with a given name. *)
Definition firstStyle (l : list (nat * nat)) (name : jsstring)
    : option (jsstring * jsstring) :=
  match find (fun p => streq (toLowerCase (tagName (fst p) (snd p))) name) l
  with
  | Some p => Some (nth (fst p) colors [], nth (snd p) colors [])
  | None => None
  end.

(** The name the converter writes in a tag. *)
Definition writtenName (bg fg : Z) : jsstring :=
  lit "ans-" ++ colorToHex bg ++ colorToHex fg.

Definition sameStyle (a b : option (jsstring * jsstring)) : bool :=
  match a, b with
  | Some (a1, a2), Some (b1, b2) => streq a1 b1 && streq a2 b2
  | None, None => true
  | _, _ => false
  end.

(** ** wwwroot/ansi-display.js: the 256-colour palette *)

(** The template [`rgb(${r},${g},${b})`]. *)
Definition rgb (r g b : Z) : jsstring :=
  lit "rgb(" ++ numberToString r ++ lit "," ++ numberToString g ++ lit ","
  ++ numberToString b ++ lit ")".

Definition toValue (c : Z) : Z := if c =? 0 then 0 else 55 + c * 40.

(** [palette256ToRgb(index)], for the indices 0..255 its one caller
    passes. *)
Definition palette256ToRgb (index : Z) : jsstring :=
  if index <? 16 then nth (Z.to_nat index) colors []
  else if index <? 232 then
    let cubeIndex := index - 16 in
    let r := cubeIndex / 36 in
    let g := (cubeIndex mod 36) / 6 in
    let b := cubeIndex mod 6 in
    rgb (toValue r) (toValue g) (toValue b)
  else
    let gray := (index - 232) * 10 + 8 in
    rgb gray gray gray.

Definition extended : list Z := range 16 240.

(** ** Content, SUB, record *)

(** Characters that pad a file behind its record. *)
Definition isPad (x : Z) : bool := (x =? 0) || (x =? 26).

Definition padFree (needle : jsstring) : Prop :=
  forall x, In x needle -> isPad x = false.

(** ** The comment block *)

Definition commentedFile : jsstring :=
  lit "Art" ++ [26] ++ lit "COMNT" ++ padEnd (lit "First comment") 64 32
  ++ padEnd [] 64 32 ++ padEnd (lit "Second") 64 32 ++ sampleSauce.

(** * Verification *)

(** ** The embedding on the test suite the converter passes *)

Example test_basic_text :
  ansiToHtml (lit "Hello") defaultOptions
  = header ++ lit "<ans-07>Hello</ans-07></pre>".
Proof. vm_compute. reflexivity. Qed.

Example test_escapes_html :
  includes (ansiToHtml (lit "<script>&</script>") defaultOptions)
    (lit "&lt;script&gt;&amp;&lt;/script&gt;") = true.
Proof. vm_compute. reflexivity. Qed.

Example test_reset_colors :
  let html := ansiToHtml (ESC :: lit "[31mRed" ++ ESC :: lit "[0mNormal")
                defaultOptions in
  includes html (lit "<ans-04>Red</ans-04>") = true
  /\ includes html (lit "<ans-07>Normal") = true.
Proof. vm_compute. auto. Qed.

Example test_bold_blue :
  includes (ansiToHtml (ESC :: lit "[1;34mBold Blue") defaultOptions)
    (lit "<ans-09>") = true.
Proof. vm_compute. reflexivity. Qed.

Example test_clear_screen :
  includes (ansiToHtml (lit "Before" ++ ESC :: lit "[2JAfter") defaultOptions)
    [10; 10; 10] = true.
Proof. vm_compute. reflexivity. Qed.

Example test_carriage_return :
  let html := ansiToHtml (lit "Line1" ++ [13; 10] ++ lit "Line2")
                defaultOptions in
  includes html [13] = false
  /\ includes html (lit "Line1" ++ [10] ++ lit "Line2") = true.
Proof. vm_compute. auto. Qed.

Example test_cursor_forward :
  includes (ansiToHtml (lit "A" ++ ESC :: lit "[5CB") defaultOptions)
    (lit "A     B") = true.
Proof. vm_compute. reflexivity. Qed.

Example test_box_drawing :
  ansiToHtml [218; 196; 196; 191] defaultOptions
  = header ++ lit "<ans-07>" ++ [9484; 9472; 9472; 9488]
    ++ lit "</ans-07></pre>".
Proof. vm_compute. reflexivity. Qed.

Example test_synchronet_bright :
  includes (ansiToHtml (1 :: lit "RBright Red") (mkOptions true false false))
    (lit "<ans-0c>") = true
  /\ includes (ansiToHtml (1 :: lit "rText") defaultOptions)
       (9786 :: lit "rText") = true.
Proof. vm_compute. auto. Qed.

Example test_renegade :
  includes (ansiToHtml (lit "|17Blue BG") (mkOptions false true false))
    (lit "<ans-17>") = true
  /\ includes (ansiToHtml (lit "|0XText") (mkOptions false true false))
       (lit "|0XText") = true
  /\ includes (ansiToHtml (lit "|04Text") defaultOptions)
       (lit "|04Text") = true.
Proof. vm_compute. auto. Qed.

Example test_utf8 :
  includes (ansiToHtml (lit "|04Red |02Gr" ++ [252] ++ lit "n")
              (mkOptions false true true))
    (lit "<ans-02>Gr" ++ [252] ++ lit "n") = true
  /\ includes (ansiToHtml (lit "Hello, " ++ [19990; 30028] ++ lit "!")
                 (mkOptions false false true))
       (lit "Hello, " ++ [19990; 30028] ++ lit "!") = true.
Proof. vm_compute. auto. Qed.

(** ** Strings *)

Lemma streq_eq (a b : jsstring) : streq a b = true <-> a = b.
Proof.
  unfold streq. destruct (list_eq_dec Z.eq_dec a b); split; congruence.
Qed.

Lemma streq_refl (a : jsstring) : streq a a = true.
Proof. apply streq_eq. reflexivity. Qed.

Lemma streq_neq (a b : jsstring) : streq a b = false <-> a <> b.
Proof.
  unfold streq. destruct (list_eq_dec Z.eq_dec a b); split; congruence.
Qed.

(** ** 32-bit operators *)

Lemma toInt32_small (z : Z) :
  -2147483648 <= z < 2147483648 -> toInt32 z = z.
Proof.
  intros H. unfold toInt32. rewrite Z.mod_small; lia.
Qed.

Lemma toInt32_mod (z : Z) : toInt32 z mod 4294967296 = z mod 4294967296.
Proof.
  unfold toInt32.
  replace ((z + 2147483648) mod 4294967296 - 2147483648)
    with ((z + 2147483648) mod 4294967296 + 2147483648 + (-1) * 4294967296)
    by lia.
  rewrite Z.mod_add by lia.
  rewrite Zplus_mod_idemp_l.
  replace (z + 2147483648 + 2147483648) with (z + 1 * 4294967296) by lia.
  apply Z.mod_add. lia.
Qed.

Lemma toInt32_congr (a b : Z) :
  a mod 4294967296 = b mod 4294967296 -> toInt32 a = toInt32 b.
Proof.
  intros H. unfold toInt32.
  rewrite <- (Zplus_mod_idemp_l a), <- (Zplus_mod_idemp_l b), H.
  reflexivity.
Qed.

Lemma mod32_ones (a : Z) : a mod 4294967296 = Z.land a (Z.ones 32).
Proof. rewrite Z.land_ones by lia. reflexivity. Qed.

Lemma lor_mod32 (a b : Z) :
  Z.lor a b mod 4294967296
  = Z.lor (a mod 4294967296) (b mod 4294967296).
Proof. rewrite !mod32_ones. apply Z.land_lor_distr_l. Qed.

Lemma land_mod32 (a b : Z) :
  Z.land a b mod 4294967296
  = Z.land (a mod 4294967296) (b mod 4294967296).
Proof.
  rewrite !mod32_ones. apply Z.bits_inj'. intros n Hn.
  rewrite !Z.land_spec.
  destruct (Z.testbit a n), (Z.testbit b n), (Z.testbit (Z.ones 32) n);
    reflexivity.
Qed.

Lemma bor_idem (x k : Z) : bor (bor x k) k = bor x k.
Proof.
  unfold bor. generalize (toInt32 k) as m, (toInt32 x) as y. intros m y.
  apply toInt32_congr.
  rewrite lor_mod32, !toInt32_mod, <- lor_mod32.
  rewrite <- Z.lor_assoc, Z.lor_diag. reflexivity.
Qed.

Lemma band_idem (x k : Z) : band (band x k) k = band x k.
Proof.
  unfold band. generalize (toInt32 k) as m, (toInt32 x) as y. intros m y.
  apply toInt32_congr.
  rewrite land_mod32, !toInt32_mod, <- land_mod32.
  rewrite <- Z.land_assoc, Z.land_diag. reflexivity.
Qed.

(** ** Nibbles: the range 0..15 by enumeration *)

Lemma forall_nibble (P : Z -> bool) :
  forallb P nibbles = true -> forall f, 0 <= f <= 15 -> P f = true.
Proof.
  intros H f Hf. rewrite forallb_forall in H. apply H.
  replace f with (Z.of_nat (Z.to_nat f)) by lia.
  unfold nibbles. apply in_map, in_seq. lia.
Qed.

Lemma inNibble_iff (z : Z) : inNibble z = true <-> 0 <= z <= 15.
Proof. unfold inNibble. rewrite andb_true_iff, !Z.leb_le. tauto. Qed.

Lemma bor8_nibble (f : Z) : 0 <= f <= 15 -> 0 <= bor f 8 <= 15.
Proof.
  intros H. apply inNibble_iff.
  revert f H. apply forall_nibble. vm_compute. reflexivity.
Qed.

Lemma band7_nibble (f : Z) : 0 <= f <= 15 -> 0 <= band f 7 <= 15.
Proof.
  intros H. apply inNibble_iff.
  revert f H. apply forall_nibble. vm_compute. reflexivity.
Qed.

Lemma forall_hue (P : Z -> bool) :
  forallb P (firstn 8 nibbles) = true -> forall x, 0 <= x <= 7 -> P x = true.
Proof.
  intros H x Hx. rewrite forallb_forall in H. apply H.
  replace x with (Z.of_nat (Z.to_nat x)) by lia.
  change (firstn 8 nibbles) with (map Z.of_nat (seq 0 8)).
  apply in_map, in_seq. lia.
Qed.

Lemma hue_nibble (f x : Z) :
  0 <= f <= 15 -> 0 <= x <= 7 -> 0 <= bor (band f 8) x <= 15.
Proof.
  intros Hf Hx. apply inNibble_iff.
  revert x Hx.
  apply (forall_hue (fun x => inNibble (bor (band f 8) x))).
  revert f Hf.
  apply (forall_nibble
           (fun f => forallb (fun x => inNibble (bor (band f 8) x))
                       (firstn 8 nibbles))).
  vm_compute. reflexivity.
Qed.

Lemma ansiToCga_range (a : Z) : 0 <= ansiToCga a <= 7.
Proof.
  unfold ansiToCga.
  repeat match goal with |- context [if ?b then _ else _] => destruct b end;
    lia.
Qed.

Lemma ansiBrightToCga_range (a : Z) : 8 <= ansiBrightToCga a <= 15.
Proof.
  unfold ansiBrightToCga.
  repeat match goal with |- context [if ?b then _ else _] => destruct b end;
    lia.
Qed.

(** ** What each method leaves alone *)

Ltac split_ifs :=
  repeat match goal with
         | |- context [if ?b then _ else _] => destruct b
         end.

Lemma emitChar_frame (ch : jsstring) (c : Converter) :
  foreground (emitChar ch c) = foreground c
  /\ background (emitChar ch c) = background c
  /\ savePositionActive (emitChar ch c) = savePositionActive c
  /\ parseState (emitChar ch c) = parseState c
  /\ csiParams (emitChar ch c) = csiParams c
  /\ renegadeFirstDigit (emitChar ch c) = renegadeFirstDigit c
  /\ options (emitChar ch c) = options c.
Proof.
  unfold emitChar. cbv zeta.
  destruct (savePositionActive c) eqn:Hs; [tauto|].
  split_ifs; cbn; auto 10.
Qed.

Lemma emitTimes_frame (n : Z) (ch : jsstring) (c : Converter) :
  foreground (emitTimes n ch c) = foreground c
  /\ background (emitTimes n ch c) = background c
  /\ savePositionActive (emitTimes n ch c) = savePositionActive c
  /\ parseState (emitTimes n ch c) = parseState c
  /\ options (emitTimes n ch c) = options c.
Proof.
  unfold emitTimes. induction (Z.to_nat n) as [|k IH]; [cbn; auto|].
  rewrite Nat.iter_succ.
  destruct (emitChar_frame ch (Nat.iter k (emitChar ch) c))
    as (-> & -> & -> & -> & _ & _ & ->).
  exact IH.
Qed.

Lemma emitAll_frame (chs : list jsstring) (c : Converter) :
  foreground (emitAll chs c) = foreground c
  /\ background (emitAll chs c) = background c
  /\ savePositionActive (emitAll chs c) = savePositionActive c
  /\ parseState (emitAll chs c) = parseState c
  /\ options (emitAll chs c) = options c.
Proof.
  unfold emitAll. revert c. induction chs as [|ch r IH]; intros c; cbn; [auto|].
  destruct (IH (emitChar ch c)) as (-> & -> & -> & -> & ->).
  destruct (emitChar_frame ch c) as (-> & -> & -> & -> & _ & _ & ->).
  auto.
Qed.

Lemma switchColor_colors (newBg newFg : Z) (c : Converter) :
  foreground (switchColor newBg newFg c) = newFg
  /\ background (switchColor newBg newFg c) = newBg.
Proof.
  unfold switchColor.
  destruct (newBg =? background c) eqn:Hb, (newFg =? foreground c) eqn:Hf;
    cbn; auto.
  apply Z.eqb_eq in Hb, Hf. auto.
Qed.

Lemma switchColor_frame (newBg newFg : Z) (c : Converter) :
  currentColumn (switchColor newBg newFg c) = currentColumn c
  /\ lineHasAnsi (switchColor newBg newFg c) = lineHasAnsi c
  /\ savePositionActive (switchColor newBg newFg c) = savePositionActive c
  /\ parseState (switchColor newBg newFg c) = parseState c
  /\ options (switchColor newBg newFg c) = options c.
Proof.
  unfold switchColor. split_ifs; cbn; auto.
Qed.

(** ** The colour fields stay CGA indices *)

Lemma sgrCode_cga (fb : Z * Z) (code : Z) :
  cgaPair fb -> cgaPair (sgrCode fb code).
Proof.
  destruct fb as [f b]. unfold cgaPair. cbn [fst snd]. intros [Hf Hb].
  pose proof (bor8_nibble f Hf). pose proof (bor8_nibble b Hb).
  pose proof (band7_nibble f Hf). pose proof (band7_nibble b Hb).
  pose proof (hue_nibble f _ Hf (ansiToCga_range (code - 30))).
  pose proof (hue_nibble b _ Hb (ansiToCga_range (code - 40))).
  pose proof (ansiBrightToCga_range (code - 90)).
  pose proof (ansiBrightToCga_range (code - 100)).
  unfold sgrCode. split_ifs; cbn [fst snd]; lia.
Qed.

Lemma sgrCodes_cga (codes : list Z) (fb : Z * Z) :
  cgaPair fb -> cgaPair (fold_left sgrCode codes fb).
Proof.
  revert fb. induction codes as [|code r IH]; intros fb H; cbn; [exact H|].
  apply IH, sgrCode_cga, H.
Qed.

Lemma synchronetSwitch_cga (code f b : Z) :
  cgaPair (f, b) -> cgaPair (synchronetSwitch code f b).
Proof.
  unfold cgaPair. cbn [fst snd]. intros [Hf Hb].
  pose proof (bor8_nibble f Hf). pose proof (bor8_nibble b Hb).
  pose proof (band7_nibble f Hf). pose proof (band7_nibble b Hb).
  unfold synchronetSwitch. split_ifs; cbn [fst snd]; lia.
Qed.

Lemma processSgr_cga (params : jsstring) (c : Converter) :
  cga c -> cga (processSgr params c).
Proof.
  intros H. unfold processSgr.
  pose proof (sgrCodes_cga (sgrCodes params) (foreground c, background c) H)
    as Hp.
  destruct (fold_left sgrCode (sgrCodes params) (foreground c, background c))
    as [f b].
  unfold cga.
  destruct (switchColor_colors b f c) as [-> ->]. exact Hp.
Qed.

Lemma processSynchronetCode_cga (code : Z) (c : Converter) :
  cga c -> cga (processSynchronetCode code c).
Proof.
  intros H. unfold processSynchronetCode. cbv zeta.
  pose proof (synchronetSwitch_cga code (foreground c) (background c) H) as Hp.
  change (foreground (set_lineHasAnsi true c)) with (foreground c).
  change (background (set_lineHasAnsi true c)) with (background c).
  destruct (synchronetSwitch code (foreground c) (background c)) as [f b].
  unfold cga.
  destruct (switchColor_colors b f (set_lineHasAnsi true c)) as [-> ->].
  exact Hp.
Qed.

Lemma processRenegadeCode_cga (code : Z) (c : Converter) :
  cga c -> cga (processRenegadeCode code c).
Proof.
  intros [Hf Hb]. unfold processRenegadeCode. cbv zeta.
  change (foreground (set_lineHasAnsi true c)) with (foreground c).
  change (background (set_lineHasAnsi true c)) with (background c).
  unfold cga.
  destruct ((code >=? 0) && (code <=? 15)) eqn:H1;
    [|destruct ((code >=? 16) && (code <=? 23)) eqn:H2];
    match goal with
    | |- context [switchColor ?b ?f ?s] =>
        destruct (switchColor_colors b f s) as [-> ->]
    end; lia.
Qed.

Lemma emitChar_cga (ch : jsstring) (c : Converter) :
  cga c -> cga (emitChar ch c).
Proof.
  unfold cga. destruct (emitChar_frame ch c) as (-> & -> & _). tauto.
Qed.

(** The assignments to the other fields keep [cga]. *)
Lemma set_parseState_cga (p : ParseState) (c : Converter) :
  cga c -> cga (set_parseState p c).
Proof. exact (fun H => H). Qed.

Lemma set_csiParams_cga (s : jsstring) (c : Converter) :
  cga c -> cga (set_csiParams s c).
Proof. exact (fun H => H). Qed.

Lemma set_lineHasAnsi_cga (b : bool) (c : Converter) :
  cga c -> cga (set_lineHasAnsi b c).
Proof. exact (fun H => H). Qed.

Lemma set_savePositionActive_cga (b : bool) (c : Converter) :
  cga c -> cga (set_savePositionActive b c).
Proof. exact (fun H => H). Qed.

Lemma set_renegadeFirstDigit_cga (d : Z) (c : Converter) :
  cga c -> cga (set_renegadeFirstDigit d c).
Proof. exact (fun H => H). Qed.

Create HintDb cga.

#[local] Hint Resolve set_parseState_cga set_csiParams_cga set_lineHasAnsi_cga
  set_savePositionActive_cga set_renegadeFirstDigit_cga : cga.

#[local] Hint Resolve processSgr_cga processSynchronetCode_cga
  processRenegadeCode_cga emitChar_cga : cga.

Lemma processCsi_cga (params command : jsstring) (c : Converter) :
  cga c -> cga (processCsi params command c).
Proof.
  intros H. unfold processCsi. cbv zeta.
  assert (H' : cga (set_lineHasAnsi true c)) by exact H.
  split_ifs; auto with cga.
  unfold cga.
  destruct (emitTimes_frame (Z.max 1 (parseIntOr params 1)) (lit " ")
              (set_lineHasAnsi true c)) as (-> & -> & _).
  exact H.
Qed.

Lemma processNormal_cga (ch : Z) (c : Converter) :
  cga c -> cga (processNormal ch c).
Proof.
  intros H. unfold processNormal.
  split_ifs; auto with cga.
Qed.

#[local] Hint Resolve processCsi_cga processNormal_cga : cga.

Lemma processCharCode_cga (ch : Z) (c : Converter) :
  cga c -> cga (processCharCode ch c).
Proof.
  intros H. unfold processCharCode.
  destruct (parseState c); split_ifs; auto 6 with cga.
Qed.

Lemma processUtf8Normal_cga (ch : jsstring) (c : Converter) :
  cga c -> cga (processUtf8Normal ch c).
Proof.
  intros H. unfold processUtf8Normal. cbv zeta.
  split_ifs; auto with cga.
Qed.

#[local] Hint Resolve processCharCode_cga processUtf8Normal_cga : cga.

Lemma processUtf8Char_cga (ch : jsstring) (c : Converter) :
  cga c -> cga (processUtf8Char ch c).
Proof.
  intros H. unfold processUtf8Char. cbv zeta.
  destruct (parseState c); split_ifs; auto 6 with cga.
Qed.

#[local] Hint Resolve processUtf8Char_cga : cga.

Lemma step_cga (c c' : Converter) : step c c' -> cga c -> cga c'.
Proof.
  intros Hs H. destruct Hs; auto with cga.
Qed.

Lemma reachable_cga (o : ConvertOptions) (c : Converter) :
  reachable o c -> cga c.
Proof.
  induction 1 as [|c c' _ IH Hs].
  - unfold cga. cbn. lia.
  - exact (step_cga c c' Hs IH).
Qed.

Lemma reachable_fold {A : Type} (o : ConvertOptions)
    (f : Converter -> A -> Converter) (l : list A) (c : Converter) :
  (forall c a, step c (f c a)) ->
  reachable o c -> reachable o (fold_left f l c).
Proof.
  intros Hf. revert c. induction l as [|a r IH]; intros c H; cbn; [exact H|].
  apply IH. exact (reach_step o c _ H (Hf c a)).
Qed.

Lemma reachable_processUntilSub (o : ConvertOptions) (cs : jsstring)
    (c : Converter) :
  reachable o c -> reachable o (processUntilSub cs c).
Proof.
  revert c. induction cs as [|ch r IH]; intros c H; cbn; [exact H|].
  destruct (ch =? 26); [exact H|].
  apply IH. exact (reach_step o c _ H (step_processCharCode ch c)).
Qed.

Lemma reachable_processUtf8UntilSub (o : ConvertOptions)
    (chs : list jsstring) (c : Converter) :
  reachable o c -> reachable o (processUtf8UntilSub chs c).
Proof.
  revert c. induction chs as [|ch r IH]; intros c H; cbn; [exact H|].
  destruct (streq ch [26]); [exact H|].
  apply IH. exact (reach_step o c _ H (step_processUtf8Char ch c)).
Qed.

Lemma reachable_emitSauce (o : ConvertOptions) (input : jsstring)
    (sp : Z) (cp : option Z) (c : Converter) :
  reachable o c -> reachable o (emitSauce input sp cp c).
Proof.
  intros H. unfold emitSauce.
  destruct (parseSauceRecord input sp cp) as [sauce|]; [|exact H].
  cbv zeta. destruct (nonEmpty (formatSauceOutput sauce)); [|exact H].
  apply reachable_fold; [intros; apply step_emitChar|].
  exact (reach_step o c _ H (step_emitChar LF c)).
Qed.

Lemma reachable_start (o : ConvertOptions) :
  reachable o (openTag (set_output header (newConverter o))).
Proof.
  eapply reach_step; [|apply step_openTag].
  eapply reach_step; [|apply step_output].
  apply reach_new.
Qed.

(** Both paths of [ansiToHtml] stay within [reachable]. *)
Lemma convertState_reachable (o : ConvertOptions) (input : jsstring) :
  reachable o (convertState input (newConverter o)).
Proof.
  unfold convertState. cbv zeta.
  destruct (findSaucePositions input) as [[saucePos comntPos] afterSaucePos].
  assert (H : reachable o
                (processAll
                   (slice input 0
                      (contentEnd input (indexOf input [26]) comntPos saucePos))
                   (openTag (set_output header (newConverter o))))).
  { apply reachable_fold; [intros; apply step_processCharCode|].
    apply reachable_start. }
  destruct saucePos as [sp|]; [|exact H].
  pose proof (reachable_emitSauce o input sp comntPos _ H) as H'.
  destruct afterSaucePos as [ap|]; [|exact H'].
  destruct (ap <? Js.length input); [|exact H'].
  destruct (hasMeaningfulContent (sliceFrom input ap)); [|exact H'].
  apply reachable_processUntilSub.
  exact (reach_step o _ _ H' (step_emitChar LF _)).
Qed.

Lemma convertUtf8State_reachable (o : ConvertOptions) (input : jsstring) :
  reachable o (convertUtf8State input (newConverter o)).
Proof.
  unfold convertUtf8State. cbv zeta.
  destruct (findSaucePositions input) as [[saucePos comntPos] afterSaucePos].
  assert (H : reachable o
                (processAllUtf8
                   (codePoints
                      (slice input 0
                         (contentEnd input (indexOf input [26]) comntPos
                            saucePos)))
                   (openTag (set_output header (newConverter o))))).
  { apply reachable_fold; [intros; apply step_processUtf8Char|].
    apply reachable_start. }
  destruct saucePos as [sp|]; [|exact H].
  pose proof (reachable_emitSauce o input sp comntPos _ H) as H'.
  destruct afterSaucePos as [ap|]; [|exact H'].
  destruct (ap <? Js.length input); [|exact H'].
  destruct (hasMeaningfulContent _); [|exact H'].
  apply reachable_processUtf8UntilSub.
  exact (reach_step o _ _ H' (step_emitChar LF _)).
Qed.

Lemma colorToHex_nibble (color : Z) :
  0 <= color <= 15 ->
  exists h, colorToHex color = [h] /\ lowerHex h /\ hexValue h = color.
Proof.
  intros H. unfold colorToHex, lowerHex, hexValue.
  destruct ((0 <=? color) && (color <=? 9)) eqn:H1.
  - exists (48 + color). apply andb_true_iff in H1.
    rewrite !Z.leb_le in H1.
    destruct (48 + color <=? 57) eqn:H2; [|apply Z.leb_gt in H2]; 
      repeat split; lia.
  - destruct ((10 <=? color) && (color <=? 15)) eqn:H2.
    + exists (97 + color - 10). apply andb_true_iff in H2.
      rewrite !Z.leb_le in H2.
      destruct (97 + color - 10 <=? 57) eqn:H3; [apply Z.leb_le in H3|];
        repeat split; lia.
    + apply andb_false_iff in H1, H2. rewrite !Z.leb_gt in H1, H2. lia.
Qed.

(** C10. From the fresh converter (foreground 7, background 0) every call a
    conversion makes, the SGR processor and the Synchronet and Renegade
    handlers among them, keeps foreground and background within 0..15, on the
    CP437 and on the UTF-8 path; so the tags [openTag] and [closeTag] write
    are [ans-] followed by two lowercase hexadecimal digits, the background
    nibble then the foreground nibble. *)
Theorem color_fields_stay_cga :
  (forall (o : ConvertOptions) (c : Converter),
      reachable o c ->
      cga c
      /\ (forall params, cga (processSgr params c))
      /\ (forall code, cga (processSynchronetCode code c))
      /\ (forall code, cga (processRenegadeCode code c))
      /\ exists k f,
           lowerHex k /\ lowerHex f
           /\ hexValue k = background c /\ hexValue f = foreground c
           /\ output (openTag c) = output c ++ lit "<ans-" ++ [k; f] ++ lit ">"
           /\ output (closeTag c)
              = output c ++ lit "</ans-" ++ [k; f] ++ lit ">")
  /\ (forall (o : ConvertOptions) (input : jsstring),
        reachable o (convertState input (newConverter o))
        /\ reachable o (convertUtf8State input (newConverter o))).
Proof.
  split.
  - intros o c Hr. pose proof (reachable_cga o c Hr) as H.
    split; [exact H|].
    split; [intros; apply processSgr_cga, H|].
    split; [intros; apply processSynchronetCode_cga, H|].
    split; [intros; apply processRenegadeCode_cga, H|].
    destruct H as [Hf Hb].
    destruct (colorToHex_nibble _ Hb) as (k & Ek & Hk & Vk).
    destruct (colorToHex_nibble _ Hf) as (f & Ef & Hf' & Vf).
    exists k, f. unfold openTag, closeTag, write. cbn [output set_output].
    rewrite Ek, Ef. auto 10.
  - intros o input. split.
    + apply convertState_reachable.
    + apply convertUtf8State_reachable.
Qed.

(** The converter after the parameters 1;31: light red on black. *)
Lemma color_fields_stay_cga_witness :
  let c := processSgr (lit "1;31") (newConverter defaultOptions) in
  reachable defaultOptions c
  /\ foreground c = 12 /\ background c = 0
  /\ cga c
  /\ output (openTag c) = output c ++ lit "<ans-0c>".
Proof.
  assert (Hr : reachable defaultOptions
                 (processSgr (lit "1;31") (newConverter defaultOptions))).
  { exact (reach_step _ _ _ (reach_new defaultOptions)
             (step_processSgr (lit "1;31") (newConverter defaultOptions))). }
  destruct (proj1 color_fields_stay_cga defaultOptions _ Hr) as (Hc & _).
  cbv zeta. split; [exact Hr|].
  split; [vm_compute; reflexivity|].
  split; [vm_compute; reflexivity|].
  split; [exact Hc|].
  vm_compute. reflexivity.
Defined.

(** ** Synchronet codes *)

Lemma synchronetSwitch_idem (code f b : Z) :
  synchronetSwitch code (fst (synchronetSwitch code f b))
    (snd (synchronetSwitch code f b))
  = synchronetSwitch code f b.
Proof.
  unfold synchronetSwitch.
  split_ifs; cbn [fst snd]; rewrite ?bor_idem, ?band_idem; reflexivity.
Qed.

Lemma set_lineHasAnsi_same (c : Converter) :
  lineHasAnsi c = true -> set_lineHasAnsi true c = c.
Proof. destruct c. cbn. intros ->. reflexivity. Qed.

Lemma switchColor_same (c : Converter) :
  switchColor (background c) (foreground c) c = c.
Proof. unfold switchColor. rewrite !Z.eqb_refl. reflexivity. Qed.

Lemma processSynchronetCode_fields (code : Z) (c : Converter) :
  let c' := processSynchronetCode code c in
  (foreground c', background c')
  = synchronetSwitch code (foreground c) (background c)
  /\ lineHasAnsi c' = true.
Proof.
  cbv zeta. unfold processSynchronetCode. cbv zeta.
  change (foreground (set_lineHasAnsi true c)) with (foreground c).
  change (background (set_lineHasAnsi true c)) with (background c).
  destruct (synchronetSwitch code (foreground c) (background c)) as [f b].
  destruct (switchColor_colors b f (set_lineHasAnsi true c)) as [-> ->].
  destruct (switchColor_frame b f (set_lineHasAnsi true c)) as (_ & -> & _).
  auto.
Qed.

(** C9. The effect of a Synchronet Ctrl-A code is idempotent: whatever the
    code byte and the colours, handling the code a second time leaves the
    foreground and the background (indeed the whole converter) as the first
    handling left them; the intensity codes set a bit, they do not toggle. *)
Theorem synchronet_code_idempotent (code : Z) (c : Converter) :
  let once := processSynchronetCode code c in
  let twice := processSynchronetCode code once in
  foreground twice = foreground once
  /\ background twice = background once
  /\ twice = once.
Proof.
  cbv zeta.
  assert (E : processSynchronetCode code (processSynchronetCode code c)
              = processSynchronetCode code c).
  { destruct (processSynchronetCode_fields code c) as [Hc Hl].
    cbv zeta in Hc, Hl.
    set (once := processSynchronetCode code c) in *.
    unfold processSynchronetCode at 1. cbv zeta.
    rewrite (set_lineHasAnsi_same once Hl).
    pose proof (synchronetSwitch_idem code (foreground c) (background c)) as Hi.
    rewrite <- Hc in Hi. cbn [fst snd] in Hi. rewrite Hi.
    apply switchColor_same. }
  rewrite E. auto.
Qed.

(** ** Save-position suppression *)

Lemma emitChar_suppressed (ch : jsstring) (c : Converter) :
  savePositionActive c = true -> emitChar ch c = c.
Proof. intros H. unfold emitChar. rewrite H. reflexivity. Qed.

(** ** The SAUCE metadata block *)

Lemma lor_below (a b n : Z) :
  0 <= n -> 0 <= a < 2 ^ n -> 0 <= b < 2 ^ n -> 0 <= Z.lor a b < 2 ^ n.
Proof.
  intros Hn Ha Hb.
  assert (E : Z.lor a b = Z.lor a b mod 2 ^ n).
  { rewrite <- !Z.land_ones by lia. rewrite Z.land_lor_distr_l.
    rewrite !Z.land_ones by lia. rewrite !Z.mod_small by lia. reflexivity. }
  rewrite E. apply Z.mod_pos_bound. lia.
Qed.

Lemma charCodeAt_codeUnit (s : jsstring) (i : Z) :
  codeUnits s -> 0 <= charCodeAt s i <= 65535.
Proof.
  intros H. unfold charCodeAt.
  destruct (nth_in_or_default (Z.to_nat i) s 0) as [Hin | ->]; [|lia].
  unfold codeUnits in H. rewrite forallb_forall in H.
  specialize (H _ Hin). apply andb_true_iff in H.
  rewrite !Z.leb_le in H. exact H.
Qed.

Lemma word16_nonneg (a b : Z) :
  0 <= a <= 65535 -> 0 <= b <= 65535 -> 0 <= bor a (shl b 8).
Proof.
  intros Ha Hb. unfold bor, shl.
  rewrite (toInt32_small b) by lia.
  change (8 mod 32) with 8. rewrite Z.shiftl_mul_pow2 by lia.
  change (2 ^ 8) with 256.
  rewrite !(toInt32_small (b * 256)) by lia.
  rewrite (toInt32_small a) by lia.
  assert (H : 0 <= Z.lor a (b * 256) < 2 ^ 24).
  { apply lor_below; [lia| |]; change (2 ^ 24) with 16777216; lia. }
  change (2 ^ 24) with 16777216 in H.
  rewrite toInt32_small by lia. lia.
Qed.

Lemma parseSauceRecord_size (input : jsstring) (sp : Z) (cp : option Z)
    (s : SauceRecord) :
  codeUnits input ->
  parseSauceRecord input sp cp = Some s ->
  0 <= width s /\ 0 <= height s.
Proof.
  intros Hu. unfold parseSauceRecord.
  destruct (sp + 128 >? Js.length input); [discriminate|].
  destruct (negb _); [discriminate|].
  intros [= <-]. cbn [width height].
  split; apply word16_nonneg; apply charCodeAt_codeUnit, Hu.
Qed.

Lemma fold_left_comments (cs : list jsstring) (out : jsstring) :
  fold_left (fun out comment => out ++ lit "Comment: " ++ comment ++ LF) cs out
  = out ++ renderLines (map (fun comment => (lit "Comment", comment)) cs).
Proof.
  revert out. induction cs as [|x r IH]; intros out.
  - cbn. rewrite app_nil_r. reflexivity.
  - cbn [fold_left map]. rewrite IH. unfold renderLines.
    cbn [map List.concat]. unfold keyValue. cbn [fst snd].
    change (lit "Comment: ") with (lit "Comment" ++ lit ": ").
    rewrite <- !app_assoc. reflexivity.
Qed.

Lemma renderLines_app (l1 l2 : list (jsstring * jsstring)) :
  renderLines (l1 ++ l2) = renderLines l1 ++ renderLines l2.
Proof. unfold renderLines. rewrite map_app, concat_app. reflexivity. Qed.

Lemma eightDigits_length (d : jsstring) :
  eightDigits d = true -> Js.length d = 8.
Proof.
  unfold eightDigits, Js.length. intros H. apply andb_true_iff in H.
  destruct H as [H _]. apply Nat.eqb_eq in H. rewrite H. reflexivity.
Qed.

Lemma append_if (b : bool) (out x : jsstring) :
  (if b then out ++ x else out) = out ++ (if b then x else []).
Proof. destruct b; [reflexivity|]. rewrite app_nil_r. reflexivity. Qed.

Lemma append_if_else (b : bool) (out x y : jsstring) :
  (if b then out ++ x else out ++ y) = out ++ (if b then x else y).
Proof. destruct b; reflexivity. Qed.

Lemma renderLines_if (b : bool) (kv : jsstring * jsstring) :
  renderLines (if b then [kv] else []) = if b then keyValue kv ++ LF else [].
Proof.
  destruct b; [|reflexivity]. unfold renderLines. cbn [map List.concat].
  apply app_nil_r.
Qed.

Ltac same_line :=
  match goal with
  | |- (if ?b then _ else _) = _ =>
      destruct b; [|reflexivity];
      unfold keyValue; cbn [fst snd]; rewrite <- ?app_assoc; reflexivity
  end.

Lemma formatSauceOutput_lines (s : SauceRecord) :
  0 <= width s -> 0 <= height s ->
  formatSauceOutput s = renderLines (sauceLines s).
Proof.
  intros Hw Hh. unfold formatSauceOutput, sauceLines. cbv zeta.
  rewrite fold_left_comments. rewrite !renderLines_app.
  assert (Esize : (width s >? 0) || (height s >? 0)
                  = negb (width s =? 0) || negb (height s =? 0)).
  { destruct (width s >? 0) eqn:E1, (height s >? 0) eqn:E2,
      (width s =? 0) eqn:E3, (height s =? 0) eqn:E4; cbn; try reflexivity;
      rewrite ?Z.gtb_ltb, ?Z.ltb_lt, ?Z.ltb_ge, ?Z.eqb_eq, ?Z.eqb_neq in *;
      lia. }
  rewrite Esize.
  assert (Edate : (Js.length (date s) =? 8) && eightDigits (date s)
                  = eightDigits (date s)).
  { destruct (eightDigits (date s)) eqn:E; [|apply andb_false_r].
    rewrite (eightDigits_length _ E). reflexivity. }
  rewrite Edate. unfold fieldLine, formattedDate.
  rewrite append_if_else, !append_if, !renderLines_if.
  rewrite <- !app_assoc. cbn [app].
  apply (f_equal2 (@app Z)); [same_line|].
  apply (f_equal2 (@app Z)); [same_line|].
  apply (f_equal2 (@app Z)); [same_line|].
  apply (f_equal2 (@app Z)).
  { destruct (nonEmpty (date s)); [|reflexivity].
    unfold keyValue; cbn [fst snd].
    destruct (eightDigits (date s)); rewrite <- ?app_assoc; reflexivity. }
  apply (f_equal2 (@app Z)); [same_line|].
  apply (f_equal2 (@app Z)); [same_line|].
  reflexivity.
Qed.

Lemma decodeChar_not_LF (c : Z) : decodeChar c <> 10.
Proof.
  unfold decodeChar, cp437.
  destruct (c <? 0) eqn:Hc; [apply Z.ltb_lt in Hc; lia|].
  destruct (nth_error CP437_TO_UNICODE (Z.to_nat c)) as [u|] eqn:E.
  - apply nth_error_In in E.
    assert (H : forallb (fun u => negb (u =? 10)) CP437_TO_UNICODE = true)
      by (vm_compute; reflexivity).
    rewrite forallb_forall in H. specialize (H _ E).
    apply negb_true_iff, Z.eqb_neq in H. exact H.
  - apply nth_error_None in E.
    change (List.length CP437_TO_UNICODE) with 256%nat in E.
    lia.
Qed.

Lemma trimEnd_incl (s : jsstring) (x : Z) : In x (trimEnd s) -> In x s.
Proof.
  induction s as [|c r IH]; cbn; [tauto|].
  destruct (trimEnd r) as [|y r'] eqn:E.
  - destruct (isTrimmed c); cbn; tauto.
  - cbn. intros [H|H]; [left; exact H|right; apply IH; exact H].
Qed.

Lemma In_firstn {A : Type} (n : nat) (l : list A) (x : A) :
  In x (firstn n l) -> In x l.
Proof.
  intros H. rewrite <- (firstn_skipn n l). apply in_or_app. left. exact H.
Qed.

Lemma In_skipn {A : Type} (n : nat) (l : list A) (x : A) :
  In x (skipn n l) -> In x l.
Proof.
  intros H. rewrite <- (firstn_skipn n l). apply in_or_app. right. exact H.
Qed.

Lemma slice_incl (s : jsstring) (a b x : Z) : In x (slice s a b) -> In x s.
Proof.
  unfold slice. intros H. apply In_firstn, In_skipn in H. exact H.
Qed.

Lemma decodeField_noLF (input : jsstring) (start len : Z) :
  noLF (decodeField input start len).
Proof.
  unfold noLF, decodeField. intros H. apply trimEnd_incl in H.
  apply in_map_iff in H. destruct H as (c & Hc & _).
  exact (decodeChar_not_LF c Hc).
Qed.

Lemma commentLines_noLF (data : jsstring) :
  Forall noLF (commentLines data).
Proof.
  unfold commentLines. apply Forall_forall. intros l Hl.
  apply filter_In in Hl. destruct Hl as [Hl _].
  apply in_map_iff in Hl. destruct Hl as (k & <- & _).
  apply decodeField_noLF.
Qed.

Lemma string_of_uint_noLF (u : Decimal.uint) :
  noLF (lit (NilEmpty.string_of_uint u)).
Proof.
  unfold noLF. induction u; cbn; intros H;
    try (destruct H as [H|H]; [discriminate H|exact (IHu H)]).
  exact H.
Qed.

Lemma numberToString_noLF (n : Z) : noLF (numberToString n).
Proof.
  unfold numberToString, NilZero.string_of_int.
  destruct (Z.to_int n) as [u|u]; unfold NilZero.string_of_uint.
  - destruct u; try apply string_of_uint_noLF.
    unfold noLF. cbn. intros [H|H]; [discriminate H|exact H].
  - destruct u;
      try (unfold noLF; cbn [lit list_ascii_of_string map];
           intros [H|H]; [discriminate H|];
           revert H; apply (string_of_uint_noLF (_ u))).
    unfold noLF. cbn. intros [H|[H|H]]; try discriminate H. exact H.
Qed.

Lemma noLF_app (a b : jsstring) : noLF a -> noLF b -> noLF (a ++ b).
Proof. unfold noLF. intros Ha Hb H. apply in_app_or in H. tauto. Qed.

Lemma formattedDate_noLF (d : jsstring) : noLF d -> noLF (formattedDate d).
Proof.
  intros H. unfold formattedDate. destruct (eightDigits d); [|exact H].
  assert (Hd : noLF (lit "-")).
  { unfold noLF. cbn. intros [E|E]; [discriminate E|exact E]. }
  repeat apply noLF_app; try exact Hd;
    intros Hin; apply slice_incl in Hin; exact (H Hin).
Qed.

Lemma split_line (l r : jsstring) :
  noLF l -> split 10 (l ++ 10 :: r) = l :: split 10 r.
Proof.
  unfold noLF. induction l as [|x l IH]; intros H.
  - reflexivity.
  - cbn [app split].
    destruct (x =? 10) eqn:E.
    + apply Z.eqb_eq in E. exfalso. apply H. left. exact E.
    + rewrite IH; [reflexivity|]. intros Hin. apply H. right. exact Hin.
Qed.

Lemma split_renderLines (lines : list (jsstring * jsstring)) :
  Forall (fun kv => noLF (keyValue kv)) lines ->
  split 10 (renderLines lines) = map keyValue lines ++ [[]].
Proof.
  induction 1 as [|kv r Hkv _ IH]; [reflexivity|].
  unfold renderLines in *. cbn [map List.concat].
  unfold LF at 1. rewrite <- app_assoc. cbn [app].
  rewrite (split_line _ _ Hkv), IH. reflexivity.
Qed.

Lemma keyValue_noLF (key value : jsstring) :
  noLF key -> noLF value -> noLF (keyValue (key, value)).
Proof.
  intros Hk Hv. unfold keyValue. cbn [fst snd].
  repeat apply noLF_app; auto.
  unfold noLF. cbn. intros [E|[E|E]]; try discriminate E. exact E.
Qed.

Lemma literal_noLF (s : string) :
  forallb (fun c => negb (c =? 10)) (lit s) = true -> noLF (lit s).
Proof.
  intros H Hin. rewrite forallb_forall in H. specialize (H _ Hin).
  discriminate H.
Qed.

Lemma fieldLine_noLF (key : string) (value : jsstring) :
  forallb (fun c => negb (c =? 10)) (lit key) = true ->
  noLF value ->
  Forall (fun kv => noLF (keyValue kv)) (fieldLine (lit key) value).
Proof.
  intros Hk Hv. unfold fieldLine. destruct (nonEmpty value); constructor.
  - apply keyValue_noLF; [apply literal_noLF, Hk|exact Hv].
  - constructor.
Qed.

Lemma sauceLines_noLF (s : SauceRecord) :
  noLF (title s) -> noLF (author s) -> noLF (group s) -> noLF (date s) ->
  noLF (font s) -> Forall noLF (comments s) ->
  Forall (fun kv => noLF (keyValue kv)) (sauceLines s).
Proof.
  intros Ht Ha Hg Hd Hf Hc. unfold sauceLines.
  apply Forall_app. split; [apply fieldLine_noLF; [reflexivity|exact Ht]|].
  apply Forall_app. split; [apply fieldLine_noLF; [reflexivity|exact Ha]|].
  apply Forall_app. split; [apply fieldLine_noLF; [reflexivity|exact Hg]|].
  apply Forall_app. split.
  { destruct (nonEmpty (date s)); constructor; [|constructor].
    apply keyValue_noLF;
      [apply literal_noLF; reflexivity|apply formattedDate_noLF, Hd]. }
  apply Forall_app. split.
  { destruct (negb (width s =? 0) || negb (height s =? 0)); constructor;
      [|constructor].
    apply keyValue_noLF; [apply literal_noLF; reflexivity|].
    apply noLF_app; [apply numberToString_noLF|].
    apply noLF_app; [|apply numberToString_noLF].
    apply (literal_noLF "x"). reflexivity. }
  apply Forall_app. split; [apply fieldLine_noLF; [reflexivity|exact Hf]|].
  apply Forall_forall. intros kv Hkv. apply in_map_iff in Hkv.
  destruct Hkv as (comment & <- & Hin).
  rewrite Forall_forall in Hc.
  apply keyValue_noLF; [apply literal_noLF; reflexivity|exact (Hc _ Hin)].
Qed.

Lemma parseSauceRecord_noLF (input : jsstring) (sp : Z) (cp : option Z)
    (s : SauceRecord) :
  parseSauceRecord input sp cp = Some s ->
  noLF (title s) /\ noLF (author s) /\ noLF (group s) /\ noLF (date s)
  /\ noLF (font s) /\ Forall noLF (comments s).
Proof.
  unfold parseSauceRecord.
  destruct (sp + 128 >? Js.length input); [discriminate|].
  destruct (negb _); [discriminate|].
  intros [= <-]. cbn [title author group date font comments].
  repeat split; try apply decodeField_noLF.
  destruct cp as [p|]; [|constructor].
  destruct (_ && _); [apply commentLines_noLF|constructor].
Qed.

(** C8. For every SAUCE record parsed from an input the formatted block is
    exactly its key and value lines, one line each: Title, Author, Group, Date,
    Size and Font in this order, a text field present when it is not empty,
    then a Comment line per comment.  The Date value is CCYY-MM-DD exactly
    when the field is eight digits and the field itself otherwise; the Size
    line is there exactly when the width or the height is not zero. *)
Theorem sauce_block_lines (input : jsstring) (saucePos : Z)
    (comntPos : option Z) (s : SauceRecord) :
  codeUnits input ->
  parseSauceRecord input saucePos comntPos = Some s ->
  formatSauceOutput s = renderLines (sauceLines s)
  /\ split 10 (formatSauceOutput s) = map keyValue (sauceLines s) ++ [[]]
  /\ (nonEmpty (date s) = true ->
      In (lit "Date",
          if eightDigits (date s)
          then slice (date s) 0 4 ++ lit "-" ++ slice (date s) 4 6
               ++ lit "-" ++ slice (date s) 6 8
          else date s)
         (sauceLines s))
  /\ ((exists v, In (lit "Size", v) (sauceLines s))
      <-> (width s <> 0 \/ height s <> 0))
  /\ (forall v, In (lit "Size", v) (sauceLines s) ->
        v = numberToString (width s) ++ lit "x" ++ numberToString (height s)).
Proof.
  intros Hu Hp.
  destruct (parseSauceRecord_size _ _ _ _ Hu Hp) as [Hw Hh].
  destruct (parseSauceRecord_noLF _ _ _ _ Hp) as (Nt & Na & Ng & Nd & Nf & Nc).
  pose proof (formatSauceOutput_lines s Hw Hh) as E.
  split; [exact E|].
  split.
  { rewrite E. apply split_renderLines. apply sauceLines_noLF; assumption. }
  assert (Hkey : forall key v l,
             In (lit "Size", v) (fieldLine (lit key) l) ->
             (lit key = lit "Size")).
  { intros key v l. unfold fieldLine.
    destruct (nonEmpty l); [|intros []].
    intros [H|[]]. injection H as H _. exact H. }
  assert (Hsize : forall v,
             In (lit "Size", v) (sauceLines s) ->
             (negb (width s =? 0) || negb (height s =? 0) = true)
             /\ v = numberToString (width s) ++ lit "x"
                    ++ numberToString (height s)).
  { intros v. unfold sauceLines. rewrite !in_app_iff.
    intros [H|[H|[H|[H|[H|[H|H]]]]]].
    - apply Hkey in H. discriminate H.
    - apply Hkey in H. discriminate H.
    - apply Hkey in H. discriminate H.
    - destruct (nonEmpty (date s)); [|destruct H].
      destruct H as [H|[]]. discriminate H.
    - destruct (negb (width s =? 0) || negb (height s =? 0)); [|destruct H].
      destruct H as [H|[]]. injection H as <-. split; reflexivity.
    - apply Hkey in H. discriminate H.
    - apply in_map_iff in H. destruct H as (x & H & _). discriminate H. }
  split.
  { intros Hd. unfold sauceLines. rewrite !in_app_iff.
    right. right. right. left. rewrite Hd. left. reflexivity. }
  split.
  { split.
    - intros [v Hv]. destruct (Hsize v Hv) as [Hb _].
      apply orb_true_iff in Hb.
      rewrite !negb_true_iff, !Z.eqb_neq in Hb. exact Hb.
    - intros H.
      exists (numberToString (width s) ++ lit "x" ++ numberToString (height s)).
      unfold sauceLines. rewrite !in_app_iff.
      right. right. right. right. left.
      assert (Hb : negb (width s =? 0) || negb (height s =? 0) = true).
      { apply orb_true_iff. rewrite !negb_true_iff, !Z.eqb_neq. exact H. }
      rewrite Hb. left. reflexivity. }
  intros v Hv. exact (proj2 (Hsize v Hv)).
Qed.

(** The record of the test suite and its six lines. *)
Lemma sauce_block_lines_witness :
  codeUnits sampleSauce
  /\ parseSauceRecord sampleSauce 0 None = Some sampleRecord
  /\ split 10 (formatSauceOutput sampleRecord)
     = [lit "Title: Test Title"; lit "Author: Test Author";
        lit "Group: Test Group"; lit "Date: 2024-01-15"; lit "Size: 80x25";
        lit "Font: IBM VGA"; []].
Proof.
  assert (Hu : codeUnits sampleSauce) by (vm_compute; reflexivity).
  assert (Hp : parseSauceRecord sampleSauce 0 None = Some sampleRecord)
    by (vm_compute; reflexivity).
  split; [exact Hu|]. split; [exact Hp|].
  destruct (sauce_block_lines sampleSauce 0 None sampleRecord Hu Hp)
    as (_ & -> & _).
  vm_compute. reflexivity.
Defined.

(** ** Extended colours, doubled pipes and the content bound: what the
    converter does on the inputs of the test suite *)

(** C1. The SGR processor has no case for 38 or 48: in [38;5;N] and in
    [48;5;N] the first parameter is skipped, the 5 is taken for blink and sets
    the high bit of the background, and N is handled as a code of its own.
    For the input of the 256-colour test the result is an [ans-87] element and
    holds no [ans-256] tag. *)
Theorem sgr_38_5_sets_blink_not_palette :
  (forall n fg bg : Z,
      fold_left sgrCode [38; 5; n] (fg, bg) = sgrCode (fg, bor bg 8) n
      /\ fold_left sgrCode [48; 5; n] (fg, bg) = sgrCode (fg, bor bg 8) n)
  /\ sgrCodes (lit "38;5;196") = [38; 5; 196]
  /\ (let html := ansiToHtml (ESC :: lit "[38;5;196mRed 256") defaultOptions in
      html = header ++ lit "<ans-07></ans-07><ans-87>Red 256</ans-87></pre>"
      /\ includes html (tag256 ++ lit "Red 256</ans-256>") = false
      /\ includes html (lit "<ans-256") = false).
Proof.
  split; [intros; split; reflexivity|].
  split; [vm_compute; reflexivity|].
  vm_compute. auto.
Qed.

(** C2. A second pipe is no escape: the first pipe is written out when the
    second arrives, and the second starts a code of its own, so [||04Text]
    gives a literal pipe followed by [Text] in colour 04; the digits are not
    written. *)
Theorem doubled_pipe_starts_a_code :
  let html := ansiToHtml (lit "||04Text") renegadeOptions in
  html = header ++ lit "<ans-07>|</ans-07><ans-04>Text</ans-04></pre>"
  /\ includes html (lit "|04Text") = false
  /\ foreground (processAll (lit "||04") (newConverter renegadeOptions)) = 4.
Proof. vm_compute. auto. Qed.

(** C5. The content bound is the first SUB whenever the input has one, also
    when it lies behind the SAUCE marker.  With the marker at 2 and the only
    SUB at 130, behind the record, the content runs to 130 and the 128 bytes of
    the record are written out as text before the metadata block; the same
    happens when the only byte 0x1A of the input is the low byte of a width
    of 26 inside the record. *)
Theorem sub_behind_sauce_bounds_content :
  (forall (input : jsstring) (subPos : Z) (comntPos saucePos : option Z),
      subPos = -1 \/ contentEnd input subPos comntPos saucePos = subPos)
  /\ (let input :=
        lit "Hi" ++ createSauceRecord (lit "T") [] [] [] 0 0 [] ++ [SUB] in
      findSaucePositions input = (Some 2, None, Some 130)
      /\ indexOf input [SUB] = 130
      /\ contentEnd input (indexOf input [SUB]) None (Some 2) = 130
      /\ includes (ansiToHtml input defaultOptions) (lit "HiSAUCE00T") = true
      /\ includes (ansiToHtml input defaultOptions) (lit "Title: T") = true)
  /\ (let input := lit "Hi" ++ createSauceRecord (lit "T") [] [] [] 26 0 [] in
      findSaucePositions input = (Some 2, None, Some 130)
      /\ indexOf input [SUB] = 98
      /\ contentEnd input (indexOf input [SUB]) None (Some 2) = 98
      /\ includes (ansiToHtml input defaultOptions) (lit "HiSAUCE00T") = true
      /\ includes (ansiToHtml input defaultOptions) (lit "Size: 26x0") = true).
Proof.
  split.
  { intros input subPos comntPos saucePos. unfold contentEnd.
    destruct (subPos =? -1) eqn:H; [left; apply Z.eqb_eq, H|right].
    reflexivity. }
  split; vm_compute; auto 10.
Qed.

(** ** Renegade codes above 23 *)

(** C3 fails as stated: the code 24 leaves the background at 0, and the
    result of the test input holds no [ans-87] tag. *)
Lemma renegade_24_counterexample :
  background (processAll (lit "|24") (newConverter renegadeOptions)) <> 8
  /\ ansiToHtml (lit "|24Dark Gray BG") renegadeOptions
     = header ++ lit "<ans-07>Dark Gray BG</ans-07></pre>"
  /\ includes (ansiToHtml (lit "|24Dark Gray BG") renegadeOptions)
       (lit "<ans-87>") = false.
Proof.
  split; [vm_compute; discriminate|].
  vm_compute. auto.
Qed.

Lemma processRenegadeCode_background (code : Z) (c : Converter) :
  16 <= code <= 23 ->
  background (processRenegadeCode code c) = code - 16
  /\ foreground (processRenegadeCode code c) = foreground c.
Proof.
  intros H. unfold processRenegadeCode. cbv zeta.
  assert (E1 : (code >=? 0) && (code <=? 15) = false).
  { apply andb_false_iff. right. apply Z.leb_gt. lia. }
  assert (E2 : (code >=? 16) && (code <=? 23) = true).
  { apply andb_true_iff. rewrite Z.geb_leb, !Z.leb_le. lia. }
  rewrite E1, E2.
  destruct (switchColor_colors (code - 16)
              (foreground (set_lineHasAnsi true c)) (set_lineHasAnsi true c))
    as [-> ->].
  auto.
Qed.

Lemma digit_test (ch : Z) :
  48 <= ch <= 57 -> (ch >=? 48) && (ch <=? 57) = true.
Proof. intros H. apply andb_true_iff. rewrite Z.geb_leb, !Z.leb_le. lia. Qed.

Lemma processCharCode_pipe (c : Converter) :
  parseState c = Normal -> renegadePipe (options c) = true ->
  processCharCode 124 c = set_parseState RenegadePipe1 c.
Proof.
  intros Hn Hr. unfold processCharCode. rewrite Hn.
  unfold processNormal. rewrite Hr. cbn. rewrite andb_false_r. reflexivity.
Qed.

Lemma processCharCode_pipe1_digit (ch : Z) (c : Converter) :
  parseState c = RenegadePipe1 -> 48 <= ch <= 57 ->
  processCharCode ch c
  = set_parseState RenegadePipe2 (set_renegadeFirstDigit (ch - 48) c).
Proof.
  intros Hp Hd. unfold processCharCode. rewrite Hp, (digit_test ch Hd).
  reflexivity.
Qed.

Lemma processCharCode_pipe2_digit (ch : Z) (c : Converter) :
  parseState c = RenegadePipe2 -> 48 <= ch <= 57 ->
  processCharCode ch c
  = set_parseState Normal
      (if renegadeFirstDigit c * 10 + (ch - 48) <=? 23
       then processRenegadeCode (renegadeFirstDigit c * 10 + (ch - 48)) c
       else c).
Proof.
  intros Hp Hd. unfold processCharCode. rewrite Hp, (digit_test ch Hd).
  reflexivity.
Qed.

(** ** Searching a marker *)

Lemma indexOfFrom_absent (needle s : jsstring) (i : Z) :
  0 <= i -> (indexOfFrom needle s i = -1 <-> occurs needle s = false).
Proof.
  revert i. induction s as [|x r IH]; intros i Hi; cbn.
  - destruct (isPrefix needle []); cbn; split; intros H;
      try reflexivity; try discriminate H; lia.
  - destruct (isPrefix needle (x :: r)); cbn.
    + split; intros H; [lia|discriminate H].
    + apply IH. lia.
Qed.

Lemma lastIndexOfFrom_absent (needle s : jsstring) (i : Z) :
  0 <= i -> (lastIndexOfFrom needle s i = -1 <-> occurs needle s = false).
Proof.
  revert i. induction s as [|x r IH]; intros i Hi; cbn.
  - destruct (isPrefix needle []); cbn; split; intros H;
      try reflexivity; try discriminate H; lia.
  - specialize (IH (i + 1) ltac:(lia)).
    destruct (lastIndexOfFrom needle r (i + 1) =? -1) eqn:E.
    + apply Z.eqb_eq in E. apply IH in E. rewrite E, orb_false_r.
      destruct (isPrefix needle (x :: r)); split; intros H;
        try reflexivity; try discriminate H; lia.
    + apply Z.eqb_neq in E.
      assert (E' : occurs needle r = true).
      { destruct (occurs needle r); [reflexivity|]. exfalso. apply E, IH.
        reflexivity. }
      rewrite E', orb_true_r. split; intros H; [|discriminate H].
      exfalso. exact (E H).
Qed.

Lemma isPrefix_app (needle s t : jsstring) :
  isPrefix needle s = true -> isPrefix needle (s ++ t) = true.
Proof.
  revert s. induction needle as [|x n IH]; intros s H; [reflexivity|].
  destruct s as [|y s]; [discriminate H|].
  cbn in *. apply andb_true_iff in H. destruct H as [H1 H2].
  rewrite H1. cbn. apply IH, H2.
Qed.

Lemma occurs_app (needle s t : jsstring) :
  occurs needle s = true -> occurs needle (s ++ t) = true.
Proof.
  induction s as [|x r IH]; cbn.
  - rewrite orb_false_r. intros H. destruct needle; [|discriminate H].
    destruct t; reflexivity.
  - intros H. apply orb_true_iff in H. destruct H as [H|H].
    + change (x :: r ++ t) with ((x :: r) ++ t).
      rewrite (isPrefix_app _ _ t H). reflexivity.
    + rewrite (IH H). apply orb_true_r.
Qed.

Lemma indexOf_absent_app (s t needle : jsstring) :
  indexOf (s ++ t) needle = -1 -> indexOf s needle = -1.
Proof.
  unfold indexOf. rewrite !indexOfFrom_absent by lia.
  intros H. destruct (occurs needle s) eqn:E; [|reflexivity].
  rewrite (occurs_app _ _ t E) in H. discriminate H.
Qed.

Lemma lastIndexOf_absent_app (s t needle : jsstring) :
  lastIndexOf (s ++ t) needle = -1 -> lastIndexOf s needle = -1.
Proof.
  unfold lastIndexOf. rewrite !lastIndexOfFrom_absent by lia.
  intros H. destruct (occurs needle s) eqn:E; [|reflexivity].
  rewrite (occurs_app _ _ t E) in H. discriminate H.
Qed.

Lemma findSaucePositions_none (input : jsstring) :
  lastIndexOf input (lit "SAUCE00") = -1 ->
  findSaucePositions input = (None, None, None).
Proof. intros H. unfold findSaucePositions. rewrite H. reflexivity. Qed.

Lemma slice_all (s : jsstring) : slice s 0 (Js.length s) = s.
Proof.
  unfold slice, Js.length. cbn [Z.to_nat skipn].
  rewrite Z.sub_0_r, Nat2Z.id. apply firstn_all.
Qed.

(** ** The string iterator *)

Lemma codePoints_cons (h : Z) (r : jsstring) :
  codePoints (h :: r)
  = match r with
    | l :: r' =>
        if isHighSurrogate h && isLowSurrogate l
        then [h; l] :: codePoints r'
        else [h] :: codePoints r
    | [] => [[h]]
    end.
Proof. destruct r; reflexivity. Qed.

(** Induction along the iterator: by the length of the string. *)
Lemma codePoints_ind (P : jsstring -> Prop) :
  P [] ->
  (forall h, P [h]) ->
  (forall h l r,
      isHighSurrogate h && isLowSurrogate l = true -> P r -> P (h :: l :: r)) ->
  (forall h l r,
      isHighSurrogate h && isLowSurrogate l = false ->
      P (l :: r) -> P (h :: l :: r)) ->
  forall s, P s.
Proof.
  intros Hnil Hone Hpair Hsingle s.
  assert (H : forall n s, (List.length s <= n)%nat -> P s).
  { clear s. induction n as [|n IH]; intros s Hs.
    - destruct s; [exact Hnil|cbn in Hs; lia].
    - destruct s as [|h [|l r]]; [exact Hnil|exact (Hone h)|].
      cbn in Hs.
      destruct (isHighSurrogate h && isLowSurrogate l) eqn:E.
      + apply (Hpair h l r E). apply IH. lia.
      + apply (Hsingle h l r E). apply IH. cbn. lia. }
  exact (H (List.length s) s (le_n _)).
Qed.

Lemma codePoints_isChar (s : jsstring) : Forall isChar (codePoints s).
Proof.
  induction s as [|h|h l r E IH|h l r E IH] using codePoints_ind.
  - constructor.
  - constructor; [left; exists h; reflexivity|constructor].
  - rewrite codePoints_cons, E. constructor; [|exact IH].
    right. exists h, l. apply andb_true_iff in E. tauto.
  - rewrite codePoints_cons, E. constructor; [|exact IH].
    left. exists h. reflexivity.
Qed.

Lemma codePoints_concat (s : jsstring) : List.concat (codePoints s) = s.
Proof.
  induction s as [|h|h l r E IH|h l r E IH] using codePoints_ind.
  - reflexivity.
  - reflexivity.
  - rewrite codePoints_cons, E. cbn. rewrite IH. reflexivity.
  - rewrite codePoints_cons, E. cbn [List.concat app]. rewrite IH.
    reflexivity.
Qed.

Lemma codePoints_app_plain (pre s : jsstring) :
  noSurrogate pre = true ->
  codePoints (pre ++ s) = map (fun c => [c]) pre ++ codePoints s.
Proof.
  unfold noSurrogate. induction pre as [|h pre IH]; [reflexivity|].
  cbn [forallb]. intros H. apply andb_true_iff in H. destruct H as [Hh Hp].
  apply negb_true_iff in Hh.
  cbn [app map]. rewrite codePoints_cons.
  destruct (pre ++ s) as [|l r'] eqn:E.
  - destruct pre; [|discriminate E]. cbn in E. subst s. reflexivity.
  - rewrite Hh. cbn [andb]. rewrite (IH Hp). reflexivity.
Qed.

Lemma codePoints_snoc (s : jsstring) (p : Z) :
  isLowSurrogate p = false ->
  codePoints (s ++ [p]) = codePoints s ++ [[p]].
Proof.
  intros Hp.
  induction s as [|h|h l r E IH|h l r E IH] using codePoints_ind.
  - reflexivity.
  - cbn [app]. rewrite codePoints_cons. rewrite Hp, andb_false_r.
    reflexivity.
  - cbn [app]. rewrite !codePoints_cons, E. rewrite IH. reflexivity.
  - change ((h :: l :: r) ++ [p]) with (h :: (l :: r) ++ [p]).
    rewrite codePoints_cons.
    change ((l :: r) ++ [p]) with (l :: r ++ [p]). cbv iota.
    rewrite E. change (l :: r ++ [p]) with ((l :: r) ++ [p]). rewrite IH.
    rewrite (codePoints_cons h (l :: r)), E. reflexivity.
Qed.

(** ** The options never change *)

Lemma processSgr_options (params : jsstring) (c : Converter) :
  options (processSgr params c) = options c.
Proof.
  unfold processSgr. destruct (fold_left _ _ _) as [f b].
  apply (switchColor_frame b f c).
Qed.

Lemma processCsi_options (params command : jsstring) (c : Converter) :
  options (processCsi params command c) = options c.
Proof.
  unfold processCsi. cbv zeta.
  split_ifs; rewrite ?processSgr_options; try reflexivity.
  - repeat match goal with
           | |- context [emitChar ?ch ?s] =>
               destruct (emitChar_frame ch s) as (_ & _ & _ & _ & _ & _ & ->)
           end.
    reflexivity.
  - destruct (emitTimes_frame (Z.max 1 (parseIntOr params 1)) (lit " ")
                (set_lineHasAnsi true c)) as (_ & _ & _ & _ & ->).
    reflexivity.
Qed.

Lemma processSynchronetCode_options (code : Z) (c : Converter) :
  options (processSynchronetCode code c) = options c.
Proof.
  unfold processSynchronetCode. cbv zeta.
  destruct (synchronetSwitch _ _ _) as [f b].
  apply (switchColor_frame b f (set_lineHasAnsi true c)).
Qed.

Lemma processRenegadeCode_options (code : Z) (c : Converter) :
  options (processRenegadeCode code c) = options c.
Proof.
  unfold processRenegadeCode. cbv zeta.
  split_ifs;
    match goal with
    | |- options (switchColor ?b ?f ?s) = _ =>
        exact (proj2 (proj2 (proj2 (proj2 (switchColor_frame b f s)))))
    end.
Qed.

Lemma emitChar_options (ch : jsstring) (c : Converter) :
  options (emitChar ch c) = options c.
Proof. apply emitChar_frame. Qed.

Lemma processNormal_options (ch : Z) (c : Converter) :
  options (processNormal ch c) = options c.
Proof.
  unfold processNormal. split_ifs; rewrite ?emitChar_options; reflexivity.
Qed.

Lemma processCharCode_options (ch : Z) (c : Converter) :
  options (processCharCode ch c) = options c.
Proof.
  unfold processCharCode.
  destruct (parseState c); split_ifs;
    rewrite ?processNormal_options; cbn [options set_parseState set_csiParams
      set_lineHasAnsi set_savePositionActive set_renegadeFirstDigit];
    rewrite ?processCsi_options, ?processSynchronetCode_options,
      ?processRenegadeCode_options, ?emitChar_options; reflexivity.
Qed.

Lemma processUtf8Normal_options (ch : jsstring) (c : Converter) :
  options (processUtf8Normal ch c) = options c.
Proof.
  unfold processUtf8Normal. cbv zeta.
  split_ifs; rewrite ?emitChar_options; reflexivity.
Qed.

Lemma processUtf8Char_options (ch : jsstring) (c : Converter) :
  options (processUtf8Char ch c) = options c.
Proof.
  unfold processUtf8Char. cbv zeta.
  destruct (parseState c); split_ifs;
    rewrite ?processUtf8Normal_options; cbn [options set_parseState
      set_csiParams set_lineHasAnsi set_savePositionActive
      set_renegadeFirstDigit];
    rewrite ?processCsi_options, ?processSynchronetCode_options,
      ?processRenegadeCode_options, ?emitChar_options; reflexivity.
Qed.

Lemma processAll_options (cs : jsstring) (c : Converter) :
  options (processAll cs c) = options c.
Proof.
  unfold processAll. revert c. induction cs as [|ch r IH]; intros c;
    [reflexivity|].
  cbn [fold_left]. rewrite IH. apply processCharCode_options.
Qed.

Lemma processAllUtf8_options (chs : list jsstring) (c : Converter) :
  options (processAllUtf8 chs c) = options c.
Proof.
  unfold processAllUtf8. revert c. induction chs as [|ch r IH]; intros c;
    [reflexivity|].
  cbn [fold_left]. rewrite IH. apply processUtf8Char_options.
Qed.

Lemma processAll_app (a b : jsstring) (c : Converter) :
  processAll (a ++ b) c = processAll b (processAll a c).
Proof. apply fold_left_app. Qed.

Lemma processAllUtf8_app (a b : list jsstring) (c : Converter) :
  processAllUtf8 (a ++ b) c = processAllUtf8 b (processAllUtf8 a c).
Proof. apply fold_left_app. Qed.

Lemma emitAll_app (a b : list jsstring) (c : Converter) :
  emitAll (a ++ b) c = emitAll b (emitAll a c).
Proof. apply fold_left_app. Qed.

(** ** A conversion without trailer *)

Lemma feed_options (o : ConvertOptions) (s : jsstring) (c : Converter) :
  options (feed o s c) = options c.
Proof.
  unfold feed. destruct (utf8Input o);
    [apply processAllUtf8_options|apply processAll_options].
Qed.

Lemma ansiToHtml_no_trailer (o : ConvertOptions) (input : jsstring) :
  lastIndexOf input (lit "SAUCE00") = -1 ->
  ansiToHtml input o
  = output
      (closeTag
         (feed o
            (slice input 0
               (contentEnd input (indexOf input [SUB]) None None))
            (start o)))
    ++ lit "</pre>".
Proof.
  intros H. unfold ansiToHtml, feed, start.
  destruct (utf8Input o).
  - unfold convertUtf8, convertUtf8State. cbv zeta.
    rewrite (findSaucePositions_none input H). reflexivity.
  - unfold convert, convertState. cbv zeta.
    rewrite (findSaucePositions_none input H). reflexivity.
Qed.

Lemma ansiToHtml_plain (o : ConvertOptions) (input : jsstring) :
  indexOf input [SUB] = -1 ->
  lastIndexOf input (lit "SAUCE00") = -1 ->
  ansiToHtml input o
  = output (closeTag (feed o input (start o))) ++ lit "</pre>".
Proof.
  intros Hs Ht. rewrite (ansiToHtml_no_trailer o input Ht).
  unfold contentEnd. rewrite Hs. cbn [Z.eqb negb].
  rewrite slice_all. reflexivity.
Qed.

(** ** A prefix at the end of the input *)

(** C4 fails as stated: the pipe that ends the input is not in the result, and
    neither is the Ctrl-A. *)
Lemma trailing_prefix_counterexample :
  ansiToHtml (lit "abc|") renegadeOptions
  = header ++ lit "<ans-07>abc</ans-07></pre>"
  /\ includes (ansiToHtml (lit "abc|") renegadeOptions) (lit "|") = false
  /\ ansiToHtml (lit "abc" ++ [1]) synchronetOptions
     = header ++ lit "<ans-07>abc</ans-07></pre>".
Proof. vm_compute. auto. Qed.

Lemma processCharCode_prefix (p : Z) (c : Converter) :
  parseState c = Normal -> vendorPrefix (options c) p ->
  processCharCode p c = set_parseState (pendingState p) c.
Proof.
  intros Hn Hp. unfold processCharCode. rewrite Hn. unfold processNormal.
  destruct Hp as [[-> Hr]|[-> Hs]].
  - rewrite Hr. cbn. rewrite andb_false_r. reflexivity.
  - rewrite Hs. reflexivity.
Qed.

Lemma processUtf8Char_prefix (p : Z) (c : Converter) :
  parseState c = Normal -> vendorPrefix (options c) p ->
  processUtf8Char [p] c = set_parseState (pendingState p) c.
Proof.
  intros Hn Hp. unfold processUtf8Char. cbv zeta. rewrite Hn.
  unfold processUtf8Normal. cbv zeta.
  destruct Hp as [[-> Hr]|[-> Hs]].
  - rewrite Hr. cbn. rewrite andb_false_r. reflexivity.
  - rewrite Hs. reflexivity.
Qed.

(** C4, as the converter has it.  When the input ends with the prefix of an
    enabled vendor dialect (a pipe, or Ctrl-A), met in the [Normal] state as
    the last processed unit, the prefix is not written: the machine is left
    waiting for the code and the result is the result for the input without
    that last character. *)
Theorem trailing_prefix_is_dropped (o : ConvertOptions) (input : jsstring)
    (p : Z) :
  vendorPrefix o p ->
  indexOf (input ++ [p]) [SUB] = -1 ->
  lastIndexOf (input ++ [p]) (lit "SAUCE00") = -1 ->
  parseState (feed o input (start o)) = Normal ->
  feed o (input ++ [p]) (start o)
  = set_parseState (pendingState p) (feed o input (start o))
  /\ ansiToHtml (input ++ [p]) o = ansiToHtml input o.
Proof.
  intros Hp Hs Ht Hn.
  assert (E : feed o (input ++ [p]) (start o)
              = set_parseState (pendingState p) (feed o input (start o))).
  { pose proof (feed_options o input (start o)) as Ho.
    change (options (start o)) with o in Ho.
    unfold feed in *. destruct (utf8Input o).
    - rewrite codePoints_snoc.
      + rewrite processAllUtf8_app. cbn [processAllUtf8 fold_left].
        apply processUtf8Char_prefix; [exact Hn|rewrite Ho; exact Hp].
      + destruct Hp as [[-> _]|[-> _]]; reflexivity.
    - rewrite processAll_app. cbn [processAll fold_left].
      apply processCharCode_prefix; [exact Hn|rewrite Ho; exact Hp]. }
  split; [exact E|].
  rewrite (ansiToHtml_plain o (input ++ [p]) Hs Ht).
  rewrite (ansiToHtml_plain o input (indexOf_absent_app _ _ _ Hs)
             (lastIndexOf_absent_app _ _ _ Ht)).
  rewrite E. reflexivity.
Qed.

(** The input abc followed by a pipe. *)
Lemma trailing_prefix_is_dropped_witness :
  vendorPrefix renegadeOptions 124
  /\ indexOf (lit "abc" ++ [124]) [SUB] = -1
  /\ lastIndexOf (lit "abc" ++ [124]) (lit "SAUCE00") = -1
  /\ parseState (feed renegadeOptions (lit "abc") (start renegadeOptions))
     = Normal
  /\ ansiToHtml (lit "abc" ++ [124]) renegadeOptions
     = ansiToHtml (lit "abc") renegadeOptions.
Proof.
  assert (Hp : vendorPrefix renegadeOptions 124)
    by (left; split; reflexivity).
  assert (Hs : indexOf (lit "abc" ++ [124]) [SUB] = -1)
    by (vm_compute; reflexivity).
  assert (Ht : lastIndexOf (lit "abc" ++ [124]) (lit "SAUCE00") = -1)
    by (vm_compute; reflexivity).
  assert (Hn : parseState
                 (feed renegadeOptions (lit "abc") (start renegadeOptions))
               = Normal) by (vm_compute; reflexivity).
  split; [exact Hp|]. split; [exact Hs|]. split; [exact Ht|].
  split; [exact Hn|].
  exact (proj2 (trailing_prefix_is_dropped renegadeOptions (lit "abc") 124
                  Hp Hs Ht Hn)).
Defined.

(** ** The emitter on text *)

Lemma emitChar_text (ch : jsstring) (c : Converter) :
  savePositionActive c = false -> isText ch = true ->
  emitChar ch c = put (escapeHtml ch) (wrapIfNeeded c).
Proof.
  intros Hs Ht. unfold isText in Ht. apply andb_true_iff in Ht.
  destruct Ht as [Hl Hc]. apply negb_true_iff in Hl, Hc.
  unfold emitChar, wrapIfNeeded, escapeHtml. rewrite Hs. cbv zeta.
  rewrite Hl, Hc. cbn [negb]. rewrite andb_true_r.
  split_ifs; reflexivity.
Qed.

Lemma emitChar_LF (c : Converter) :
  savePositionActive c = false ->
  emitChar LF c = set_lineHasAnsi false (set_currentColumn 0 (write LF c)).
Proof.
  intros Hs. unfold emitChar. rewrite Hs. cbv zeta.
  rewrite (streq_refl LF). cbn [negb]. rewrite andb_false_r.
  reflexivity.
Qed.





Lemma closeTag_output (c : Converter) :
  output (closeTag c)
  = output c ++ lit "</ans-" ++ colorToHex (background c)
    ++ colorToHex (foreground c) ++ lit ">".
Proof. reflexivity. Qed.



(** ** Text in the [Normal] state *)

Lemma cp437_no_break (code u : Z) : cp437 code = Some u -> u <> 10 /\ u <> 13.
Proof.
  unfold cp437. destruct (code <? 0); [discriminate|].
  intros E. apply nth_error_In in E.
  assert (H : forallb (fun u => negb (u =? 10) && negb (u =? 13))
                CP437_TO_UNICODE = true) by (vm_compute; reflexivity).
  rewrite forallb_forall in H. specialize (H _ E).
  apply andb_true_iff in H. rewrite !negb_true_iff, !Z.eqb_neq in H. exact H.
Qed.

Lemma single_isText (u : Z) : u <> 10 -> u <> 13 -> isText [u] = true.
Proof.
  intros H1 H2. unfold isText. apply andb_true_iff.
  split; apply negb_true_iff, streq_neq; intros [= E]; lia.
Qed.

Lemma single_noLF (u : Z) : u <> 10 -> noLF [u].
Proof. intros H [E|[]]. lia. Qed.

Lemma table_glyph (code : Z) :
  let u := match cp437 code with
           | Some u => u
           | None => 65533
           end in
  u <> 10 /\ u <> 13.
Proof.
  cbv zeta. destruct (cp437 code) as [u|] eqn:E.
  - exact (cp437_no_break code u E).
  - split; discriminate.
Qed.

Lemma glyph437_text (charCode : Z) :
  charCode <> 10 -> charCode <> 13 ->
  isText (glyph437 charCode) = true /\ noLF (glyph437 charCode).
Proof.
  intros H1 H2. unfold glyph437.
  destruct ((charCode <? 32) || (charCode >=? 127)).
  - destruct (table_glyph charCode) as [Ha Hb].
    split; [apply single_isText|apply single_noLF]; assumption.
  - split; [apply single_isText|apply single_noLF]; assumption.
Qed.

Lemma isChar_first (ch : jsstring) (u : Z) :
  isChar ch -> charCodeAt ch 0 = u -> u <> 10 -> u <> 13 ->
  isText ch = true /\ noLF ch.
Proof.
  intros [[v ->]|(h & l & -> & Hh & Hl)] E H1 H2.
  - cbn in E. subst v.
    split; [apply single_isText|apply single_noLF]; assumption.
  - cbn in E. subst h. split.
    + unfold isText. apply andb_true_iff.
      split; apply negb_true_iff, streq_neq; discriminate.
    + unfold isLowSurrogate in Hl. apply andb_true_iff in Hl.
      rewrite !Z.leb_le in Hl. intros [E|[E|[]]]; lia.
Qed.

Lemma glyphUtf8_text (ch : jsstring) :
  isChar ch -> charCodeAt ch 0 <> 10 -> charCodeAt ch 0 <> 13 ->
  isText (glyphUtf8 ch) = true /\ noLF (glyphUtf8 ch).
Proof.
  intros Hc H1 H2. unfold glyphUtf8.
  destruct (charCodeAt ch 0 <? 32).
  - destruct (table_glyph (charCodeAt ch 0)) as [Ha Hb].
    split; [apply single_isText|apply single_noLF]; assumption.
  - exact (isChar_first ch _ Hc eq_refl H1 H2).
Qed.

Lemma startsSequence_false (o : ConvertOptions) (ch : Z) :
  startsSequence o ch = false ->
  (ch =? 27) = false
  /\ synchronetCtrlA o && (ch =? 1) = false
  /\ renegadePipe o && (ch =? 124) = false.
Proof.
  unfold startsSequence. intros H.
  apply orb_false_iff in H. destruct H as [H H3].
  apply orb_false_iff in H. tauto.
Qed.

Lemma processCharCode_plain (ch : Z) (c : Converter) :
  parseState c = Normal ->
  startsSequence (options c) ch = false ->
  processCharCode ch c
  = if ch =? 10 then emitChar LF c
    else if ch =? 13 then c
    else emitChar (glyph437 ch) c.
Proof.
  intros Hn Hp. destruct (startsSequence_false _ _ Hp) as (H1 & H2 & H3).
  unfold processCharCode. rewrite Hn. unfold processNormal, glyph437.
  rewrite H1, H2, H3. split_ifs; reflexivity.
Qed.

Lemma isChar_streq (ch : jsstring) (u : Z) :
  isChar ch -> isHighSurrogate u = false ->
  streq ch [u] = (charCodeAt ch 0 =? u).
Proof.
  intros [[v ->]|(h & l & -> & Hh & Hl)] Hu; cbn [charCodeAt Z.to_nat nth].
  - destruct (v =? u) eqn:E.
    + apply Z.eqb_eq in E. subst. apply streq_refl.
    + apply streq_neq. intros [= E']. apply Z.eqb_neq in E. exact (E E').
  - destruct (h =? u) eqn:E.
    + apply Z.eqb_eq in E. subst. rewrite Hh in Hu. discriminate Hu.
    + apply streq_neq. discriminate.
Qed.

Lemma processUtf8Char_plain (ch : jsstring) (c : Converter) :
  isChar ch ->
  parseState c = Normal ->
  startsSequence (options c) (charCodeAt ch 0) = false ->
  processUtf8Char ch c
  = if charCodeAt ch 0 =? 10 then emitChar LF c
    else if charCodeAt ch 0 =? 13 then c
    else emitChar (glyphUtf8 ch) c.
Proof.
  intros Hc Hn Hp. destruct (startsSequence_false _ _ Hp) as (H1 & H2 & H3).
  unfold processUtf8Char. cbv zeta. rewrite Hn.
  unfold processUtf8Normal, glyphUtf8. cbv zeta.
  change (lit "|") with [124]. unfold LF, CR.
  rewrite !(isChar_streq ch _ Hc) by reflexivity.
  rewrite H1, H2, H3. split_ifs; reflexivity.
Qed.

(** *** Line feeds written for text without escape *)









Lemma isChar_first_in (ch : jsstring) : isChar ch -> In (charCodeAt ch 0) ch.
Proof.
  intros [[v ->]|(h & l & -> & _)]; left; reflexivity.
Qed.

Lemma plainText_codePoints (o : ConvertOptions) (s : jsstring) :
  plainText o s = true ->
  forallb (fun ch => negb (startsSequence o (charCodeAt ch 0))) (codePoints s)
  = true.
Proof.
  unfold plainText. rewrite !forallb_forall. intros H ch Hch.
  apply H. rewrite <- (codePoints_concat s). apply in_concat.
  exists ch. split; [exact Hch|].
  apply isChar_first_in.
  pose proof (codePoints_isChar s) as Hall. rewrite Forall_forall in Hall.
  exact (Hall ch Hch).
Qed.


(** *** A run of literal characters *)






Lemma characters_isChar (o : ConvertOptions) (s : jsstring) :
  Forall isChar (characters o s).
Proof.
  unfold characters. destruct (utf8Input o); [apply codePoints_isChar|].
  apply Forall_forall. intros ch Hch. apply in_map_iff in Hch.
  destruct Hch as (u & <- & _). left. exists u. reflexivity.
Qed.



Ltac fields :=
  unfold typed, put, write, set_currentColumn, set_output, set_lineHasAnsi;
  cbn [foreground background output currentColumn lineHasAnsi
       savePositionActive parseState csiParams renegadeFirstDigit options].

Lemma typed_nothing (c : Converter) : typed [] 0 c = c.
Proof.
  destruct c. fields. rewrite app_nil_r, Z.add_0_r. reflexivity.
Qed.

Lemma typed_put (e s : jsstring) (n : Z) (c : Converter) :
  typed s n (put e c) = typed (e ++ s) (1 + n) c.
Proof.
  destruct c. fields. rewrite <- app_assoc. f_equal. lia.
Qed.

(** Up to column 80 nothing is wrapped. *)
Lemma emitAll_nowrap (gs : list jsstring) (c : Converter) :
  savePositionActive c = false ->
  forallb isText gs = true ->
  currentColumn c + Z.of_nat (List.length gs) <= 80 ->
  emitAll gs c = typed (renderText gs) (Z.of_nat (List.length gs)) c.
Proof.
  unfold emitAll, renderText. revert c.
  induction gs as [|g r IH]; intros c Hs Ht Hc.
  - cbn. symmetry. apply typed_nothing.
  - cbn [forallb] in Ht. apply andb_true_iff in Ht. destruct Ht as [Hg Hr].
    cbn [List.length] in Hc. rewrite Nat2Z.inj_succ in Hc.
    cbn [fold_left map List.concat List.length].
    rewrite (emitChar_text g c Hs Hg).
    assert (Hw : wrapIfNeeded c = c).
    { unfold wrapIfNeeded.
      assert (E : (currentColumn c >=? 80) = false)
        by (rewrite Z.geb_leb; apply Z.leb_gt; lia).
      rewrite E, andb_false_r. reflexivity. }
    rewrite Hw. rewrite IH.
    + rewrite typed_put. f_equal. lia.
    + exact Hs.
    + exact Hr.
    + fields. lia.
Qed.


(** *** An SGR sequence in front *)

Lemma param_test (ch : Z) :
  isParam ch = true ->
  ((ch >=? 48) && (ch <=? 57)) || (ch =? 59) = true
  /\ isHighSurrogate ch = false.
Proof.
  unfold isParam, isDigit. rewrite Z.geb_leb. intros H. split; [exact H|].
  unfold isHighSurrogate. apply andb_false_iff. left. apply Z.leb_gt.
  apply orb_true_iff in H. destruct H as [H|H].
  - apply andb_true_iff in H. rewrite !Z.leb_le in H. lia.
  - apply Z.eqb_eq in H. lia.
Qed.

Lemma csi_accumulate (p : jsstring) (c : Converter) :
  parseState c = Csi -> forallb isParam p = true ->
  processAll p c = set_csiParams (csiParams c ++ p) c.
Proof.
  unfold processAll. revert c. induction p as [|ch r IH]; intros c Hc Hp.
  - cbn. rewrite app_nil_r. destruct c. reflexivity.
  - cbn [forallb] in Hp. apply andb_true_iff in Hp. destruct Hp as [Hch Hr].
    cbn [fold_left].
    assert (E : processCharCode ch c = set_csiParams (csiParams c ++ [ch]) c).
    { unfold processCharCode. rewrite Hc, (proj1 (param_test ch Hch)).
      reflexivity. }
    rewrite E, IH; [|exact Hc|exact Hr].
    cbn [csiParams set_csiParams]. rewrite <- app_assoc. reflexivity.
Qed.

Lemma csi_accumulate_utf8 (p : jsstring) (c : Converter) :
  parseState c = Csi -> forallb isParam p = true ->
  processAllUtf8 (map (fun u => [u]) p) c = set_csiParams (csiParams c ++ p) c.
Proof.
  unfold processAllUtf8. revert c. induction p as [|ch r IH]; intros c Hc Hp.
  - cbn. rewrite app_nil_r. destruct c. reflexivity.
  - cbn [forallb] in Hp. apply andb_true_iff in Hp. destruct Hp as [Hch Hr].
    cbn [fold_left map].
    assert (E : processUtf8Char [ch] c
                = set_csiParams (csiParams c ++ [ch]) c).
    { unfold processUtf8Char. cbv zeta. rewrite Hc.
      change (lit ";") with [59].
      rewrite (isChar_streq [ch] 59) by
        (reflexivity || (left; exists ch; reflexivity)).
      cbn [charCodeAt Z.to_nat nth].
      rewrite (proj1 (param_test ch Hch)). reflexivity. }
    rewrite E, IH; [|exact Hc|exact Hr].
    cbn [csiParams set_csiParams]. rewrite <- app_assoc. reflexivity.
Qed.





Lemma switchColor_output (newBg newFg : Z) (c : Converter) :
  (switchColor newBg newFg c = c
   /\ newBg = background c /\ newFg = foreground c)
  \/ output (switchColor newBg newFg c)
     = output c ++ lit "</ans-" ++ colorToHex (background c)
       ++ colorToHex (foreground c) ++ lit ">" ++ lit "<ans-"
       ++ colorToHex newBg ++ colorToHex newFg ++ lit ">".
Proof.
  unfold switchColor.
  destruct (newBg =? background c) eqn:Eb, (newFg =? foreground c) eqn:Ef;
    cbn [negb orb].
  - left. apply Z.eqb_eq in Eb, Ef. auto.
  - right. unfold openTag, closeTag, write. cbn.
    repeat (rewrite <- app_assoc; cbn [app]). reflexivity.
  - right. unfold openTag, closeTag, write. cbn.
    repeat (rewrite <- app_assoc; cbn [app]). reflexivity.
  - right. unfold openTag, closeTag, write. cbn.
    repeat (rewrite <- app_assoc; cbn [app]). reflexivity.
Qed.


Lemma forallb_firstn {A : Type} (P : A -> bool) (n : nat) (l : list A) :
  forallb P l = true -> forallb P (firstn n l) = true.
Proof.
  rewrite !forallb_forall. intros H x Hx. exact (H x (In_firstn n l x Hx)).
Qed.

Lemma forallb_skipn {A : Type} (P : A -> bool) (n : nat) (l : list A) :
  forallb P l = true -> forallb P (skipn n l) = true.
Proof.
  rewrite !forallb_forall. intros H x Hx. exact (H x (In_skipn n l x Hx)).
Qed.




(** *** A line without escape sequence *)

Lemma wrapIfNeeded_off (c : Converter) :
  lineHasAnsi c = false -> wrapIfNeeded c = c.
Proof. intros H. unfold wrapIfNeeded. rewrite H. reflexivity. Qed.

(** On a line without escape sequence the emitter appends the escaped
    character and nothing else. *)
Lemma emitChar_plain (ch : jsstring) (c : Converter) :
  savePositionActive c = false -> lineHasAnsi c = false ->
  notCR ch = true ->
  output (emitChar ch c) = output c ++ escapeHtml ch
  /\ lineHasAnsi (emitChar ch c) = false.
Proof.
  intros Hs Hl Hc. unfold notCR in Hc. apply negb_true_iff in Hc.
  destruct (streq ch LF) eqn:EL.
  - apply streq_eq in EL. subst ch. rewrite emitChar_LF by exact Hs.
    split; reflexivity.
  - rewrite emitChar_text by (try exact Hs; unfold isText; rewrite EL, Hc;
                              reflexivity).
    rewrite wrapIfNeeded_off by exact Hl. split; [reflexivity|exact Hl].
Qed.

Lemma renderText_cons (g : jsstring) (gs : list jsstring) :
  renderText (g :: gs) = escapeHtml g ++ renderText gs.
Proof. reflexivity. Qed.

Lemma emitAll_plain (gs : list jsstring) (c : Converter) :
  savePositionActive c = false -> lineHasAnsi c = false ->
  forallb notCR gs = true ->
  output (emitAll gs c) = output c ++ renderText gs
  /\ lineHasAnsi (emitAll gs c) = false.
Proof.
  revert c. induction gs as [|g gs IH]; intros c Hs Hl Hg.
  - cbn. rewrite app_nil_r. auto.
  - cbn [forallb] in Hg. apply andb_true_iff in Hg. destruct Hg as [Hg Hgs].
    destruct (emitChar_plain g c Hs Hl Hg) as [Eo El].
    destruct (emitChar_frame g c) as [_ [_ [Es _]]].
    change (emitAll (g :: gs) c) with (emitAll gs (emitChar g c)).
    destruct (IH (emitChar g c) ltac:(congruence) El Hgs) as [Eo' El'].
    rewrite Eo', Eo, renderText_cons, <- app_assoc. auto.
Qed.

Lemma emitAll_parseState (gs : list jsstring) (c : Converter) :
  parseState (emitAll gs c) = parseState c.
Proof. apply emitAll_frame. Qed.

Lemma processCharCode_plainGlyph (ch : Z) (c : Converter) :
  utf8Input (options c) = false ->
  parseState c = Normal ->
  startsSequence (options c) ch = false ->
  processCharCode ch c = emitAll (plainGlyph (options c) [ch]) c.
Proof.
  intros Hu Hn Hch. rewrite processCharCode_plain by assumption.
  unfold plainGlyph, glyph. rewrite Hu. change (charCodeAt [ch] 0) with ch.
  destruct (ch =? 10); [reflexivity|]. destruct (ch =? 13); reflexivity.
Qed.

Lemma processUtf8Char_plainGlyph (ch : jsstring) (c : Converter) :
  utf8Input (options c) = true ->
  isChar ch ->
  parseState c = Normal ->
  startsSequence (options c) (charCodeAt ch 0) = false ->
  processUtf8Char ch c = emitAll (plainGlyph (options c) ch) c.
Proof.
  intros Hu Hc Hn Hch. rewrite processUtf8Char_plain by assumption.
  unfold plainGlyph, glyph. rewrite Hu.
  destruct (charCodeAt ch 0 =? 10); [reflexivity|].
  destruct (charCodeAt ch 0 =? 13); reflexivity.
Qed.

Lemma processAll_plain (o : ConvertOptions) (cs : jsstring) (c : Converter) :
  utf8Input o = false -> options c = o ->
  parseState c = Normal ->
  plainText o cs = true ->
  processAll cs c = emitAll (flat_map (plainGlyph o) (map (fun u => [u]) cs)) c.
Proof.
  intros Hu. revert c. induction cs as [|ch cs IH]; intros c Ho Hn Hp;
    [reflexivity|].
  cbn [plainText forallb] in Hp. apply andb_true_iff in Hp.
  destruct Hp as [Hch Hcs]. apply negb_true_iff in Hch.
  change (processAll (ch :: cs) c) with (processAll cs (processCharCode ch c)).
  cbn [map flat_map]. rewrite emitAll_app.
  rewrite processCharCode_plainGlyph by (rewrite ?Ho; assumption).
  rewrite Ho. apply IH.
  - destruct (emitAll_frame (plainGlyph o [ch]) c) as [_ [_ [_ [_ E]]]].
    rewrite E. exact Ho.
  - rewrite emitAll_parseState. exact Hn.
  - exact Hcs.
Qed.

Lemma processAllUtf8_plain (o : ConvertOptions) (chs : list jsstring)
    (c : Converter) :
  utf8Input o = true -> options c = o ->
  Forall isChar chs ->
  parseState c = Normal ->
  forallb (fun ch => negb (startsSequence o (charCodeAt ch 0))) chs = true ->
  processAllUtf8 chs c = emitAll (flat_map (plainGlyph o) chs) c.
Proof.
  intros Hu Ho F. revert c Ho.
  induction F as [|ch chs Hc _ IH]; intros c Ho Hn Hp; [reflexivity|].
  cbn [forallb] in Hp. apply andb_true_iff in Hp.
  destruct Hp as [Hch Hcs]. apply negb_true_iff in Hch.
  change (processAllUtf8 (ch :: chs) c)
    with (processAllUtf8 chs (processUtf8Char ch c)).
  cbn [flat_map]. rewrite emitAll_app.
  rewrite processUtf8Char_plainGlyph by (rewrite ?Ho; assumption).
  rewrite Ho. apply IH.
  - destruct (emitAll_frame (plainGlyph o ch) c) as [_ [_ [_ [_ E]]]].
    rewrite E. exact Ho.
  - rewrite emitAll_parseState. exact Hn.
  - exact Hcs.
Qed.

Lemma feed_plain (o : ConvertOptions) (s : jsstring) (c : Converter) :
  options c = o -> parseState c = Normal -> plainText o s = true ->
  feed o s c = emitAll (plainGlyphs o s) c.
Proof.
  intros Ho Hn Hp. unfold feed. destruct (utf8Input o) eqn:Hu.
  - unfold plainGlyphs, characters. rewrite Hu.
    apply processAllUtf8_plain; try assumption.
    + apply codePoints_isChar.
    + apply plainText_codePoints, Hp.
  - unfold plainGlyphs, characters. rewrite Hu.
    apply processAll_plain; assumption.
Qed.

Lemma plainGlyph_notCR (o : ConvertOptions) (ch : jsstring) :
  isChar ch -> forallb notCR (plainGlyph o ch) = true.
Proof.
  intros Hc. unfold plainGlyph.
  destruct (Z.eqb_spec (charCodeAt ch 0) 10) as [E10|E10]; [reflexivity|].
  destruct (Z.eqb_spec (charCodeAt ch 0) 13) as [E13|E13]; [reflexivity|].
  cbn [forallb]. rewrite andb_true_r. unfold notCR, glyph.
  destruct (utf8Input o).
  - destruct (glyphUtf8_text ch Hc E10 E13) as [H _].
    unfold isText in H. apply andb_true_iff in H. apply H.
  - destruct (glyph437_text (charCodeAt ch 0) E10 E13) as [H _].
    unfold isText in H. apply andb_true_iff in H. apply H.
Qed.

Lemma plainGlyphs_notCR (o : ConvertOptions) (s : jsstring) :
  forallb notCR (plainGlyphs o s) = true.
Proof.
  unfold plainGlyphs.
  pose proof (characters_isChar o s) as F.
  induction F as [|ch chs Hc _ IH]; [reflexivity|].
  cbn [flat_map]. rewrite forallb_app, IH, plainGlyph_notCR by exact Hc.
  reflexivity.
Qed.
(** *** A line feed ends the line *)













(** ** Renegade codes on either path *)

Lemma processUtf8Char_pipe1_digit (ch : Z) (c : Converter) :
  parseState c = RenegadePipe1 -> 48 <= ch <= 57 ->
  processUtf8Char [ch] c
  = set_parseState RenegadePipe2 (set_renegadeFirstDigit (ch - 48) c).
Proof.
  intros Hp Hd. unfold processUtf8Char. cbv zeta.
  cbn [charCodeAt Z.to_nat nth]. rewrite Hp, (digit_test ch Hd).
  reflexivity.
Qed.

Lemma processUtf8Char_pipe2_digit (ch : Z) (c : Converter) :
  parseState c = RenegadePipe2 -> 48 <= ch <= 57 ->
  processUtf8Char [ch] c
  = set_parseState Normal
      (if renegadeFirstDigit c * 10 + (ch - 48) <=? 23
       then processRenegadeCode (renegadeFirstDigit c * 10 + (ch - 48)) c
       else c).
Proof.
  intros Hp Hd. unfold processUtf8Char. cbv zeta.
  cbn [charCodeAt Z.to_nat nth]. rewrite Hp, (digit_test ch Hd).
  reflexivity.
Qed.

Lemma digit_noSurrogate (ch : Z) :
  48 <= ch <= 57 -> negb (isHighSurrogate ch) = true.
Proof.
  intros H. apply negb_true_iff. unfold isHighSurrogate.
  apply andb_false_iff. left. apply Z.leb_gt. lia.
Qed.

(** A pipe and two digits, met in the [Normal] state. *)
Lemma feed_pipe_code (c : Converter) (d1 d2 : Z) :
  parseState c = Normal ->
  renegadePipe (options c) = true ->
  0 <= d1 <= 9 -> 0 <= d2 <= 9 ->
  feed (options c) [124; 48 + d1; 48 + d2] c
  = set_parseState Normal
      (if d1 * 10 + d2 <=? 23
       then processRenegadeCode (d1 * 10 + d2)
              (set_parseState RenegadePipe2
                 (set_renegadeFirstDigit d1 (set_parseState RenegadePipe1 c)))
       else set_parseState RenegadePipe2
              (set_renegadeFirstDigit d1 (set_parseState RenegadePipe1 c))).
Proof.
  intros Hn Hr H1 H2.
  assert (Hv : vendorPrefix (options c) 124) by (left; auto).
  unfold feed. destruct (utf8Input (options c)).
  - assert (Hs : noSurrogate [124; 48 + d1; 48 + d2] = true).
    { unfold noSurrogate. cbn [forallb].
      rewrite (digit_noSurrogate (48 + d1)), (digit_noSurrogate (48 + d2))
        by lia.
      reflexivity. }
    pose proof (codePoints_app_plain [124; 48 + d1; 48 + d2] [] Hs) as E.
    rewrite app_nil_r in E. rewrite E. cbn [map app codePoints].
    unfold processAllUtf8. cbn [fold_left].
    rewrite (processUtf8Char_prefix 124 c Hn Hv).
    change (pendingState 124) with RenegadePipe1.
    rewrite (processUtf8Char_pipe1_digit (48 + d1)
               (set_parseState RenegadePipe1 c) eq_refl) by lia.
    rewrite (processUtf8Char_pipe2_digit (48 + d2)
               (set_parseState RenegadePipe2
                  (set_renegadeFirstDigit (48 + d1 - 48)
                     (set_parseState RenegadePipe1 c))) eq_refl) by lia.
    cbn [renegadeFirstDigit set_parseState set_renegadeFirstDigit].
    replace ((48 + d1 - 48) * 10 + (48 + d2 - 48)) with (d1 * 10 + d2) by lia.
    replace (48 + d1 - 48) with d1 by lia. reflexivity.
  - unfold processAll. cbn [fold_left].
    rewrite (processCharCode_pipe c Hn Hr).
    rewrite (processCharCode_pipe1_digit (48 + d1)
               (set_parseState RenegadePipe1 c) eq_refl) by lia.
    rewrite (processCharCode_pipe2_digit (48 + d2)
               (set_parseState RenegadePipe2
                  (set_renegadeFirstDigit (48 + d1 - 48)
                     (set_parseState RenegadePipe1 c))) eq_refl) by lia.
    cbn [renegadeFirstDigit set_parseState set_renegadeFirstDigit].
    replace ((48 + d1 - 48) * 10 + (48 + d2 - 48)) with (d1 * 10 + d2) by lia.
    replace (48 + d1 - 48) with d1 by lia. reflexivity.
Qed.

(** C3, as the converter has it.  With the Renegade dialect enabled, on
    either path, the two-digit codes 16 to 23 set the background to
    code - 16, the indices 0 to 7, and leave the foreground; a code above 23,
    so each of 24 to 31, is dropped: both digits are consumed and colours,
    output, column and line-escape flag stay as they were. *)
Theorem renegade_background_codes (c : Converter) (d1 d2 : Z) :
  parseState c = Normal ->
  renegadePipe (options c) = true ->
  0 <= d1 <= 9 -> 0 <= d2 <= 9 ->
  let code := d1 * 10 + d2 in
  let c' := feed (options c) [124; 48 + d1; 48 + d2] c in
  parseState c' = Normal
  /\ (16 <= code <= 23 ->
      background c' = code - 16 /\ 0 <= background c' <= 7
      /\ foreground c' = foreground c)
  /\ (24 <= code ->
      background c' = background c /\ foreground c' = foreground c
      /\ output c' = output c /\ currentColumn c' = currentColumn c
      /\ lineHasAnsi c' = lineHasAnsi c).
Proof.
  intros Hn Hr H1 H2. cbv zeta.
  rewrite (feed_pipe_code c d1 d2 Hn Hr H1 H2).
  split; [reflexivity|].
  split.
  - intros Hc.
    assert (E : (d1 * 10 + d2 <=? 23) = true) by (apply Z.leb_le; lia).
    rewrite E. cbn [background foreground set_parseState].
    match goal with
    | |- context [processRenegadeCode ?k ?s] =>
        destruct (processRenegadeCode_background k s Hc) as [-> ->]
    end.
    cbn. split; [reflexivity|]. split; [lia|reflexivity].
  - intros Hc.
    assert (E : (d1 * 10 + d2 <=? 23) = false) by (apply Z.leb_gt; lia).
    rewrite E. cbn. auto.
Qed.

(** The codes 17 and 24 on a fresh converter. *)
Lemma renegade_background_codes_witness :
  let c := newConverter renegadeOptions in
  parseState c = Normal /\ renegadePipe (options c) = true
  /\ background (feed renegadeOptions (lit "|17") c) = 1
  /\ background (feed renegadeOptions (lit "|24") c) = 0.
Proof.
  cbv zeta.
  assert (Hn : parseState (newConverter renegadeOptions) = Normal)
    by reflexivity.
  assert (Hr : renegadePipe (options (newConverter renegadeOptions)) = true)
    by reflexivity.
  split; [exact Hn|]. split; [exact Hr|].
  split.
  - assert (H1 : 0 <= 1 <= 9) by lia. assert (H7 : 0 <= 7 <= 9) by lia.
    destruct (renegade_background_codes _ 1 7 Hn Hr H1 H7) as (_ & Hbg & _).
    assert (Hc : 16 <= 1 * 10 + 7 <= 23) by lia.
    exact (proj1 (Hbg Hc)).
  - assert (H2 : 0 <= 2 <= 9) by lia. assert (H4 : 0 <= 4 <= 9) by lia.
    destruct (renegade_background_codes _ 2 4 Hn Hr H2 H4) as (_ & _ & Hhi).
    assert (Hc : 24 <= 2 * 10 + 4) by lia.
    exact (proj1 (Hhi Hc)).
Defined.

(** ** Suppression on either path *)

Section Suppressed.

Variable c : Converter.
Hypothesis suppressed : savePositionActive c = true.
Hypothesis normal : parseState c = Normal.

Lemma processNormal_suppressed (ch : Z) :
  startsSequence (options c) ch = false -> processNormal ch c = c.
Proof.
  intros Hp. destruct (startsSequence_false _ _ Hp) as (H1 & H2 & H3).
  unfold processNormal. rewrite H1, H2, H3.
  split_ifs; auto using emitChar_suppressed.
Qed.

Lemma processAll_suppressed (cs : jsstring) :
  plainText (options c) cs = true -> processAll cs c = c.
Proof.
  unfold plainText, processAll.
  induction cs as [|ch r IH]; cbn [forallb fold_left]; [reflexivity|].
  intros H. apply andb_true_iff in H. destruct H as [H1 H2].
  apply negb_true_iff in H1.
  unfold processCharCode at 2. rewrite normal.
  rewrite (processNormal_suppressed ch H1). exact (IH H2).
Qed.

Lemma processAllUtf8_suppressed (chs : list jsstring) :
  Forall isChar chs ->
  forallb (fun ch => negb (startsSequence (options c) (charCodeAt ch 0))) chs
  = true ->
  processAllUtf8 chs c = c.
Proof.
  intros Hc. unfold processAllUtf8.
  induction Hc as [|ch r Hch _ IH]; [reflexivity|].
  cbn [forallb fold_left]. intros H. apply andb_true_iff in H.
  destruct H as [H1 H2]. apply negb_true_iff in H1.
  rewrite (processUtf8Char_plain ch c Hch normal H1).
  rewrite !(emitChar_suppressed _ c suppressed).
  assert (E : (if charCodeAt ch 0 =? 10 then c
               else if charCodeAt ch 0 =? 13 then c else c) = c)
    by (split_ifs; reflexivity).
  rewrite E. exact (IH H2).
Qed.

Lemma feed_suppressed (s : jsstring) :
  plainText (options c) s = true -> feed (options c) s c = c.
Proof.
  intros Hp. unfold feed. destruct (utf8Input (options c)).
  - apply processAllUtf8_suppressed; [apply codePoints_isChar|].
    apply plainText_codePoints, Hp.
  - apply processAll_suppressed, Hp.
Qed.

End Suppressed.

(** C7. While save-position suppression is active the emitter does nothing
    at all: no character is written and the column counter and the
    line-escape flag keep their values, whatever text comes (line feeds
    included), on either path.  The flag is raised by ESC[s and ESC 7 and
    dropped by ESC[u and ESC 8, and the text between [Before] and [After]
    of the example is missing from the result. *)
Theorem suppressed_text_is_discarded :
  (forall (ch : jsstring) (c : Converter),
      savePositionActive c = true -> emitChar ch c = c)
  /\ (forall (s : jsstring) (c : Converter),
        savePositionActive c = true ->
        parseState c = Normal ->
        plainText (options c) s = true ->
        let c' := feed (options c) s c in
        c' = c /\ output c' = output c
        /\ currentColumn c' = currentColumn c
        /\ lineHasAnsi c' = lineHasAnsi c)
  /\ (forall c : Converter,
        parseState c = Normal ->
        savePositionActive (feed (options c) [27; 91; 115] c) = true
        /\ savePositionActive (feed (options c) [27; 55] c) = true
        /\ savePositionActive (feed (options c) [27; 91; 117] c) = false
        /\ savePositionActive (feed (options c) [27; 56] c) = false)
  /\ (let html :=
        ansiToHtml
          (lit "Before" ++ ESC :: lit "[sHidden" ++ ESC :: lit "[uAfter")
          defaultOptions in
      html = header ++ lit "<ans-07>BeforeAfter</ans-07></pre>"
      /\ includes html (lit "Before") = true
      /\ includes html (lit "After") = true
      /\ includes html (lit "Hidden") = false).
Proof.
  split; [exact emitChar_suppressed|].
  split.
  { intros s c Hs Hn Hp. cbv zeta.
    rewrite (feed_suppressed c Hs Hn s Hp). auto. }
  split.
  { intros c Hn. unfold feed. destruct (utf8Input (options c)).
    - cbn [codePoints isHighSurrogate isLowSurrogate Z.leb Z.compare
           Pos.compare Pos.compare_cont andb]. cbn [processAllUtf8 fold_left].
      unfold processAllUtf8. cbn [fold_left].
      unfold processUtf8Char at 3 5 8 10. cbv zeta. rewrite Hn.
      unfold processUtf8Normal. cbn. auto.
    - unfold processAll. cbn [fold_left].
      unfold processCharCode at 3 5 8 10. rewrite Hn.
      unfold processNormal. cbn. auto. }
  vm_compute. auto.
Qed.

(** The converter after ESC[s, and the text Hidden. *)
Lemma suppressed_text_is_discarded_witness :
  let c := processAll (ESC :: lit "[s") (newConverter defaultOptions) in
  savePositionActive c = true
  /\ parseState c = Normal
  /\ plainText (options c) (lit "Hidden") = true
  /\ emitChar (lit "H") c = c
  /\ feed (options c) (lit "Hidden") c = c.
Proof.
  cbv zeta.
  assert (Hs : savePositionActive
                 (processAll (ESC :: lit "[s") (newConverter defaultOptions))
               = true) by (vm_compute; reflexivity).
  assert (Hn : parseState
                 (processAll (ESC :: lit "[s") (newConverter defaultOptions))
               = Normal) by (vm_compute; reflexivity).
  assert (Hp : plainText
                 (options
                    (processAll (ESC :: lit "[s")
                       (newConverter defaultOptions)))
                 (lit "Hidden") = true) by (vm_compute; reflexivity).
  split; [exact Hs|]. split; [exact Hn|]. split; [exact Hp|].
  split.
  - exact (proj1 suppressed_text_is_discarded (lit "H") _ Hs).
  - exact (proj1 (proj1 (proj2 suppressed_text_is_discarded) (lit "Hidden") _
                    Hs Hn Hp)).
Defined.

(** * Further properties: the tables *)

(** ** colors.ts: the palette *)

Lemma forall_range (P : Z -> bool) (lo len : nat) :
  forallb P (range lo len) = true ->
  forall x, Z.of_nat lo <= x < Z.of_nat lo + Z.of_nat len -> P x = true.
Proof.
  intros H x Hx. rewrite forallb_forall in H. apply H.
  replace x with (Z.of_nat (Z.to_nat x)) by lia.
  unfold range. apply in_map, in_seq. lia.
Qed.

(** ** The hue maps *)

(** X1: [ansiToCga] exchanges the red and the blue bit of a hue and keeps
    the green one, so it is its own inverse on 0..7 and a permutation of the
    eight hues; [ansiBrightToCga] is the same map with the intensity bit
    added; outside 0..7 both fall back to white. *)
Theorem ansi_hue_map_swaps_red_and_blue (a : Z) :
  (0 <= a <= 7 ->
   Z.testbit (ansiToCga a) 0 = Z.testbit a 2
   /\ Z.testbit (ansiToCga a) 1 = Z.testbit a 1
   /\ Z.testbit (ansiToCga a) 2 = Z.testbit a 0
   /\ ansiToCga (ansiToCga a) = a
   /\ ansiBrightToCga a = ansiToCga a + 8)
  /\ (a < 0 \/ 7 < a -> ansiToCga a = 7 /\ ansiBrightToCga a = 15).
Proof.
  split.
  - intros Ha.
    assert (H : (Bool.eqb (Z.testbit (ansiToCga a) 0) (Z.testbit a 2)
                 && Bool.eqb (Z.testbit (ansiToCga a) 1) (Z.testbit a 1)
                 && Bool.eqb (Z.testbit (ansiToCga a) 2) (Z.testbit a 0)
                 && (ansiToCga (ansiToCga a) =? a)
                 && (ansiBrightToCga a =? ansiToCga a + 8)) = true).
    { revert a Ha.
      apply (forall_hue
               (fun a =>
                  Bool.eqb (Z.testbit (ansiToCga a) 0) (Z.testbit a 2)
                  && Bool.eqb (Z.testbit (ansiToCga a) 1) (Z.testbit a 1)
                  && Bool.eqb (Z.testbit (ansiToCga a) 2) (Z.testbit a 0)
                  && (ansiToCga (ansiToCga a) =? a)
                  && (ansiBrightToCga a =? ansiToCga a + 8))).
      vm_compute. reflexivity. }
    rewrite !andb_true_iff, !Bool.eqb_true_iff, !Z.eqb_eq in H. tauto.
  - intros Ha. unfold ansiToCga, ansiBrightToCga.
    destruct (Z.eqb_spec a 0); [lia|]. destruct (Z.eqb_spec a 1); [lia|].
    destruct (Z.eqb_spec a 2); [lia|]. destruct (Z.eqb_spec a 3); [lia|].
    destruct (Z.eqb_spec a 4); [lia|]. destruct (Z.eqb_spec a 5); [lia|].
    destruct (Z.eqb_spec a 6); [lia|]. destruct (Z.eqb_spec a 7); [lia|].
    split; reflexivity.
Qed.

Lemma ansi_hue_map_swaps_red_and_blue_witness :
  (ansiToCga 1 = 4 /\ ansiToCga (ansiToCga 1) = 1 /\ ansiBrightToCga 1 = 12)
  /\ (ansiToCga 8 = 7 /\ ansiBrightToCga 8 = 15).
Proof.
  split.
  - assert (H : 0 <= 1 <= 7) by lia.
    pose proof (proj1 (ansi_hue_map_swaps_red_and_blue 1) H)
      as [_ [_ [_ [H1 H2]]]].
    split; [reflexivity|]. split; [exact H1 | exact H2].
  - assert (H : 8 < 0 \/ 7 < 8) by (right; lia).
    exact (proj2 (ansi_hue_map_swaps_red_and_blue 8) H).
Defined.

(** ** The hexadecimal digit of a colour *)

(** X2: on 0..15 [colorToHex] is injective: two colours have the same digit
    only if they are the same colour; every number outside 0..15 gets the
    digit of black. *)
Theorem colorToHex_is_injective (a b : Z) :
  (0 <= a <= 15 -> 0 <= b <= 15 -> colorToHex a = colorToHex b -> a = b)
  /\ (a < 0 \/ 15 < a -> colorToHex a = colorToHex 0).
Proof.
  split.
  - intros Ha Hb E.
    destruct (colorToHex_nibble a Ha) as [h [Eh [_ Hv]]].
    destruct (colorToHex_nibble b Hb) as [k [Ek [_ Kv]]].
    rewrite Eh, Ek in E. injection E as E. subst k. lia.
  - intros Ha. unfold colorToHex.
    destruct (Z.leb_spec 0 a); destruct (Z.leb_spec a 9);
      destruct (Z.leb_spec 10 a); destruct (Z.leb_spec a 15);
      cbn [andb]; try lia; reflexivity.
Qed.

Lemma colorToHex_is_injective_witness :
  colorToHex 12 = colorToHex 12 /\ 12 = 12 /\ colorToHex 16 = lit "0".
Proof.
  split; [reflexivity|]. split.
  - apply (proj1 (colorToHex_is_injective 12 12)); [lia | lia | reflexivity].
  - apply (proj2 (colorToHex_is_injective 16 0)). right. lia.
Defined.

(** X3: the palette has sixteen entries and follows the IRGB layout: a
    channel is at AA when its bit is set, 55 is added by the intensity bit;
    brown (6) is the one exception, its green channel being halved. *)
Theorem palette_follows_irgb (i : Z) :
  List.length CGA_COLORS = 16%nat
  /\ (0 <= i <= 15 -> i <> 6 -> nth (Z.to_nat i) CGA_COLORS [] = irgb i)
  /\ nth 6 CGA_COLORS [] = lit "#AA5500"
  /\ irgb 6 = lit "#AAAA00".
Proof.
  split; [reflexivity|]. split; [|split; reflexivity].
  intros Hi H6.
  assert (H : ((i =? 6) || streq (nth (Z.to_nat i) CGA_COLORS []) (irgb i))
              = true).
  { clear H6. revert i Hi.
    apply (forall_nibble
             (fun i => (i =? 6)
                       || streq (nth (Z.to_nat i) CGA_COLORS []) (irgb i))).
    vm_compute. reflexivity. }
  apply orb_true_iff in H. destruct H as [H|H].
  - apply Z.eqb_eq in H. contradiction.
  - apply streq_eq. exact H.
Qed.

Lemma palette_follows_irgb_witness :
  nth 12 CGA_COLORS [] = irgb 12 /\ irgb 12 = lit "#FF5555".
Proof.
  split.
  - apply (proj1 (proj2 (palette_follows_irgb 12))); lia.
  - reflexivity.
Defined.

(** ** cp437.ts: the table *)

Lemma CP437_NoDup : NoDup CP437_TO_UNICODE.
Proof.
  assert (E : nodup Z.eq_dec CP437_TO_UNICODE = CP437_TO_UNICODE)
    by (vm_compute; reflexivity).
  rewrite <- E. apply NoDup_nodup.
Qed.

Lemma cp437_range (code u : Z) :
  cp437 code = Some u -> 0 <= code <= 255.
Proof.
  unfold cp437. destruct (Z.ltb_spec code 0); [discriminate|].
  intros E.
  assert (Hn : (Z.to_nat code < List.length CP437_TO_UNICODE)%nat)
    by (apply nth_error_Some; congruence).
  change (List.length CP437_TO_UNICODE) with 256%nat in Hn. lia.
Qed.

Lemma cp437_defined (code : Z) :
  0 <= code <= 255 -> exists u, cp437 code = Some u.
Proof.
  intros H. unfold cp437. destruct (Z.ltb_spec code 0); [lia|].
  destruct (nth_error CP437_TO_UNICODE (Z.to_nat code)) eqn:E; [eauto|].
  apply nth_error_None in E.
  change (List.length CP437_TO_UNICODE) with 256%nat in E. lia.
Qed.

Lemma cp437_injective (a b u : Z) :
  cp437 a = Some u -> cp437 b = Some u -> a = b.
Proof.
  intros Ea Eb.
  pose proof (cp437_range _ _ Ea) as Ha.
  pose proof (cp437_range _ _ Eb) as Hb.
  unfold cp437 in Ea, Eb.
  destruct (Z.ltb_spec a 0); [lia|]. destruct (Z.ltb_spec b 0); [lia|].
  assert (E : Z.to_nat a = Z.to_nat b).
  { apply (proj1 (NoDup_nth_error CP437_TO_UNICODE) CP437_NoDup).
    - change (List.length CP437_TO_UNICODE) with 256%nat. lia.
    - congruence. }
  lia.
Qed.

Lemma cp437_ascii (code : Z) : 32 <= code <= 126 -> cp437 code = Some code.
Proof.
  intros H.
  assert (E : match cp437 code with
              | Some u => u =? code
              | None => false
              end = true).
  { revert code H.
    assert (R : forall x, Z.of_nat 32 <= x < Z.of_nat 32 + Z.of_nat 95 ->
                          match cp437 x with
                          | Some u => u =? x
                          | None => false
                          end = true).
    { apply (forall_range
               (fun x => match cp437 x with
                         | Some u => u =? x
                         | None => false
                         end)).
      vm_compute. reflexivity. }
    intros code H. apply R. lia. }
  destruct (cp437 code); [|discriminate].
  apply Z.eqb_eq in E. congruence.
Qed.

(** X4: the table has an entry for exactly the 256 byte values; printable
    ASCII (0x20 to 0x7E) decodes to itself; no two bytes decode to the same
    code point, so the decoding loses nothing; and no byte decodes to a line
    feed or a carriage return. *)
Theorem cp437_decoding_is_lossless (a b u : Z) :
  List.length CP437_TO_UNICODE = 256%nat
  /\ ((exists v, cp437 a = Some v) <-> 0 <= a <= 255)
  /\ (32 <= a <= 126 -> cp437 a = Some a)
  /\ (cp437 a = Some u -> cp437 b = Some u -> a = b)
  /\ (cp437 a = Some u -> u <> 10 /\ u <> 13).
Proof.
  split; [reflexivity|]. split; [|split; [|split]].
  - split.
    + intros [v Hv]. exact (cp437_range _ _ Hv).
    + apply cp437_defined.
  - apply cp437_ascii.
  - apply cp437_injective.
  - apply cp437_no_break.
Qed.

Lemma cp437_decoding_is_lossless_witness :
  cp437 65 = Some 65
  /\ cp437 1 = Some 9786
  /\ 1 = 1
  /\ (9786 <> 10 /\ 9786 <> 13).
Proof.
  split; [|split; [reflexivity|split]].
  - apply (proj1 (proj2 (proj2 (cp437_decoding_is_lossless 65 0 0)))). lia.
  - apply (proj1 (proj2 (proj2 (proj2 (cp437_decoding_is_lossless 1 1 9786)))));
      reflexivity.
  - apply (proj2 (proj2 (proj2 (proj2 (cp437_decoding_is_lossless 1 1 9786))))).
    reflexivity.
Defined.

(** * Further properties: the SAUCE trailer *)

(** ** Trimming a field *)

Lemma trimEnd_cons (c : Z) (r : jsstring) :
  trimEnd (c :: r)
  = match trimEnd r with
    | [] => if isTrimmed c then [] else [c]
    | r' => c :: r'
    end.
Proof. reflexivity. Qed.

(** What is cut is a run of trimmed characters at the end. *)
Lemma trimEnd_tail (s : jsstring) :
  exists tail, s = trimEnd s ++ tail /\ forallb isTrimmed tail = true.
Proof.
  induction s as [|c r [tail [E Ht]]].
  - exists []. split; reflexivity.
  - rewrite trimEnd_cons. destruct (trimEnd r) as [|y r'] eqn:Er.
    + destruct (isTrimmed c) eqn:Ec.
      * exists (c :: tail). cbn in E. subst tail. split; [reflexivity|].
        cbn. rewrite Ec. exact Ht.
      * exists tail. split; [cbn in E |- *; congruence | exact Ht].
    + exists tail. split; [cbn in E |- *; congruence | exact Ht].
Qed.

(** What is left does not end in a trimmed character. *)
Lemma trimEnd_last (s body : jsstring) (x : Z) :
  trimEnd s = body ++ [x] -> isTrimmed x = false.
Proof.
  revert body. induction s as [|c r IH]; intros body E.
  - destruct body; discriminate E.
  - rewrite trimEnd_cons in E. destruct (trimEnd r) as [|y r'] eqn:Er.
    + destruct (isTrimmed c) eqn:Ec.
      * destruct body; discriminate E.
      * destruct body as [|b body].
        -- cbn in E. injection E as E. subst x. exact Ec.
        -- destruct body; discriminate E.
    + destruct body as [|b body]; [discriminate E|].
      injection E as _ E. exact (IH body E).
Qed.

Lemma trimEnd_snoc_keep (s : jsstring) (x : Z) :
  isTrimmed x = false -> trimEnd (s ++ [x]) = s ++ [x].
Proof.
  intros Hx. induction s as [|c r IH].
  - cbn. rewrite Hx. reflexivity.
  - cbn [app]. rewrite trimEnd_cons, IH. destruct r; reflexivity.
Qed.

Lemma trimEnd_snoc_drop (s : jsstring) (x : Z) :
  isTrimmed x = true -> trimEnd (s ++ [x]) = trimEnd s.
Proof.
  intros Hx. induction s as [|c r IH].
  - cbn. rewrite Hx. reflexivity.
  - cbn [app]. rewrite !trimEnd_cons, IH. reflexivity.
Qed.

Lemma trimEnd_padding (s : jsstring) (x : Z) (k : nat) :
  isTrimmed x = true -> trimEnd (s ++ repeat x k) = trimEnd s.
Proof.
  intros Hx. revert s. induction k as [|k IH]; intros s.
  - cbn. rewrite app_nil_r. reflexivity.
  - cbn [repeat].
    change (s ++ x :: repeat x k) with (s ++ [x] ++ repeat x k).
    rewrite app_assoc, IH. apply trimEnd_snoc_drop, Hx.
Qed.

Lemma trimEnd_idem (s : jsstring) : trimEnd (trimEnd s) = trimEnd s.
Proof.
  destruct (trimEnd s) as [|y r] eqn:E; [reflexivity|].
  destruct (exists_last (l := y :: r) ltac:(discriminate)) as [body [x Ex]].
  rewrite Ex. apply trimEnd_snoc_keep.
  apply (trimEnd_last s body). congruence.
Qed.

Lemma trimEnd_length (s : jsstring) :
  (List.length (trimEnd s) <= List.length s)%nat.
Proof.
  destruct (trimEnd_tail s) as [tail [E _]].
  rewrite E at 2. rewrite length_app. lia.
Qed.

Lemma slice_length (s : jsstring) (a b : Z) :
  Js.length (slice s a b) <= Z.max 0 (b - a).
Proof.
  unfold Js.length, slice. rewrite length_firstn. lia.
Qed.

(** X5: [decodeField] decodes the characters of the field one by one and
    cuts the trailing run of white space and NUL characters, no more and no
    less: what is cut is all white space or NUL, what is left does not end in
    such a character, is no longer than the field and is stable under another
    trim. *)
Theorem decodeField_cuts_the_trailing_blanks (input : jsstring)
    (start len : Z) :
  0 <= start ->
  let field := decodeField input start len in
  (exists tail,
      map decodeChar (slice input start (start + len)) = field ++ tail
      /\ forallb isTrimmed tail = true)
  /\ (forall body x, field = body ++ [x] -> isTrimmed x = false)
  /\ Js.length field <= Z.max 0 len
  /\ trimEnd field = field.
Proof.
  intros _ field. subst field. unfold decodeField.
  split; [apply trimEnd_tail|]. split; [|split].
  - intros body x E. exact (trimEnd_last _ _ _ E).
  - pose proof (trimEnd_length
                  (map decodeChar (slice input start (start + len)))) as H.
    rewrite length_map in H.
    pose proof (slice_length input start (start + len)) as H'.
    unfold Js.length in *. lia.
  - apply trimEnd_idem.
Qed.

Lemma decodeField_cuts_the_trailing_blanks_witness :
  0 <= 2
  /\ decodeField (lit "xxAB  " ++ [0; 0] ++ lit "yy") 2 6 = lit "AB"
  /\ isTrimmed 66 = false.
Proof.
  split; [lia|]. split; [reflexivity|].
  assert (H : 0 <= 2) by lia.
  exact (proj1 (proj2 (decodeField_cuts_the_trailing_blanks
                         (lit "xxAB  " ++ [0; 0] ++ lit "yy") 2 6 H))
           (lit "A") 66 eq_refl).
Defined.

(** ** Writing a record and reading it back *)

Lemma padEnd_length (s : jsstring) (n : nat) (fill : Z) :
  List.length (padEnd s n fill) = n.
Proof.
  revert s. induction n as [|n IH]; intros s; [reflexivity|].
  destruct s; cbn; rewrite IH; reflexivity.
Qed.

Lemma padEnd_short (s : jsstring) (n : nat) (fill : Z) :
  (List.length s <= n)%nat ->
  padEnd s n fill = s ++ repeat fill (n - List.length s).
Proof.
  revert s. induction n as [|n IH]; intros s H.
  - destruct s; [reflexivity|cbn in H; lia].
  - destruct s as [|x r].
    + cbn. f_equal. rewrite (IH [] ltac:(cbn; lia)). cbn.
      rewrite Nat.sub_0_r. reflexivity.
    + cbn. f_equal. apply IH. cbn in H. lia.
Qed.

Lemma decodeChar_printable (c : Z) : printable c = true -> decodeChar c = c.
Proof.
  unfold printable. rewrite andb_true_iff, !Z.leb_le. intros H.
  unfold decodeChar. rewrite cp437_ascii by lia. reflexivity.
Qed.

Lemma map_decodeChar_printable (s : jsstring) :
  forallb printable s = true -> map decodeChar s = s.
Proof.
  induction s as [|c r IH]; [reflexivity|].
  cbn [forallb map]. rewrite andb_true_iff. intros [Hc Hr].
  rewrite (decodeChar_printable c Hc), (IH Hr). reflexivity.
Qed.

Lemma trimEnd_clean (s : jsstring) :
  isTrimmed (last s 65) = false -> trimEnd s = s.
Proof.
  intros H. destruct s as [|y r]; [reflexivity|].
  destruct (exists_last (l := y :: r) ltac:(discriminate)) as [body [x Ex]].
  rewrite Ex in *. rewrite last_last in H. apply trimEnd_snoc_keep, H.
Qed.

(** A padded field decodes to the value that was padded. *)
Lemma decode_padded (s : jsstring) (n : nat) (fill : Z) :
  fieldText n s = true ->
  decodeChar fill = fill -> isTrimmed fill = true ->
  trimEnd (map decodeChar (padEnd s n fill)) = s.
Proof.
  unfold fieldText. rewrite !andb_true_iff, negb_true_iff, Nat.leb_le.
  intros [[Hl Hp] Hc] Hf Ht.
  rewrite (padEnd_short s n fill Hl), map_app, map_repeat, Hf.
  rewrite (map_decodeChar_printable s Hp), trimEnd_padding by exact Ht.
  apply trimEnd_clean, Hc.
Qed.

Lemma slice_at (pre x post : jsstring) (a b : Z) :
  a = Js.length pre -> b = a + Js.length x ->
  slice (pre ++ x ++ post) a b = x.
Proof.
  intros -> ->. unfold slice, Js.length.
  rewrite Nat2Z.id.
  replace (Z.to_nat (Z.of_nat (List.length pre) + Z.of_nat (List.length x)
                     - Z.of_nat (List.length pre)))
    with (List.length x) by lia.
  rewrite skipn_app, skipn_all, Nat.sub_diag. cbn [skipn app].
  rewrite firstn_app, firstn_all, Nat.sub_diag. cbn [firstn].
  apply app_nil_r.
Qed.

Lemma charCodeAt_at (pre : jsstring) (x : Z) (post : jsstring) (a : Z) :
  a = Js.length pre -> charCodeAt (pre ++ x :: post) a = x.
Proof.
  intros ->. unfold charCodeAt, Js.length. rewrite Nat2Z.id.
  rewrite nth_middle. reflexivity.
Qed.

(** Two bytes, low one first, joined as the parser joins them. *)
Lemma word16_join (w : Z) :
  0 <= w <= 65535 ->
  bor (Z.land w 255) (shl (Z.land (Z.shiftr w 8) 255) 8) = w.
Proof.
  intros Hw.
  assert (Hlo : Z.land w 255 = w mod 2 ^ 8).
  { change 255 with (Z.ones 8). apply Z.land_ones. lia. }
  assert (Hhi : Z.land (Z.shiftr w 8) 255 = w / 2 ^ 8).
  { change 255 with (Z.ones 8). rewrite Z.land_ones by lia.
    rewrite Z.shiftr_div_pow2 by lia. apply Z.mod_small. split.
    - apply Z.div_pos; lia.
    - apply Z.div_lt_upper_bound; lia. }
  assert (Bl : 0 <= w mod 2 ^ 8 < 256) by (apply Z.mod_pos_bound; lia).
  assert (Bh : 0 <= w / 2 ^ 8 < 256).
  { split; [apply Z.div_pos; lia | apply Z.div_lt_upper_bound; lia]. }
  rewrite Hlo, Hhi. unfold bor, shl. change (8 mod 32) with 8.
  rewrite (toInt32_small (w / 2 ^ 8)) by lia.
  rewrite Z.shiftl_mul_pow2 by lia.
  rewrite !(toInt32_small (w / 2 ^ 8 * 2 ^ 8)) by lia.
  rewrite (toInt32_small (w mod 2 ^ 8)) by lia.
  assert (E : Z.lor (w mod 2 ^ 8) (w / 2 ^ 8 * 2 ^ 8) = w).
  { apply Z.bits_inj'. intros n Hn. rewrite Z.lor_spec.
    destruct (Z.ltb_spec n 8).
    - rewrite Z.mod_pow2_bits_low by lia.
      rewrite Z.mul_pow2_bits_low by lia. apply orb_false_r.
    - rewrite Z.mod_pow2_bits_high by lia.
      rewrite Z.mul_pow2_bits by lia.
      rewrite Z.div_pow2_bits by lia. cbn [orb]. f_equal. lia. }
  rewrite E. apply toInt32_small. lia.
Qed.

Lemma createSauceRecord_length (t a g d : jsstring) (w h : Z)
    (f : jsstring) :
  Js.length (createSauceRecord t a g d w h f) = 128.
Proof.
  unfold createSauceRecord, Js.length.
  rewrite !length_app, !padEnd_length. reflexivity.
Qed.

Ltac chunk_length :=
  unfold Js.length; rewrite ?length_app, ?padEnd_length;
  cbn [List.length]; change (List.length (lit "SAUCE00")) with 7%nat; lia.

Lemma parseSauceRecord_created (content t a g d f : jsstring) (w h : Z) :
  fieldText 35 t = true -> fieldText 20 a = true ->
  fieldText 20 g = true -> fieldText 8 d = true ->
  fieldText 22 f = true ->
  0 <= w <= 65535 -> 0 <= h <= 65535 ->
  parseSauceRecord (content ++ createSauceRecord t a g d w h f)
    (Js.length content) None
  = Some {| title := t; author := a; group := g; date := d;
            width := w; height := h; comments := []; font := f |}.
Proof.
  intros Ht Ha Hg Hd Hf Hw Hh.
  set (sp := Js.length content).
  set (input := content ++ createSauceRecord t a g d w h f).
  assert (Hlen : Js.length input = sp + 128).
  { subst input sp. pose proof (createSauceRecord_length t a g d w h f) as L.
    unfold Js.length in *. rewrite length_app. lia. }
  assert (Eid : slice input sp (sp + 5) = lit "SAUCE").
  { subst input. unfold createSauceRecord.
    change (lit "SAUCE00") with (lit "SAUCE" ++ lit "00").
    rewrite <- !app_assoc. apply slice_at; [reflexivity|].
    subst sp. reflexivity. }
  assert (Et : decodeField input (sp + 7) 35 = t).
  { unfold decodeField. subst input. unfold createSauceRecord.
    rewrite (app_assoc content).
    rewrite slice_at by (subst sp; chunk_length).
    apply decode_padded; [exact Ht|reflexivity|reflexivity]. }
  assert (Ea : decodeField input (sp + 42) 20 = a).
  { unfold decodeField. subst input. unfold createSauceRecord.
    rewrite (app_assoc (lit "SAUCE00")), (app_assoc content).
    rewrite slice_at by (subst sp; chunk_length).
    apply decode_padded; [exact Ha|reflexivity|reflexivity]. }
  assert (Eg : decodeField input (sp + 62) 20 = g).
  { unfold decodeField. subst input. unfold createSauceRecord.
    rewrite (app_assoc (padEnd t 35 32)), (app_assoc (lit "SAUCE00")),
      (app_assoc content).
    rewrite slice_at by (subst sp; chunk_length).
    apply decode_padded; [exact Hg|reflexivity|reflexivity]. }
  assert (Ed : decodeField input (sp + 82) 8 = d).
  { unfold decodeField. subst input. unfold createSauceRecord.
    rewrite (app_assoc (padEnd a 20 32)), (app_assoc (padEnd t 35 32)),
      (app_assoc (lit "SAUCE00")), (app_assoc content).
    rewrite slice_at by (subst sp; chunk_length).
    apply decode_padded; [exact Hd|reflexivity|reflexivity]. }
  assert (Etail : input
                  = (content ++ lit "SAUCE00" ++ padEnd t 35 32
                     ++ padEnd a 20 32 ++ padEnd g 20 32 ++ padEnd d 8 32)
                    ++ [0; 0; 0; 0; 1; 1; Z.land w 255;
                        Z.land (Z.shiftr w 8) 255; Z.land h 255;
                        Z.land (Z.shiftr h 8) 255; 0; 0; 0; 0; 0; 0]
                    ++ padEnd f 22 0 ++ []).
  { subst input. unfold createSauceRecord.
    rewrite <- !app_assoc, app_nil_r. reflexivity. }
  assert (Ef : decodeField input (sp + 106) 22 = f).
  { unfold decodeField. rewrite Etail.
    rewrite (app_assoc _ _ (padEnd f 22 0 ++ [])).
    rewrite slice_at by (subst sp; chunk_length).
    apply decode_padded; [exact Hf|reflexivity|reflexivity]. }
  assert (Ew : bor (charCodeAt input (sp + 96))
                 (shl (charCodeAt input (sp + 97)) 8) = w).
  { rewrite Etail.
    set (pre := content ++ _).
    assert (Lp : Js.length pre = sp + 90) by (subst pre sp; chunk_length).
    change (pre ++ [0; 0; 0; 0; 1; 1; Z.land w 255;
                    Z.land (Z.shiftr w 8) 255; Z.land h 255;
                    Z.land (Z.shiftr h 8) 255; 0; 0; 0; 0; 0; 0]
            ++ padEnd f 22 0 ++ [])
      with (pre ++ [0; 0; 0; 0; 1; 1]
            ++ Z.land w 255 :: [] ++ Z.land (Z.shiftr w 8) 255
            :: [Z.land h 255; Z.land (Z.shiftr h 8) 255; 0; 0; 0; 0; 0; 0]
            ++ padEnd f 22 0 ++ []).
    rewrite (app_assoc pre).
    rewrite (charCodeAt_at (pre ++ [0; 0; 0; 0; 1; 1]))
      by (unfold Js.length in *; rewrite length_app; cbn [List.length]; lia).
    rewrite (app_comm_cons _ _ (Z.land w 255)), (app_assoc (pre ++ _)).
    rewrite charCodeAt_at
      by (unfold Js.length in *; rewrite !length_app; cbn [List.length]; lia).
    apply word16_join, Hw. }
  assert (Eh : bor (charCodeAt input (sp + 98))
                 (shl (charCodeAt input (sp + 99)) 8) = h).
  { rewrite Etail.
    set (pre := content ++ _).
    assert (Lp : Js.length pre = sp + 90) by (subst pre sp; chunk_length).
    change (pre ++ [0; 0; 0; 0; 1; 1; Z.land w 255;
                    Z.land (Z.shiftr w 8) 255; Z.land h 255;
                    Z.land (Z.shiftr h 8) 255; 0; 0; 0; 0; 0; 0]
            ++ padEnd f 22 0 ++ [])
      with (pre ++ [0; 0; 0; 0; 1; 1; Z.land w 255;
                    Z.land (Z.shiftr w 8) 255]
            ++ Z.land h 255 :: [] ++ Z.land (Z.shiftr h 8) 255
            :: [0; 0; 0; 0; 0; 0] ++ padEnd f 22 0 ++ []).
    rewrite (app_assoc pre).
    rewrite (charCodeAt_at (pre ++ _ ))
      by (unfold Js.length in *; rewrite length_app; cbn [List.length]; lia).
    rewrite (app_comm_cons _ _ (Z.land h 255)), (app_assoc (pre ++ _)).
    rewrite charCodeAt_at
      by (unfold Js.length in *; rewrite !length_app; cbn [List.length]; lia).
    apply word16_join, Hh. }
  unfold parseSauceRecord. fold input. fold sp.
  rewrite Hlen.
  destruct (Z.gtb_spec (sp + 128) (sp + 128)) as [Hgt|_]; [lia|].
  rewrite Eid, streq_refl. cbn [negb].
  rewrite Et, Ea, Eg, Ed, Ef, Ew, Eh. reflexivity.
Qed.

(** X6: a record written by the test suite's [createSauceRecord] and
    appended to any content is read back by [parseSauceRecord] field by
    field: the five text fields, the width and the height come out as they
    went in. *)
Theorem sauce_record_round_trip (content t a g d f : jsstring) (w h : Z) :
  fieldText 35 t = true -> fieldText 20 a = true ->
  fieldText 20 g = true -> fieldText 8 d = true ->
  fieldText 22 f = true ->
  0 <= w <= 65535 -> 0 <= h <= 65535 ->
  Js.length (createSauceRecord t a g d w h f) = 128
  /\ parseSauceRecord (content ++ createSauceRecord t a g d w h f)
       (Js.length content) None
     = Some {| title := t; author := a; group := g; date := d;
               width := w; height := h; comments := []; font := f |}.
Proof.
  intros Ht Ha Hg Hd Hf Hw Hh.
  split; [apply createSauceRecord_length|].
  apply parseSauceRecord_created; assumption.
Qed.

Lemma sauce_record_round_trip_witness :
  parseSauceRecord
    (lit "Content before SAUCE" ++ [26]
     ++ createSauceRecord (lit "Test Title") (lit "Test Author")
          (lit "Test Group") (lit "20240115") 80 25 (lit "IBM VGA"))
    21 None
  = Some sampleRecord.
Proof.
  apply (proj2 (sauce_record_round_trip (lit "Content before SAUCE" ++ [26])
                  (lit "Test Title") (lit "Test Author") (lit "Test Group")
                  (lit "20240115") (lit "IBM VGA") 80 25
                  eq_refl eq_refl eq_refl eq_refl eq_refl
                  ltac:(lia) ltac:(lia))).
Defined.

(** * Further properties: locating the trailer *)

(** ** The last occurrence of a marker *)

Lemma isPrefix_firstn (needle s : jsstring) :
  isPrefix needle s = true -> firstn (List.length needle) s = needle.
Proof.
  revert s. induction needle as [|x n IH]; intros s H; [reflexivity|].
  destruct s as [|y s]; [discriminate H|].
  cbn in H. apply andb_true_iff in H. destruct H as [H1 H2].
  apply Z.eqb_eq in H1. subst y. cbn. f_equal. apply IH, H2.
Qed.

Lemma isPrefix_fits (needle s : jsstring) :
  isPrefix needle s = true -> (List.length needle <= List.length s)%nat.
Proof.
  intros H. rewrite <- (isPrefix_firstn needle s H) at 1.
  rewrite length_firstn. lia.
Qed.

Lemma lastIndexOfFrom_cons (needle : jsstring) (c : Z) (r : jsstring)
    (i : Z) :
  lastIndexOfFrom needle (c :: r) i
  = if lastIndexOfFrom needle r (i + 1) =? -1
    then (if isPrefix needle (c :: r) then i else -1)
    else lastIndexOfFrom needle r (i + 1).
Proof. reflexivity. Qed.

(** Where [lastIndexOf] points, the needle stands. *)
Lemma lastIndexOfFrom_found (needle s : jsstring) (i r : Z) :
  0 <= i -> lastIndexOfFrom needle s i = r -> r <> -1 ->
  i <= r /\ isPrefix needle (skipn (Z.to_nat (r - i)) s) = true.
Proof.
  revert i. induction s as [|c s IH]; intros i Hi E Hr.
  - cbn in E. destruct (isPrefix needle []) eqn:P; [|congruence].
    subst r. rewrite Z.sub_diag. split; [lia|exact P].
  - rewrite lastIndexOfFrom_cons in E.
    destruct (Z.eqb_spec (lastIndexOfFrom needle s (i + 1)) (-1)) as [L|L].
    + destruct (isPrefix needle (c :: s)) eqn:P; [|congruence].
      subst r. rewrite Z.sub_diag. split; [lia|exact P].
    + destruct (IH (i + 1) ltac:(lia) E Hr) as [H1 H2].
      split; [lia|].
      replace (Z.to_nat (r - i)) with (S (Z.to_nat (r - (i + 1)))) by lia.
      exact H2.
Qed.

(** Behind it the needle does not stand again. *)
Lemma lastIndexOfFrom_last (needle s : jsstring) (i r : Z) :
  0 <= i -> lastIndexOfFrom needle s i = r -> r <> -1 ->
  needle <> [] ->
  occurs needle (skipn (S (Z.to_nat (r - i))) s) = false.
Proof.
  intros Hi E Hr Hn. revert i Hi E.
  induction s as [|c s IH]; intros i Hi E.
  - cbn. destruct needle; [contradiction|reflexivity].
  - rewrite lastIndexOfFrom_cons in E.
    destruct (Z.eqb_spec (lastIndexOfFrom needle s (i + 1)) (-1)) as [L|L].
    + destruct (isPrefix needle (c :: s)) eqn:P; [|congruence].
      subst r. rewrite Z.sub_diag. cbn [Z.to_nat skipn].
      apply (lastIndexOfFrom_absent needle s (i + 1)); [lia|exact L].
    + specialize (IH (i + 1) ltac:(lia) E).
      destruct (lastIndexOfFrom_found needle s (i + 1) r ltac:(lia) E Hr)
        as [H1 _].
      replace (Z.to_nat (r - i)) with (S (Z.to_nat (r - (i + 1)))) by lia.
      exact IH.
Qed.

(** A needle that stands at the end of [a] and not behind is found there. *)
Lemma lastIndexOfFrom_at (needle a : jsstring) (x : Z) (b : jsstring)
    (i : Z) :
  0 <= i -> isPrefix needle (x :: b) = true -> occurs needle b = false ->
  lastIndexOfFrom needle (a ++ x :: b) i = i + Js.length a.
Proof.
  intros Hi P O. revert i Hi. induction a as [|y a IH]; intros i Hi.
  - cbn [app]. rewrite lastIndexOfFrom_cons.
    rewrite (proj2 (lastIndexOfFrom_absent needle b (i + 1) ltac:(lia)) O).
    cbn [Z.eqb]. rewrite P. unfold Js.length. cbn. lia.
  - cbn [app]. rewrite lastIndexOfFrom_cons.
    rewrite (IH (i + 1) ltac:(lia)).
    unfold Js.length. cbn [List.length].
    destruct (Z.eqb_spec (i + 1 + Z.of_nat (List.length a)) (-1)); lia.
Qed.

Lemma occurs_cons (needle : jsstring) (x : Z) (s : jsstring) :
  occurs needle (x :: s) = isPrefix needle (x :: s) || occurs needle s.
Proof. reflexivity. Qed.

Lemma occurs_skipn (needle s : jsstring) (k : nat) :
  occurs needle s = false -> occurs needle (skipn k s) = false.
Proof.
  revert s. induction k as [|k IH]; intros s H; [exact H|].
  destruct s as [|x s]; [exact H|].
  rewrite occurs_cons in H. apply orb_false_iff in H.
  cbn [skipn]. apply IH, H.
Qed.

Lemma occurs_firstn (needle s : jsstring) (k : nat) :
  occurs needle s = false -> occurs needle (firstn k s) = false.
Proof.
  intros H. destruct (occurs needle (firstn k s)) eqn:E; [|reflexivity].
  apply (occurs_app _ _ (skipn k s)) in E.
  rewrite firstn_skipn in E. congruence.
Qed.

Lemma occurs_slice (needle s : jsstring) (a b : Z) :
  occurs needle s = false -> occurs needle (slice s a b) = false.
Proof. intros H. apply occurs_firstn, occurs_skipn, H. Qed.

Lemma lastIndexOf_absent (s needle : jsstring) :
  occurs needle s = false -> lastIndexOf s needle = -1.
Proof. apply lastIndexOfFrom_absent. lia. Qed.

Lemma slice_shorter (s : jsstring) (a n m : Z) :
  0 <= m <= n -> firstn (Z.to_nat m) (slice s a (a + n)) = slice s a (a + m).
Proof.
  intros H. unfold slice. rewrite firstn_firstn. f_equal. lia.
Qed.

Lemma findSaucePositions_spec (input : jsstring) :
  (occurs (lit "SAUCE00") input = false ->
   findSaucePositions input = (None, None, None))
  /\ (forall (sp : Z) (cp ap : option Z),
         findSaucePositions input = (Some sp, cp, ap) ->
         0 <= sp /\ sp + 7 <= Js.length input
         /\ slice input sp (sp + 7) = lit "SAUCE00"
         /\ occurs (lit "SAUCE00") (sliceFrom input (sp + 1)) = false
         /\ ap = Some (sp + 128)
         /\ (forall p, cp = Some p ->
               0 <= p /\ sp - (64 * 256 + 5) <= p /\ p + 5 <= sp
               /\ slice input p (p + 5) = lit "COMNT")
         /\ (parseSauceRecord input sp cp = None
             <-> Js.length input < sp + 128)).
Proof.
  split.
  - intros H. apply findSaucePositions_none, lastIndexOf_absent, H.
  - intros sp cp ap E. unfold findSaucePositions in E.
    remember (lastIndexOf input (lit "SAUCE00")) as sp0 eqn:Esp.
    destruct (Z.eqb_spec sp0 (-1)) as [N|N]; [discriminate E|].
    cbv zeta in E. injection E as E1 Ecp Eap.
    rewrite E1 in Esp, N, Ecp, Eap. clear E1 sp0.
    symmetry in Esp. unfold lastIndexOf in Esp.
    destruct (lastIndexOfFrom_found _ _ 0 sp ltac:(lia) Esp ltac:(lia))
      as [Hsp P].
    pose proof (lastIndexOfFrom_last _ _ 0 sp ltac:(lia) Esp ltac:(lia)
                  ltac:(discriminate)) as Hlast.
    rewrite Z.sub_0_r in P, Hlast.
    pose proof (isPrefix_fits _ _ P) as Hfit.
    rewrite length_skipn in Hfit.
    change (List.length (lit "SAUCE00")) with 7%nat in Hfit.
    assert (Eslice : slice input sp (sp + 7) = lit "SAUCE00").
    { unfold slice. replace (Z.to_nat (sp + 7 - sp)) with 7%nat by lia.
      exact (isPrefix_firstn _ _ P). }
    split; [exact Hsp|]. split; [unfold Js.length; lia|].
    split; [exact Eslice|]. split.
    { unfold sliceFrom. replace (Z.to_nat (sp + 1)) with (S (Z.to_nat sp))
        by lia. exact Hlast. }
    split; [symmetry; exact Eap|]. split.
    + intros p Hp. subst cp.
      set (st := Z.max 0 (sp - 16389)) in *.
      set (area := slice input st sp) in *.
      destruct (Z.eqb_spec (lastIndexOf area (lit "COMNT")) (-1)) as [C|C];
        [discriminate Hp|].
      cbn [negb] in Hp. injection Hp as Hp.
      unfold lastIndexOf in C, Hp.
      set (rel := lastIndexOfFrom (lit "COMNT") area 0) in *.
      destruct (lastIndexOfFrom_found _ _ 0 rel ltac:(lia) eq_refl C)
        as [Hrel Q].
      rewrite Z.sub_0_r in Q.
      pose proof (isPrefix_fits _ _ Q) as Qfit.
      pose proof (isPrefix_firstn _ _ Q) as Qeq.
      change (List.length (lit "COMNT")) with 5%nat in Qfit, Qeq.
      rewrite length_skipn in Qfit.
      assert (La : (List.length area <= Z.to_nat (sp - st))%nat).
      { subst area. unfold slice. rewrite length_firstn. lia. }
      split; [lia|]. split; [lia|]. split; [lia|].
      subst p. unfold slice.
      replace (Z.to_nat (st + rel + 5 - (st + rel))) with 5%nat by lia.
      rewrite <- Qeq. unfold area, slice.
      rewrite skipn_firstn_comm, firstn_firstn, skipn_skipn.
      f_equal; [|f_equal]; lia.
    + unfold parseSauceRecord.
      destruct (Z.gtb_spec (sp + 128) (Js.length input)) as [G|G].
      * split; [lia|reflexivity].
      * replace (slice input sp (sp + 5)) with (lit "SAUCE").
        2:{ rewrite <- (slice_shorter input sp 7 5) by lia.
            rewrite Eslice. reflexivity. }
        rewrite streq_refl. cbn [negb]. split; [discriminate|lia].
Qed.

(** X7: what [findSaucePositions] returns.  Without the marker all three
    positions are null.  Otherwise the first is the place of the last
    [SAUCE00] of the input, the third is 128 behind it, and the second, when
    it is not null, is the place of a [COMNT] that lies before the record and
    starts no more than 64 * 256 + 5 characters before it; and the record at
    these positions is parsed unless fewer than 128 characters are left. *)
Theorem findSaucePositions_finds_the_last_marker (input : jsstring) :
  (occurs (lit "SAUCE00") input = false ->
   findSaucePositions input = (None, None, None))
  /\ (forall (sp : Z) (cp ap : option Z),
         findSaucePositions input = (Some sp, cp, ap) ->
         0 <= sp /\ sp + 7 <= Js.length input
         /\ slice input sp (sp + 7) = lit "SAUCE00"
         /\ occurs (lit "SAUCE00") (sliceFrom input (sp + 1)) = false
         /\ ap = Some (sp + 128)
         /\ (forall p, cp = Some p ->
               0 <= p /\ sp - (64 * 256 + 5) <= p /\ p + 5 <= sp
               /\ slice input p (p + 5) = lit "COMNT")
         /\ (parseSauceRecord input sp cp = None
             <-> Js.length input < sp + 128)).
Proof. exact (findSaucePositions_spec input). Qed.

Lemma findSaucePositions_finds_the_last_marker_witness :
  findSaucePositions (lit "Hi" ++ [26] ++ sampleSauce)
  = (Some 3, None, Some 131)
  /\ slice (lit "Hi" ++ [26] ++ sampleSauce) 3 10 = lit "SAUCE00"
  /\ occurs (lit "SAUCE00") (lit "plain") = false
  /\ findSaucePositions (lit "plain") = (None, None, None).
Proof.
  assert (E : findSaucePositions (lit "Hi" ++ [26] ++ sampleSauce)
              = (Some 3, None, Some 131)) by (vm_compute; reflexivity).
  assert (O : occurs (lit "SAUCE00") (lit "plain") = false)
    by (vm_compute; reflexivity).
  split; [exact E|]. split; [|split; [exact O|]].
  - exact (proj1 (proj2 (proj2
             (proj2 (findSaucePositions_finds_the_last_marker
                       (lit "Hi" ++ [26] ++ sampleSauce)) 3 None (Some 131)
                E)))).
  - exact (proj1 (findSaucePositions_finds_the_last_marker (lit "plain")) O).
Defined.

(** ** The first SUB *)

Lemma indexOfFrom_unit_absent (x : Z) (a : jsstring) (i : Z) :
  ~ In x a -> indexOfFrom [x] a i = -1.
Proof.
  revert i. induction a as [|y a IH]; intros i H; [reflexivity|].
  cbn. destruct (Z.eqb_spec x y) as [E|E].
  - exfalso. apply H. left. congruence.
  - cbn. apply IH. intros Hin. apply H. right. exact Hin.
Qed.

Lemma indexOfFrom_unit_first (x : Z) (a b : jsstring) (i : Z) :
  ~ In x a -> indexOfFrom [x] (a ++ x :: b) i = i + Js.length a.
Proof.
  revert i. induction a as [|y a IH]; intros i H.
  - cbn. rewrite Z.eqb_refl. cbn. unfold Js.length. cbn. lia.
  - cbn. destruct (Z.eqb_spec x y) as [E|E].
    + exfalso. apply H. left. congruence.
    + cbn. rewrite IH by (intros Hin; apply H; right; exact Hin).
      unfold Js.length. cbn [List.length]. lia.
Qed.

Lemma slice_prefix (a b : jsstring) : slice (a ++ b) 0 (Js.length a) = a.
Proof.
  unfold slice, Js.length. rewrite Z.sub_0_r, Nat2Z.id. cbn [Z.to_nat skipn].
  rewrite firstn_app, firstn_all, Nat.sub_diag. cbn [firstn].
  apply app_nil_r.
Qed.

Lemma occurs_prefix_absent (needle s t : jsstring) :
  occurs needle (s ++ t) = false -> occurs needle s = false.
Proof.
  intros H. destruct (occurs needle s) eqn:E; [|reflexivity].
  rewrite (occurs_app _ _ t E) in H. discriminate H.
Qed.

(** X8: without a SAUCE marker the content ends at the first SUB: the SUB
    and whatever follows it leave no trace in the result. *)
Theorem sub_ends_the_content (o : ConvertOptions) (a b : jsstring) :
  ~ In SUB a ->
  occurs (lit "SAUCE00") (a ++ SUB :: b) = false ->
  indexOf (a ++ SUB :: b) [SUB] = Js.length a
  /\ ansiToHtml (a ++ SUB :: b) o = ansiToHtml a o.
Proof.
  intros Ha Hs.
  assert (Ei : indexOf (a ++ SUB :: b) [SUB] = Js.length a).
  { unfold indexOf. rewrite indexOfFrom_unit_first by exact Ha. lia. }
  split; [exact Ei|].
  rewrite (ansiToHtml_no_trailer o (a ++ SUB :: b))
    by (apply lastIndexOf_absent, Hs).
  rewrite (ansiToHtml_plain o a).
  - unfold contentEnd. rewrite Ei.
    destruct (Z.eqb_spec (Js.length a) (-1)) as [E|E];
      [unfold Js.length in E; lia|].
    cbn [negb]. rewrite slice_prefix. reflexivity.
  - unfold indexOf. apply indexOfFrom_unit_absent, Ha.
  - apply lastIndexOf_absent. exact (occurs_prefix_absent _ _ _ Hs).
Qed.

Lemma sub_ends_the_content_witness :
  ~ In SUB (lit "Visible")
  /\ ansiToHtml (lit "Visible" ++ SUB :: lit "Random garbage after SUB")
       defaultOptions
     = ansiToHtml (lit "Visible") defaultOptions.
Proof.
  assert (H : ~ In SUB (lit "Visible")).
  { cbn. intros H. repeat (destruct H as [H|H]; [discriminate H|]).
    exact H. }
  split; [exact H|].
  apply (sub_ends_the_content defaultOptions (lit "Visible")
           (lit "Random garbage after SUB") H).
  vm_compute. reflexivity.
Defined.

(** ** A marker without its record *)

(** X9: a [SAUCE00] with fewer than 128 characters from its start to the
    end of the input is no record, yet it still bounds the content: no
    metadata is written, and the marker and what follows it are dropped, so
    the result is that of the content before the marker. *)
Theorem truncated_trailer_hides_the_rest (o : ConvertOptions)
    (content tail : jsstring) :
  Js.length tail < 121 ->
  occurs (lit "SAUCE00") (lit "AUCE00" ++ tail) = false ->
  occurs (lit "SAUCE00") content = false ->
  occurs (lit "COMNT") content = false ->
  indexOf (content ++ lit "SAUCE00" ++ tail) [SUB] = -1 ->
  findSaucePositions (content ++ lit "SAUCE00" ++ tail)
  = (Some (Js.length content), None, Some (Js.length content + 128))
  /\ parseSauceRecord (content ++ lit "SAUCE00" ++ tail)
       (Js.length content) None = None
  /\ ansiToHtml (content ++ lit "SAUCE00" ++ tail) o = ansiToHtml content o.
Proof.
  intros Ht Hlater Hs Hc Hsub.
  set (input := content ++ lit "SAUCE00" ++ tail) in *.
  set (sp := Js.length content).
  assert (Hsp : 0 <= sp) by (unfold sp, Js.length; lia).
  assert (Elast : lastIndexOf input (lit "SAUCE00") = sp).
  { unfold lastIndexOf, input.
    change (lit "SAUCE00" ++ tail) with (83 :: lit "AUCE00" ++ tail).
    rewrite lastIndexOfFrom_at; [reflexivity|lia| |exact Hlater].
    change (83 :: lit "AUCE00" ++ tail) with (lit "SAUCE00" ++ tail).
    rewrite <- (app_nil_r (lit "SAUCE00")) at 1.
    apply isPrefix_app. reflexivity. }
  assert (Earea : forall st, 0 <= st -> slice input st sp
                                        = skipn (Z.to_nat st) content).
  { intros st Hst. unfold slice, input.
    rewrite skipn_app, firstn_app, length_skipn.
    replace (Z.to_nat (sp - st) - (List.length content - Z.to_nat st))%nat
      with 0%nat by (unfold sp, Js.length; lia).
    cbn [firstn]. rewrite app_nil_r. apply firstn_all2.
    rewrite length_skipn. unfold sp, Js.length. lia. }
  assert (Efind : findSaucePositions input = (Some sp, None, Some (sp + 128))).
  { unfold findSaucePositions. rewrite Elast.
    destruct (Z.eqb_spec sp (-1)) as [E|_]; [lia|]. cbv zeta.
    rewrite Earea by lia.
    rewrite (lastIndexOf_absent _ (lit "COMNT"))
      by (apply occurs_skipn, Hc).
    reflexivity. }
  assert (Hlen : Js.length input = sp + 7 + Js.length tail).
  { unfold input, sp, Js.length. rewrite !length_app.
    change (List.length (lit "SAUCE00")) with 7%nat. lia. }
  assert (Eparse : parseSauceRecord input sp None = None).
  { unfold parseSauceRecord.
    destruct (Z.gtb_spec (sp + 128) (Js.length input)); [reflexivity|lia]. }
  split; [exact Efind|]. split; [exact Eparse|].
  assert (Econtent : slice input 0 sp = content)
    by (unfold input, sp; apply slice_prefix).
  rewrite (ansiToHtml_plain o content).
  2:{ exact (indexOf_absent_app content (lit "SAUCE00" ++ tail) [SUB] Hsub). }
  2:{ apply lastIndexOf_absent, Hs. }
  unfold ansiToHtml, feed, start. unfold SUB in Hsub.
  destruct (utf8Input o).
  - unfold convertUtf8, convertUtf8State. cbv zeta. rewrite Efind.
    unfold contentEnd, emitSauce. rewrite Hsub, Eparse, Z.eqb_refl.
    cbn [negb].
    rewrite Econtent.
    destruct (Z.ltb_spec (sp + 128) (Js.length input)); [lia|reflexivity].
  - unfold convert, convertState. cbv zeta. rewrite Efind.
    unfold contentEnd, emitSauce. rewrite Hsub, Eparse, Z.eqb_refl.
    cbn [negb].
    rewrite Econtent.
    destruct (Z.ltb_spec (sp + 128) (Js.length input)); [lia|reflexivity].
Qed.

Lemma truncated_trailer_hides_the_rest_witness :
  Js.length (lit " is a marker") < 121
  /\ ansiToHtml (lit "Hello " ++ lit "SAUCE00" ++ lit " is a marker")
       defaultOptions
     = ansiToHtml (lit "Hello ") defaultOptions.
Proof.
  split; [reflexivity|].
  apply (truncated_trailer_hides_the_rest defaultOptions (lit "Hello ")
           (lit " is a marker")); vm_compute; reflexivity.
Defined.

(** * Further properties: the shape of the result *)

(** ** Elements and the text between their tags *)

Lemma shaped_frame (c c' : Converter) :
  output c' = output c -> background c' = background c ->
  foreground c' = foreground c ->
  shaped c -> shaped c'.
Proof.
  intros Eo Eb Ef [s [E B]]. exists s. rewrite Eo, Eb, Ef. auto.
Qed.

Lemma shaped_text (c c' : Converter) (t : jsstring) :
  output c' = output c ++ t -> forallb textUnit t = true ->
  background c' = background c -> foreground c' = foreground c ->
  shaped c -> shaped c'.
Proof.
  intros Eo Ht Eb Ef [s [E B]]. exists (s ++ t).
  rewrite Eo, Eb, Ef, E, app_assoc. split; [reflexivity|].
  apply body_text; assumption.
Qed.

Lemma isChar_textUnit (ch : jsstring) :
  isChar ch -> isText ch = true ->
  streq ch (lit "<") = false -> streq ch (lit ">") = false ->
  streq ch QUOTE = false -> streq ch (lit "'") = false ->
  forallb textUnit ch = true.
Proof.
  unfold isText. rewrite andb_true_iff, !negb_true_iff.
  intros [[u ->]|[h [l [-> [Hh Hl]]]]] [H10 H13] H60 H62 H34 H39.
  - apply streq_neq in H13, H60, H62, H34, H39.
    cbn. unfold textUnit.
    destruct (Z.eqb_spec u 60); [subst; exfalso; apply H60; reflexivity|].
    destruct (Z.eqb_spec u 62); [subst; exfalso; apply H62; reflexivity|].
    destruct (Z.eqb_spec u 34); [subst; exfalso; apply H34; reflexivity|].
    destruct (Z.eqb_spec u 39); [subst; exfalso; apply H39; reflexivity|].
    destruct (Z.eqb_spec u 13); [subst; exfalso; apply H13; reflexivity|].
    reflexivity.
  - unfold isHighSurrogate, isLowSurrogate in Hh, Hl.
    rewrite andb_true_iff, !Z.leb_le in Hh, Hl.
    cbn. unfold textUnit.
    destruct (Z.eqb_spec h 60); [lia|]. destruct (Z.eqb_spec h 62); [lia|].
    destruct (Z.eqb_spec h 34); [lia|]. destruct (Z.eqb_spec h 39); [lia|].
    destruct (Z.eqb_spec h 13); [lia|].
    destruct (Z.eqb_spec l 60); [lia|]. destruct (Z.eqb_spec l 62); [lia|].
    destruct (Z.eqb_spec l 34); [lia|]. destruct (Z.eqb_spec l 39); [lia|].
    destruct (Z.eqb_spec l 13); [lia|]. reflexivity.
Qed.

Lemma escapeHtml_textUnit (ch : jsstring) :
  isChar ch -> isText ch = true -> forallb textUnit (escapeHtml ch) = true.
Proof.
  intros Hc Ht. unfold escapeHtml.
  destruct (streq ch (lit "<")) eqn:E1; [reflexivity|].
  destruct (streq ch (lit ">")) eqn:E2; [reflexivity|].
  destruct (streq ch (lit "&")) eqn:E3; [reflexivity|].
  destruct (streq ch QUOTE) eqn:E4; [reflexivity|].
  destruct (streq ch (lit "'")) eqn:E5; [reflexivity|].
  apply isChar_textUnit; assumption.
Qed.

Lemma wrapIfNeeded_writes (c : Converter) :
  exists t, output (wrapIfNeeded c) = output c ++ t
            /\ forallb textUnit t = true.
Proof.
  unfold wrapIfNeeded.
  destruct (lineHasAnsi c && (currentColumn c >=? 80)).
  - exists LF. split; reflexivity.
  - exists []. rewrite app_nil_r. split; reflexivity.
Qed.

Lemma emitChar_CR (c : Converter) :
  savePositionActive c = false -> emitChar CR c = wrapIfNeeded c.
Proof.
  intros Hs. unfold emitChar, wrapIfNeeded. rewrite Hs.
  change (streq CR LF) with false. cbn [negb]. rewrite andb_true_r.
  destruct (lineHasAnsi c && (currentColumn c >=? 80)); reflexivity.
Qed.

(** What the emitter appends for one element of the string iterator is
    escaped text. *)
Lemma emitChar_writes (ch : jsstring) (c : Converter) :
  isChar ch ->
  exists t, output (emitChar ch c) = output c ++ t
            /\ forallb textUnit t = true.
Proof.
  intros Hc. destruct (savePositionActive c) eqn:Hs.
  - rewrite emitChar_suppressed by exact Hs.
    exists []. rewrite app_nil_r. split; reflexivity.
  - destruct (streq ch LF) eqn:EL.
    + apply streq_eq in EL. subst ch. rewrite emitChar_LF by exact Hs.
      exists LF. split; reflexivity.
    + destruct (streq ch CR) eqn:EC.
      * apply streq_eq in EC. subst ch. rewrite emitChar_CR by exact Hs.
        apply wrapIfNeeded_writes.
      * assert (Ht : isText ch = true) by (unfold isText; rewrite EL, EC;
                                           reflexivity).
        rewrite emitChar_text by assumption.
        destruct (wrapIfNeeded_writes c) as [t [Et Tt]].
        exists (t ++ escapeHtml ch). split.
        -- unfold put, write, set_currentColumn, set_output.
           cbn [output]. rewrite Et, app_assoc. reflexivity.
        -- rewrite forallb_app, Tt. apply escapeHtml_textUnit; assumption.
Qed.

Lemma shaped_emitChar (ch : jsstring) (c : Converter) :
  isChar ch -> shaped c -> shaped (emitChar ch c).
Proof.
  intros Hc Hs. destruct (emitChar_writes ch c Hc) as [t [Et Tt]].
  destruct (emitChar_frame ch c) as [Ef [Eb _]].
  exact (shaped_text c _ t Et Tt Eb Ef Hs).
Qed.

Lemma single_isChar (u : Z) : isChar [u].
Proof. left. exists u. reflexivity. Qed.

Lemma shaped_emitTimes (n : Z) (ch : jsstring) (c : Converter) :
  isChar ch -> shaped c -> shaped (emitTimes n ch c).
Proof.
  intros Hc Hs. unfold emitTimes.
  induction (Z.to_nat n) as [|k IH]; [exact Hs|].
  rewrite Nat.iter_succ. apply shaped_emitChar; assumption.
Qed.

Lemma shaped_emitAll (chs : list jsstring) (c : Converter) :
  Forall isChar chs -> shaped c -> shaped (emitAll chs c).
Proof.
  intros H. revert c. induction H as [|ch chs Hc _ IH]; intros c Hs.
  - exact Hs.
  - cbn. apply IH, shaped_emitChar; assumption.
Qed.

Lemma shaped_switchColor (newBg newFg : Z) (c : Converter) :
  shaped c -> shaped (switchColor newBg newFg c).
Proof.
  intros [s [E B]].
  destruct (switchColor_colors newBg newFg c) as [Ef Eb].
  destruct (switchColor_output newBg newFg c) as [[Ec _]|Eo].
  - rewrite Ec. exists s. auto.
  - exists (s ++ closingTag (background c) (foreground c)
              ++ openingTag newBg newFg).
    rewrite Ef, Eb, Eo, E. split.
    + unfold closingTag, openingTag. rewrite <- !app_assoc. reflexivity.
    + apply body_switch, B.
Qed.

Lemma shaped_processSgr (params : jsstring) (c : Converter) :
  shaped c -> shaped (processSgr params c).
Proof.
  intros H. unfold processSgr.
  destruct (fold_left sgrCode (sgrCodes params) (foreground c, background c))
    as [newFg newBg].
  apply shaped_switchColor, H.
Qed.

Lemma shaped_processSynchronetCode (code : Z) (c : Converter) :
  shaped c -> shaped (processSynchronetCode code c).
Proof.
  intros H. unfold processSynchronetCode.
  destruct (synchronetSwitch code _ _) as [newFg newBg].
  apply shaped_switchColor.
  exact (shaped_frame c _ eq_refl eq_refl eq_refl H).
Qed.

Lemma shaped_processRenegadeCode (code : Z) (c : Converter) :
  shaped c -> shaped (processRenegadeCode code c).
Proof.
  intros H. unfold processRenegadeCode. cbv zeta.
  destruct (if (code >=? 0) && (code <=? 15) then _ else _)
    as [newFg newBg].
  apply shaped_switchColor.
  exact (shaped_frame c _ eq_refl eq_refl eq_refl H).
Qed.

Lemma shaped_processCsi (params command : jsstring) (c : Converter) :
  shaped c -> shaped (processCsi params command c).
Proof.
  intros H.
  assert (H' : shaped (set_lineHasAnsi true c))
    by exact (shaped_frame c _ eq_refl eq_refl eq_refl H).
  unfold processCsi. cbv zeta.
  destruct (streq command (lit "m")); [apply shaped_processSgr, H'|].
  destruct (streq command (lit "J")).
  { destruct ((parseIntOr params 0 =? 2) || (parseIntOr params 0 =? 3));
      [|exact H'].
    repeat apply shaped_emitChar; try apply single_isChar. exact H'. }
  destruct (streq command (lit "s"));
    [exact (shaped_frame _ _ eq_refl eq_refl eq_refl H')|].
  destruct (streq command (lit "u"));
    [exact (shaped_frame _ _ eq_refl eq_refl eq_refl H')|].
  destruct (streq command (lit "H") || streq command (lit "f")); [exact H'|].
  destruct (streq command (lit "C")); [|exact H'].
  apply shaped_emitTimes; [apply single_isChar|exact H'].
Qed.

Lemma shaped_processNormal (charCode : Z) (c : Converter) :
  shaped c -> shaped (processNormal charCode c).
Proof.
  intros H. unfold processNormal.
  destruct (charCode =? 27);
    [exact (shaped_frame c _ eq_refl eq_refl eq_refl H)|].
  destruct (synchronetCtrlA (options c) && (charCode =? 1));
    [exact (shaped_frame c _ eq_refl eq_refl eq_refl H)|].
  destruct (renegadePipe (options c) && (charCode =? 124));
    [exact (shaped_frame c _ eq_refl eq_refl eq_refl H)|].
  destruct (charCode =? 10);
    [apply shaped_emitChar; [apply single_isChar|exact H]|].
  destruct (charCode =? 13); [exact H|].
  destruct ((charCode <? 32) || (charCode >=? 127));
    apply shaped_emitChar; try apply single_isChar; exact H.
Qed.

Lemma shaped_processCharCode (charCode : Z) (c : Converter) :
  shaped c -> shaped (processCharCode charCode c).
Proof.
  intros H. unfold processCharCode. destruct (parseState c).
  - apply shaped_processNormal, H.
  - destruct (charCode =? 91);
      [exact (shaped_frame c _ eq_refl eq_refl eq_refl H)|].
    destruct (charCode =? 55);
      [exact (shaped_frame c _ eq_refl eq_refl eq_refl H)|].
    destruct (charCode =? 56);
      exact (shaped_frame c _ eq_refl eq_refl eq_refl H).
  - destruct (((charCode >=? 48) && (charCode <=? 57)) || (charCode =? 59));
      [exact (shaped_frame c _ eq_refl eq_refl eq_refl H)|].
    destruct ((charCode >=? 64) && (charCode <=? 126)).
    + apply (shaped_frame (processCsi (csiParams c) [charCode] c));
        try reflexivity.
      apply shaped_processCsi, H.
    + exact (shaped_frame c _ eq_refl eq_refl eq_refl H).
  - apply (shaped_frame (processSynchronetCode charCode c));
      try reflexivity.
    apply shaped_processSynchronetCode, H.
  - destruct ((charCode >=? 48) && (charCode <=? 57)).
    + exact (shaped_frame c _ eq_refl eq_refl eq_refl H).
    + apply shaped_processNormal.
      apply (shaped_frame (emitChar (lit "|") c)); try reflexivity.
      apply shaped_emitChar; [apply single_isChar|exact H].
  - destruct ((charCode >=? 48) && (charCode <=? 57)).
    + destruct (renegadeFirstDigit c * 10 + (charCode - 48) <=? 23).
      * apply (shaped_frame (processRenegadeCode
                               (renegadeFirstDigit c * 10 + (charCode - 48))
                               c));
          try reflexivity.
        apply shaped_processRenegadeCode, H.
      * exact (shaped_frame c _ eq_refl eq_refl eq_refl H).
    + apply shaped_processNormal.
      apply (shaped_frame
               (emitChar [48 + renegadeFirstDigit c]
                  (emitChar (lit "|") c)));
        try reflexivity.
      repeat apply shaped_emitChar; try apply single_isChar. exact H.
Qed.

Lemma shaped_processUtf8Normal (ch : jsstring) (c : Converter) :
  isChar ch -> shaped c -> shaped (processUtf8Normal ch c).
Proof.
  intros Hc H. unfold processUtf8Normal. cbv zeta.
  destruct (charCodeAt ch 0 =? 27);
    [exact (shaped_frame c _ eq_refl eq_refl eq_refl H)|].
  destruct (synchronetCtrlA (options c) && (charCodeAt ch 0 =? 1));
    [exact (shaped_frame c _ eq_refl eq_refl eq_refl H)|].
  destruct (renegadePipe (options c) && streq ch (lit "|"));
    [exact (shaped_frame c _ eq_refl eq_refl eq_refl H)|].
  destruct (streq ch LF);
    [apply shaped_emitChar; [apply single_isChar|exact H]|].
  destruct (streq ch CR); [exact H|].
  destruct (charCodeAt ch 0 <? 32);
    apply shaped_emitChar; try apply single_isChar; assumption.
Qed.

Lemma shaped_processUtf8Char (ch : jsstring) (c : Converter) :
  isChar ch -> shaped c -> shaped (processUtf8Char ch c).
Proof.
  intros Hc H. unfold processUtf8Char. cbv zeta. destruct (parseState c).
  - apply shaped_processUtf8Normal; assumption.
  - destruct (streq ch (lit "["));
      [exact (shaped_frame c _ eq_refl eq_refl eq_refl H)|].
    destruct (streq ch (lit "7"));
      [exact (shaped_frame c _ eq_refl eq_refl eq_refl H)|].
    destruct (streq ch (lit "8"));
      exact (shaped_frame c _ eq_refl eq_refl eq_refl H).
  - destruct (((charCodeAt ch 0 >=? 48) && (charCodeAt ch 0 <=? 57))
              || streq ch (lit ";"));
      [exact (shaped_frame c _ eq_refl eq_refl eq_refl H)|].
    destruct ((charCodeAt ch 0 >=? 64) && (charCodeAt ch 0 <=? 126)).
    + apply (shaped_frame (processCsi (csiParams c) ch c)); try reflexivity.
      apply shaped_processCsi, H.
    + exact (shaped_frame c _ eq_refl eq_refl eq_refl H).
  - destruct (charCodeAt ch 0 <=? 255).
    + apply (shaped_frame (processSynchronetCode (charCodeAt ch 0) c));
        try reflexivity.
      apply shaped_processSynchronetCode, H.
    + exact (shaped_frame c _ eq_refl eq_refl eq_refl H).
  - destruct ((charCodeAt ch 0 >=? 48) && (charCodeAt ch 0 <=? 57)).
    + exact (shaped_frame c _ eq_refl eq_refl eq_refl H).
    + apply shaped_processUtf8Normal; [exact Hc|].
      apply (shaped_frame (emitChar (lit "|") c)); try reflexivity.
      apply shaped_emitChar; [apply single_isChar|exact H].
  - destruct ((charCodeAt ch 0 >=? 48) && (charCodeAt ch 0 <=? 57)).
    + destruct (renegadeFirstDigit c * 10 + (charCodeAt ch 0 - 48) <=? 23).
      * apply (shaped_frame
                 (processRenegadeCode
                    (renegadeFirstDigit c * 10 + (charCodeAt ch 0 - 48)) c));
          try reflexivity.
        apply shaped_processRenegadeCode, H.
      * exact (shaped_frame c _ eq_refl eq_refl eq_refl H).
    + apply shaped_processUtf8Normal; [exact Hc|].
      apply (shaped_frame
               (emitChar [48 + renegadeFirstDigit c]
                  (emitChar (lit "|") c)));
        try reflexivity.
      repeat apply shaped_emitChar; try apply single_isChar. exact H.
Qed.

Lemma shaped_processAll (cs : jsstring) (c : Converter) :
  shaped c -> shaped (processAll cs c).
Proof.
  revert c. induction cs as [|ch cs IH]; intros c H; [exact H|].
  cbn. apply IH, shaped_processCharCode, H.
Qed.

Lemma shaped_processAllUtf8 (chs : list jsstring) (c : Converter) :
  Forall isChar chs -> shaped c -> shaped (processAllUtf8 chs c).
Proof.
  intros F. revert c. induction F as [|ch chs Hc _ IH]; intros c H;
    [exact H|].
  cbn. apply IH, shaped_processUtf8Char; assumption.
Qed.

Lemma shaped_processUntilSub (cs : jsstring) (c : Converter) :
  shaped c -> shaped (processUntilSub cs c).
Proof.
  revert c. induction cs as [|ch cs IH]; intros c H; [exact H|].
  cbn. destruct (ch =? 26); [exact H|].
  apply IH, shaped_processCharCode, H.
Qed.

Lemma shaped_processUtf8UntilSub (chs : list jsstring) (c : Converter) :
  Forall isChar chs -> shaped c -> shaped (processUtf8UntilSub chs c).
Proof.
  intros F. revert c. induction F as [|ch chs Hc _ IH]; intros c H;
    [exact H|].
  cbn. destruct (streq ch [26]); [exact H|].
  apply IH, shaped_processUtf8Char; assumption.
Qed.

Lemma shaped_emitSauce (input : jsstring) (sp : Z) (cp : option Z)
    (c : Converter) :
  shaped c -> shaped (emitSauce input sp cp c).
Proof.
  intros H. unfold emitSauce.
  destruct (parseSauceRecord input sp cp) as [sauce|]; [|exact H].
  cbv zeta. destruct (nonEmpty (formatSauceOutput sauce)); [|exact H].
  apply shaped_emitAll; [apply codePoints_isChar|].
  apply shaped_emitChar; [apply single_isChar|exact H].
Qed.

Lemma shaped_start (c : Converter) :
  shaped (openTag (set_output header c)).
Proof.
  exists (openingTag (background c) (foreground c)).
  split; [reflexivity|apply body_open].
Qed.

Lemma shaped_convertState (input : jsstring) (c : Converter) :
  shaped (convertState input c).
Proof.
  unfold convertState. cbv zeta.
  destruct (findSaucePositions input) as [[saucePos comntPos] afterSaucePos].
  pose proof (shaped_processAll
                (slice input 0
                   (contentEnd input (indexOf input [26]) comntPos saucePos))
                _ (shaped_start c)) as H.
  destruct saucePos as [sp|]; [|exact H].
  pose proof (shaped_emitSauce input sp comntPos _ H) as H'.
  destruct afterSaucePos as [ap|]; [|exact H'].
  destruct (ap <? Js.length input); [|exact H'].
  destruct (hasMeaningfulContent (sliceFrom input ap)); [|exact H'].
  apply shaped_processUntilSub, shaped_emitChar;
    [apply single_isChar|exact H'].
Qed.

Lemma shaped_convertUtf8State (input : jsstring) (c : Converter) :
  shaped (convertUtf8State input c).
Proof.
  unfold convertUtf8State. cbv zeta.
  destruct (findSaucePositions input) as [[saucePos comntPos] afterSaucePos].
  pose proof (shaped_processAllUtf8
                (codePoints
                   (slice input 0
                      (contentEnd input (indexOf input [26]) comntPos
                         saucePos)))
                _ (codePoints_isChar _) (shaped_start c)) as H.
  destruct saucePos as [sp|]; [|exact H].
  pose proof (shaped_emitSauce input sp comntPos _ H) as H'.
  destruct afterSaucePos as [ap|]; [|exact H'].
  destruct (ap <? Js.length input); [|exact H'].
  destruct (hasMeaningfulContent _); [|exact H'].
  apply shaped_processUtf8UntilSub; [apply codePoints_isChar|].
  apply shaped_emitChar; [apply single_isChar|exact H'].
Qed.

Lemma ansiToHtml_finalState (input : jsstring) (o : ConvertOptions) :
  ansiToHtml input o
  = output (finalState input o)
    ++ closingTag (background (finalState input o))
         (foreground (finalState input o))
    ++ lit "</pre>".
Proof.
  unfold ansiToHtml, finalState, convert, convertUtf8, closingTag.
  destruct (utf8Input o); rewrite closeTag_output, <- !app_assoc;
    reflexivity.
Qed.

Lemma shaped_finalState (input : jsstring) (o : ConvertOptions) :
  shaped (finalState input o) /\ cga (finalState input o).
Proof.
  unfold finalState. destruct (utf8Input o); split.
  - apply shaped_convertUtf8State.
  - exact (reachable_cga o _ (convertUtf8State_reachable o input)).
  - apply shaped_convertState.
  - exact (reachable_cga o _ (convertState_reachable o input)).
Qed.

(** X10: for every input and all options the result is the header, a
    sequence of [<ans-KF>] elements that are never nested, each closed by the
    tag of its own two colours before the next one opens, and [</pre>]; the
    text inside the elements has no angle bracket, no quote and no carriage
    return, and the colours of the last element are CGA indices. *)
Theorem result_is_a_sequence_of_elements (input : jsstring)
    (o : ConvertOptions) :
  exists bg fg s,
    ansiToHtml input o = header ++ s ++ closingTag bg fg ++ lit "</pre>"
    /\ body bg fg s
    /\ 0 <= bg <= 15 /\ 0 <= fg <= 15.
Proof.
  destruct (shaped_finalState input o) as [[s [E B]] [Hf Hb]].
  exists (background (finalState input o)), (foreground (finalState input o)),
    s.
  rewrite ansiToHtml_finalState, E, <- !app_assoc. auto.
Qed.

(** ** Counting markup characters *)

Lemma occurrences_app (x : Z) (a b : jsstring) :
  occurrences x (a ++ b) = (occurrences x a + occurrences x b)%nat.
Proof. apply count_occ_app. Qed.

Lemma textUnit_absent (x : Z) (t : jsstring) :
  textUnit x = false -> forallb textUnit t = true -> occurrences x t = 0%nat.
Proof.
  intros Hx. induction t as [|y t IH]; [reflexivity|].
  cbn [forallb]. rewrite andb_true_iff. intros [Hy Ht].
  unfold occurrences. cbn [count_occ].
  destruct (Z.eq_dec y x) as [E|E]; [congruence|].
  apply IH, Ht.
Qed.

Lemma colorToHex_textUnit (color : Z) :
  forallb textUnit (colorToHex color) = true.
Proof.
  unfold colorToHex.
  destruct (Z.leb_spec 0 color); destruct (Z.leb_spec color 9);
    destruct (Z.leb_spec 10 color); destruct (Z.leb_spec color 15);
    cbn [andb forallb]; try reflexivity; unfold textUnit;
    repeat match goal with
           | |- context [?a =? ?b] => destruct (Z.eqb_spec a b); [lia|]
           end;
    reflexivity.
Qed.

Lemma tag_tally (x : Z) (opening : bool) (bg fg : Z) :
  textUnit x = false ->
  occurrences x (if opening then openingTag bg fg else closingTag bg fg)
  = if (x =? 60) || (x =? 62) then 1%nat else 0%nat.
Proof.
  intros Hx.
  pose proof (textUnit_absent x _ Hx (colorToHex_textUnit bg)) as Hb.
  pose proof (textUnit_absent x _ Hx (colorToHex_textUnit fg)) as Hf.
  unfold textUnit in Hx.
  destruct opening; unfold openingTag, closingTag;
    rewrite !occurrences_app, Hb, Hf;
    destruct (Z.eqb_spec x 60); [subst; reflexivity| |subst; reflexivity|];
    destruct (Z.eqb_spec x 62); [subst; reflexivity| |subst; reflexivity|];
    destruct (Z.eqb_spec x 34); [subst; reflexivity| |subst; reflexivity|];
    destruct (Z.eqb_spec x 39); [subst; reflexivity| |subst; reflexivity|];
    destruct (Z.eqb_spec x 13); [subst; reflexivity| |subst; reflexivity|];
    discriminate Hx.
Qed.

Lemma body_tally (bg fg : Z) (s : jsstring) :
  body bg fg s ->
  occurrences 13 s = 0%nat /\ occurrences 34 s = 0%nat
  /\ occurrences 39 s = 0%nat /\ occurrences 60 s = occurrences 62 s.
Proof.
  induction 1 as [bg fg|bg fg s t _ [I1 [I2 [I3 I4]]] Ht
                  |bg fg s bg' fg' _ [I1 [I2 [I3 I4]]]].
  - rewrite !(tag_tally _ true) by reflexivity. cbn. auto.
  - rewrite !occurrences_app, I1, I2, I3, I4.
    rewrite !(fun x H => textUnit_absent x t H Ht) by reflexivity. auto.
  - rewrite !occurrences_app, I1, I2, I3, I4.
    rewrite !(tag_tally _ true), !(tag_tally _ false) by reflexivity.
    cbn. auto.
Qed.

(** X11: whatever the input, the result has no carriage return and no
    apostrophe, its only two double quotes are those of the header's class
    name, and it has as many [<] as [>]: all markup characters of the input
    have been escaped, and only tags bring angle brackets. *)
Theorem result_has_no_stray_markup (input : jsstring) (o : ConvertOptions) :
  occurrences 13 (ansiToHtml input o) = 0%nat
  /\ occurrences 39 (ansiToHtml input o) = 0%nat
  /\ occurrences 34 (ansiToHtml input o) = 2%nat
  /\ occurrences 60 (ansiToHtml input o) = occurrences 62 (ansiToHtml input o).
Proof.
  destruct (shaped_finalState input o) as [[s [E B]] _].
  destruct (body_tally _ _ _ B) as [I1 [I2 [I3 I4]]].
  rewrite ansiToHtml_finalState, E.
  rewrite !occurrences_app, I1, I2, I3, I4.
  rewrite !(tag_tally _ false) by reflexivity.
  cbn. repeat split; lia.
Qed.

(** * Further properties: text without sequences, and the two paths *)

(** ** Plain text *)

(** X12: input without escape character, enabled vendor prefix, SUB and
    SAUCE marker is rendered character by character inside one element of
    the default colours: a line feed stays, a carriage return goes, every
    other character is written as its glyph, HTML-escaped; nothing is
    added, whatever the length of the lines. *)
Theorem plain_text_is_rendered_character_by_character (o : ConvertOptions)
    (input : jsstring) :
  plainText o input = true ->
  indexOf input [SUB] = -1 ->
  occurs (lit "SAUCE00") input = false ->
  ansiToHtml input o
  = header ++ lit "<ans-07>" ++ renderText (plainGlyphs o input)
    ++ lit "</ans-07></pre>".
Proof.
  intros Hp Hs Ht.
  rewrite ansiToHtml_plain by (try exact Hs; apply lastIndexOf_absent, Ht).
  rewrite feed_plain by (try exact Hp; reflexivity).
  destruct (emitAll_plain (plainGlyphs o input) (start o) eq_refl eq_refl
              (plainGlyphs_notCR o input)) as [Eo _].
  destruct (emitAll_frame (plainGlyphs o input) (start o))
    as [Ef [Eb _]].
  rewrite closeTag_output, Eo, Ef, Eb. cbn [start].
  rewrite <- !app_assoc. reflexivity.
Qed.

Lemma plain_text_is_rendered_character_by_character_witness :
  plainText defaultOptions (lit "a<b" ++ [13; 10; 1] ++ lit "|c") = true
  /\ ansiToHtml (lit "a<b" ++ [13; 10; 1] ++ lit "|c") defaultOptions
     = header ++ lit "<ans-07>a&lt;b" ++ [10; 9786] ++ lit "|c</ans-07></pre>".
Proof.
  split; [reflexivity|].
  rewrite (plain_text_is_rendered_character_by_character defaultOptions
             (lit "a<b" ++ [13; 10; 1] ++ lit "|c"));
    reflexivity.
Defined.

(** ** The two paths on ASCII *)

Lemma single_streq (u v : Z) : streq [u] [v] = (u =? v).
Proof.
  destruct (Z.eqb_spec u v) as [E|E].
  - subst. apply streq_refl.
  - apply streq_neq. congruence.
Qed.

(** Below 0x7F the two state machines take the same step. *)
Lemma processUtf8Char_ascii (u : Z) (c : Converter) :
  (u <? 127) = true -> processUtf8Char [u] c = processCharCode u c.
Proof.
  intros Hu. apply Z.ltb_lt in Hu.
  assert (H127 : (u >=? 127) = false) by lia.
  assert (H255 : (u <=? 255) = true) by lia.
  unfold processUtf8Char, processCharCode, processUtf8Normal, processNormal.
  cbv zeta. change (charCodeAt [u] 0) with u.
  change (lit "|") with [124]. change (lit "[") with [91].
  change (lit "7") with [55]. change (lit "8") with [56].
  change (lit ";") with [59]. change LF with [10]. change CR with [13].
  rewrite !single_streq, H127, H255, !orb_false_r.
  reflexivity.
Qed.

Lemma processAllUtf8_ascii (s : jsstring) (c : Converter) :
  isAscii s = true ->
  processAllUtf8 (map (fun u => [u]) s) c = processAll s c.
Proof.
  revert c. induction s as [|u s IH]; intros c H; [reflexivity|].
  cbn [isAscii forallb] in H. rewrite !andb_true_iff in H.
  destruct H as [[_ Hu] Hs].
  cbn [map]. unfold processAllUtf8, processAll. cbn [fold_left].
  rewrite processUtf8Char_ascii by exact Hu. apply IH, Hs.
Qed.

Lemma processUtf8UntilSub_ascii (s : jsstring) (c : Converter) :
  isAscii s = true ->
  processUtf8UntilSub (map (fun u => [u]) s) c = processUntilSub s c.
Proof.
  revert c. induction s as [|u s IH]; intros c H; [reflexivity|].
  cbn [isAscii forallb] in H. rewrite !andb_true_iff in H.
  destruct H as [[_ Hu] Hs].
  cbn [map processUtf8UntilSub processUntilSub]. rewrite single_streq.
  destruct (u =? 26); [reflexivity|].
  rewrite processUtf8Char_ascii by exact Hu. apply IH, Hs.
Qed.

Lemma ascii_noSurrogate (s : jsstring) :
  isAscii s = true -> noSurrogate s = true.
Proof.
  unfold isAscii, noSurrogate. rewrite !forallb_forall. intros H u Hin.
  specialize (H u Hin). unfold isHighSurrogate.
  destruct (Z.leb_spec 55296 u); [lia|reflexivity].
Qed.

Lemma codePoints_ascii (s : jsstring) :
  isAscii s = true -> codePoints s = map (fun u => [u]) s.
Proof.
  intros H. rewrite <- (app_nil_r s) at 1.
  rewrite codePoints_app_plain by (apply ascii_noSurrogate, H).
  apply app_nil_r.
Qed.

Lemma first_units (s : jsstring) :
  map (fun ch : jsstring => charCodeAt ch 0) (map (fun u => [u]) s) = s.
Proof.
  rewrite map_map. cbn. apply map_id.
Qed.

(** On ASCII input the two methods of one converter do the same. *)
Lemma convertUtf8State_ascii (input : jsstring) (c : Converter) :
  isAscii input = true -> convertUtf8State input c = convertState input c.
Proof.
  intros H. unfold convertUtf8State, convertState. cbv zeta.
  destruct (findSaucePositions input) as [[saucePos comntPos] afterSaucePos].
  rewrite codePoints_ascii by (apply forallb_firstn, forallb_skipn, H).
  rewrite processAllUtf8_ascii by (apply forallb_firstn, forallb_skipn, H).
  destruct saucePos as [sp|]; [|reflexivity].
  destruct afterSaucePos as [ap|]; [|reflexivity].
  destruct (ap <? Js.length input); [|reflexivity].
  rewrite codePoints_ascii by (apply forallb_skipn, H).
  rewrite first_units.
  destruct (hasMeaningfulContent (sliceFrom input ap)); [|reflexivity].
  apply processUtf8UntilSub_ascii. apply forallb_skipn, H.
Qed.

(** No method reads the [utf8Input] option. *)
Lemma emitChar_withUtf8 (b : bool) (ch : jsstring) (c : Converter) :
  emitChar ch (withUtf8 b c) = withUtf8 b (emitChar ch c).
Proof.
  unfold emitChar. cbn [savePositionActive lineHasAnsi currentColumn withUtf8].
  destruct (savePositionActive c); [reflexivity|].
  destruct (lineHasAnsi c && (currentColumn c >=? 80) && negb (streq ch LF));
    split_ifs; reflexivity.
Qed.

Lemma emitTimes_withUtf8 (b : bool) (n : Z) (ch : jsstring) (c : Converter) :
  emitTimes n ch (withUtf8 b c) = withUtf8 b (emitTimes n ch c).
Proof.
  unfold emitTimes. induction (Z.to_nat n) as [|k IH]; [reflexivity|].
  rewrite !Nat.iter_succ, IH. apply emitChar_withUtf8.
Qed.

Lemma emitAll_withUtf8 (b : bool) (chs : list jsstring) (c : Converter) :
  emitAll chs (withUtf8 b c) = withUtf8 b (emitAll chs c).
Proof.
  revert c. induction chs as [|ch chs IH]; intros c; [reflexivity|].
  cbn. rewrite emitChar_withUtf8. apply IH.
Qed.

Lemma switchColor_withUtf8 (b : bool) (newBg newFg : Z) (c : Converter) :
  switchColor newBg newFg (withUtf8 b c)
  = withUtf8 b (switchColor newBg newFg c).
Proof.
  unfold switchColor. cbn [background foreground withUtf8].
  destruct (negb (newBg =? background c) || negb (newFg =? foreground c));
    reflexivity.
Qed.

Lemma processSgr_withUtf8 (b : bool) (params : jsstring) (c : Converter) :
  processSgr params (withUtf8 b c) = withUtf8 b (processSgr params c).
Proof.
  unfold processSgr. cbn [background foreground withUtf8].
  destruct (fold_left sgrCode (sgrCodes params) (foreground c, background c)).
  apply switchColor_withUtf8.
Qed.

Lemma processSynchronetCode_withUtf8 (b : bool) (code : Z) (c : Converter) :
  processSynchronetCode code (withUtf8 b c)
  = withUtf8 b (processSynchronetCode code c).
Proof.
  unfold processSynchronetCode. cbv zeta.
  change (set_lineHasAnsi true (withUtf8 b c))
    with (withUtf8 b (set_lineHasAnsi true c)).
  cbn [background foreground withUtf8 set_lineHasAnsi].
  destruct (synchronetSwitch code (foreground c) (background c)).
  apply switchColor_withUtf8.
Qed.

Lemma processRenegadeCode_withUtf8 (b : bool) (code : Z) (c : Converter) :
  processRenegadeCode code (withUtf8 b c)
  = withUtf8 b (processRenegadeCode code c).
Proof.
  unfold processRenegadeCode. cbv zeta.
  change (set_lineHasAnsi true (withUtf8 b c))
    with (withUtf8 b (set_lineHasAnsi true c)).
  cbn [background foreground withUtf8 set_lineHasAnsi].
  destruct (if (code >=? 0) && (code <=? 15) then _ else _).
  apply switchColor_withUtf8.
Qed.

Lemma processCsi_withUtf8 (b : bool) (params command : jsstring)
    (c : Converter) :
  processCsi params command (withUtf8 b c)
  = withUtf8 b (processCsi params command c).
Proof.
  unfold processCsi. cbv zeta.
  change (set_lineHasAnsi true (withUtf8 b c))
    with (withUtf8 b (set_lineHasAnsi true c)).
  destruct (streq command (lit "m")); [apply processSgr_withUtf8|].
  destruct (streq command (lit "J")).
  { destruct ((parseIntOr params 0 =? 2) || (parseIntOr params 0 =? 3));
      [|reflexivity].
    rewrite !emitChar_withUtf8. reflexivity. }
  destruct (streq command (lit "s")); [reflexivity|].
  destruct (streq command (lit "u")); [reflexivity|].
  destruct (streq command (lit "H") || streq command (lit "f"));
    [reflexivity|].
  destruct (streq command (lit "C")); [|reflexivity].
  apply emitTimes_withUtf8.
Qed.

Lemma processNormal_withUtf8 (b : bool) (charCode : Z) (c : Converter) :
  processNormal charCode (withUtf8 b c)
  = withUtf8 b (processNormal charCode c).
Proof.
  unfold processNormal. cbn [options withUtf8 synchronetCtrlA renegadePipe].
  destruct (charCode =? 27); [reflexivity|].
  destruct (synchronetCtrlA (options c) && (charCode =? 1)); [reflexivity|].
  destruct (renegadePipe (options c) && (charCode =? 124)); [reflexivity|].
  destruct (charCode =? 10); [apply emitChar_withUtf8|].
  destruct (charCode =? 13); [reflexivity|].
  destruct ((charCode <? 32) || (charCode >=? 127)); apply emitChar_withUtf8.
Qed.

Lemma processCharCode_withUtf8 (b : bool) (charCode : Z) (c : Converter) :
  processCharCode charCode (withUtf8 b c)
  = withUtf8 b (processCharCode charCode c).
Proof.
  unfold processCharCode.
  cbn [parseState withUtf8 csiParams renegadeFirstDigit].
  destruct (parseState c).
  - apply processNormal_withUtf8.
  - split_ifs; reflexivity.
  - destruct (((charCode >=? 48) && (charCode <=? 57)) || (charCode =? 59));
      [reflexivity|].
    destruct ((charCode >=? 64) && (charCode <=? 126)); [|reflexivity].
    rewrite processCsi_withUtf8. reflexivity.
  - rewrite processSynchronetCode_withUtf8. reflexivity.
  - destruct ((charCode >=? 48) && (charCode <=? 57)); [reflexivity|].
    rewrite emitChar_withUtf8.
    change (set_parseState Normal (withUtf8 b (emitChar (lit "|") c)))
      with (withUtf8 b (set_parseState Normal (emitChar (lit "|") c))).
    apply processNormal_withUtf8.
  - destruct ((charCode >=? 48) && (charCode <=? 57)).
    + destruct (renegadeFirstDigit c * 10 + (charCode - 48) <=? 23);
        [|reflexivity].
      rewrite processRenegadeCode_withUtf8. reflexivity.
    + rewrite !emitChar_withUtf8.
      change (set_parseState Normal (withUtf8 b ?x))
        with (withUtf8 b (set_parseState Normal x)).
      apply processNormal_withUtf8.
Qed.

Lemma processAll_withUtf8 (b : bool) (cs : jsstring) (c : Converter) :
  processAll cs (withUtf8 b c) = withUtf8 b (processAll cs c).
Proof.
  revert c. induction cs as [|ch cs IH]; intros c; [reflexivity|].
  cbn. rewrite processCharCode_withUtf8. apply IH.
Qed.

Lemma processUntilSub_withUtf8 (b : bool) (cs : jsstring) (c : Converter) :
  processUntilSub cs (withUtf8 b c) = withUtf8 b (processUntilSub cs c).
Proof.
  revert c. induction cs as [|ch cs IH]; intros c; [reflexivity|].
  cbn. destruct (ch =? 26); [reflexivity|].
  rewrite processCharCode_withUtf8. apply IH.
Qed.

Lemma convertState_withUtf8 (b : bool) (input : jsstring) (c : Converter) :
  convertState input (withUtf8 b c) = withUtf8 b (convertState input c).
Proof.
  unfold convertState. cbv zeta.
  destruct (findSaucePositions input) as [[saucePos comntPos] afterSaucePos].
  change (openTag (set_output header (withUtf8 b c)))
    with (withUtf8 b (openTag (set_output header c))).
  rewrite processAll_withUtf8.
  destruct saucePos as [sp|]; [|reflexivity].
  assert (E : forall d, emitSauce input sp comntPos (withUtf8 b d)
                        = withUtf8 b (emitSauce input sp comntPos d)).
  { intros d. unfold emitSauce.
    destruct (parseSauceRecord input sp comntPos); [|reflexivity].
    cbv zeta. destruct (nonEmpty _); [|reflexivity].
    rewrite emitChar_withUtf8. apply emitAll_withUtf8. }
  rewrite E.
  destruct afterSaucePos as [ap|]; [|reflexivity].
  destruct (ap <? Js.length input); [|reflexivity].
  destruct (hasMeaningfulContent (sliceFrom input ap)); [|reflexivity].
  rewrite emitChar_withUtf8. apply processUntilSub_withUtf8.
Qed.

(** X13: on input made of code units below 0x7F the [utf8Input] option
    makes no difference: the two methods of a converter return the same
    string, and so does [ansiToHtml] with the option on and off. *)
Theorem utf8_option_is_irrelevant_on_ascii (input : jsstring)
    (sy re : bool) (c : Converter) :
  isAscii input = true ->
  convertUtf8 input c = convert input c
  /\ ansiToHtml input (mkOptions sy re true)
     = ansiToHtml input (mkOptions sy re false).
Proof.
  intros H. split.
  - unfold convertUtf8, convert. rewrite convertUtf8State_ascii by exact H.
    reflexivity.
  - unfold ansiToHtml. cbn [utf8Input].
    unfold convertUtf8, convert. rewrite convertUtf8State_ascii by exact H.
    change (newConverter (mkOptions sy re true))
      with (withUtf8 true (newConverter (mkOptions sy re false))).
    rewrite convertState_withUtf8. reflexivity.
Qed.

Lemma utf8_option_is_irrelevant_on_ascii_witness :
  isAscii (lit "|04Red " ++ [27] ++ lit "[1mbold") = true
  /\ ansiToHtml (lit "|04Red " ++ [27] ++ lit "[1mbold")
       (mkOptions false true true)
     = ansiToHtml (lit "|04Red " ++ [27] ++ lit "[1mbold")
         (mkOptions false true false).
Proof.
  split; [reflexivity|].
  apply (utf8_option_is_irrelevant_on_ascii _ false true
           (newConverter defaultOptions)).
  reflexivity.
Defined.

(** * Further properties: control sequences *)

(** ** One CSI sequence *)

Lemma processAll_csi (params : jsstring) (x : Z) (c : Converter) :
  parseState c = Normal -> forallb isParam params = true ->
  isParam x = false ->
  processAll (ESC :: 91 :: params ++ [x]) c = csiEnd params x c.
Proof.
  intros Hn Hp Hx.
  change (ESC :: 91 :: params ++ [x]) with ([ESC; 91] ++ params ++ [x]).
  rewrite !processAll_app.
  assert (E : processAll [ESC; 91] c
              = set_csiParams [] (set_parseState Csi c)).
  { unfold processAll. cbn [fold_left].
    unfold processCharCode at 2. rewrite Hn. reflexivity. }
  rewrite E.
  rewrite (csi_accumulate params (set_csiParams [] (set_parseState Csi c))
             eq_refl Hp).
  unfold processAll. cbn [fold_left]. unfold processCharCode.
  cbn [parseState set_csiParams set_parseState csiParams app].
  unfold isParam, isDigit in Hx.
  rewrite (Z.geb_leb x 48), Hx. unfold csiEnd. cbv zeta.
  destruct ((x >=? 64) && (x <=? 126)); reflexivity.
Qed.

Lemma processAllUtf8_csi (params : jsstring) (x : Z) (c : Converter) :
  parseState c = Normal -> forallb isParam params = true ->
  isParam x = false ->
  processAllUtf8 (map (fun u => [u]) (ESC :: 91 :: params ++ [x])) c
  = csiEnd params x c.
Proof.
  intros Hn Hp Hx.
  change (ESC :: 91 :: params ++ [x]) with ([ESC; 91] ++ params ++ [x]).
  rewrite !map_app, !processAllUtf8_app.
  assert (E : processAllUtf8 (map (fun u => [u]) [ESC; 91]) c
              = set_csiParams [] (set_parseState Csi c)).
  { unfold processAllUtf8. cbn [fold_left map].
    unfold processUtf8Char at 2. cbv zeta. rewrite Hn. reflexivity. }
  rewrite E.
  rewrite (csi_accumulate_utf8 params
             (set_csiParams [] (set_parseState Csi c)) eq_refl Hp).
  unfold processAllUtf8. cbn [fold_left map]. unfold processUtf8Char.
  cbv zeta.
  cbn [parseState set_csiParams set_parseState csiParams app].
  change (charCodeAt [x] 0) with x. change (lit ";") with [59].
  rewrite single_streq.
  unfold isParam, isDigit in Hx.
  rewrite (Z.geb_leb x 48), Hx. unfold csiEnd. cbv zeta.
  destruct ((x >=? 64) && (x <=? 126)); reflexivity.
Qed.

Lemma feed_csi (o : ConvertOptions) (params : jsstring) (x : Z)
    (run : jsstring) (c : Converter) :
  parseState c = Normal -> forallb isParam params = true ->
  isParam x = false -> isHighSurrogate x = false ->
  feed o (ESC :: 91 :: params ++ x :: run) c = feed o run (csiEnd params x c).
Proof.
  intros Hn Hp Hx Hh.
  replace (ESC :: 91 :: params ++ x :: run)
    with ((ESC :: 91 :: params ++ [x]) ++ run)
    by (cbn [app]; rewrite <- app_assoc; reflexivity).
  unfold feed. destruct (utf8Input o).
  - rewrite codePoints_app_plain.
    + rewrite processAllUtf8_app, (processAllUtf8_csi params x c Hn Hp Hx).
      reflexivity.
    + unfold noSurrogate. cbn [forallb]. rewrite forallb_app.
      cbn [forallb]. rewrite Hh. cbn. rewrite andb_true_r.
      apply forallb_forall. intros y Hy. rewrite forallb_forall in Hp.
      rewrite (proj2 (param_test y (Hp y Hy))). reflexivity.
  - rewrite processAll_app, (processAll_csi params x c Hn Hp Hx).
    reflexivity.
Qed.

Lemma final_byte (x : Z) :
  64 <= x <= 126 ->
  isParam x = false /\ isHighSurrogate x = false
  /\ (x >=? 64) && (x <=? 126) = true.
Proof.
  intros H. unfold isParam, isDigit, isHighSurrogate.
  destruct (Z.leb_spec 48 x); destruct (Z.leb_spec x 57);
    destruct (Z.eqb_spec x 59); destruct (Z.leb_spec 55296 x);
    destruct (Z.geb_spec x 64); destruct (Z.leb_spec x 126);
    cbn; try lia; auto.
Qed.

(** ** Cursor forward *)

Lemma emitTimes_emitAll (n : Z) (ch : jsstring) (c : Converter) :
  emitTimes n ch c = emitAll (repeat ch (Z.to_nat n)) c.
Proof.
  unfold emitTimes. generalize (Z.to_nat n) as k. intros k. revert c.
  induction k as [|k IH]; intros c; [reflexivity|].
  rewrite Nat.iter_succ_r. cbn [repeat]. apply (IH (emitChar ch c)).
Qed.

Lemma renderText_spaces (k : nat) :
  renderText (repeat (lit " ") k) = repeat 32 k.
Proof.
  induction k as [|k IH]; [reflexivity|].
  cbn [repeat]. rewrite renderText_cons, IH. reflexivity.
Qed.

(** Spaces through the emitter: between them only the line feeds of the
    soft wrap. *)
Lemma emitAll_spaces (k : nat) (c : Converter) :
  savePositionActive c = false ->
  exists t, output (emitAll (repeat (lit " ") k) c) = output c ++ t
            /\ filter notLF t = repeat 32 k.
Proof.
  revert c. induction k as [|k IH]; intros c Hs.
  - exists []. rewrite app_nil_r. split; reflexivity.
  - cbn [repeat].
    change (emitAll (lit " " :: repeat (lit " ") k) c)
      with (emitAll (repeat (lit " ") k) (emitChar (lit " ") c)).
    destruct (emitChar_frame (lit " ") c) as [_ [_ [Es _]]].
    destruct (IH (emitChar (lit " ") c) ltac:(congruence)) as [t [Et Ft]].
    assert (Eo : exists w, output (emitChar (lit " ") c)
                           = output c ++ w ++ lit " "
                           /\ filter notLF w = []).
    { rewrite emitChar_text by (try exact Hs; reflexivity).
      unfold wrapIfNeeded.
      destruct (lineHasAnsi c && (currentColumn c >=? 80)).
      - exists LF. split; [|reflexivity].
        unfold put, write, set_currentColumn, set_output. cbn [output].
        rewrite <- !app_assoc. reflexivity.
      - exists []. split; reflexivity. }
    destruct Eo as [w [Ew Fw]].
    exists (w ++ lit " " ++ t). split.
    + rewrite Et, Ew, <- !app_assoc. reflexivity.
    + rewrite !filter_app, Fw, Ft. reflexivity.
Qed.

Lemma forallb_repeat {A : Type} (P : A -> bool) (x : A) (k : nat) :
  P x = true -> forallb P (repeat x k) = true.
Proof.
  intros H. induction k as [|k IH]; [reflexivity|].
  cbn. rewrite H, IH. reflexivity.
Qed.

(** X14: ESC [ n C writes [max 1 n] spaces, one when the parameter is
    missing or zero, through the emitter: they count as columns, and only
    the line feeds of the soft wrap can stand between them; when they fit
    on the line they are written as they are.  The colours stay. *)
Theorem cursor_forward_writes_spaces (o : ConvertOptions)
    (params run : jsstring) (c : Converter) :
  parseState c = Normal -> savePositionActive c = false ->
  forallb isParam params = true ->
  let n := Z.max 1 (parseIntOr params 1) in
  let c' := csiEnd params 67 c in
  feed o (ESC :: 91 :: params ++ 67 :: run) c = feed o run c'
  /\ (exists t, output c' = output c ++ t
                /\ filter notLF t = repeat 32 (Z.to_nat n))
  /\ (currentColumn c + n <= 80 ->
      output c' = output c ++ repeat 32 (Z.to_nat n)
      /\ currentColumn c' = currentColumn c + n)
  /\ foreground c' = foreground c /\ background c' = background c
  /\ parseIntOr [] 1 = 1 /\ parseIntOr (lit "0") 1 = 1.
Proof.
  intros Hn Hs Hp n c'.
  split; [apply feed_csi; try assumption; reflexivity|].
  assert (E : c' = set_parseState Normal
                     (emitAll (repeat (lit " ") (Z.to_nat n))
                        (set_lineHasAnsi true
                           (set_csiParams params (set_parseState Csi c))))).
  { subst c'. unfold csiEnd. cbv zeta. cbn [Z.geb Z.leb Z.compare
      Pos.compare Pos.compare_cont andb].
    unfold processCsi. cbv zeta. change (streq [67] (lit "m")) with false.
    change (streq [67] (lit "J")) with false.
    change (streq [67] (lit "s")) with false.
    change (streq [67] (lit "u")) with false.
    change (streq [67] (lit "H") || streq [67] (lit "f")) with false.
    change (streq [67] (lit "C")) with true. cbv iota.
    rewrite emitTimes_emitAll. reflexivity. }
  rewrite E. cbn [output set_parseState currentColumn foreground background].
  set (c0 := set_lineHasAnsi true
               (set_csiParams params (set_parseState Csi c))).
  split; [exact (emitAll_spaces (Z.to_nat n) c0 Hs)|].
  split.
  - intros Hfit.
    rewrite emitAll_nowrap.
    + unfold typed, write, set_currentColumn, set_output.
      cbn [output currentColumn]. rewrite renderText_spaces, repeat_length.
      subst c0. cbn [output currentColumn set_lineHasAnsi set_csiParams
                     set_parseState].
      split; [reflexivity|]. lia.
    + exact Hs.
    + apply forallb_repeat. reflexivity.
    + rewrite repeat_length. subst c0.
      cbn [currentColumn set_lineHasAnsi set_csiParams set_parseState]. lia.
  - destruct (emitAll_frame (repeat (lit " ") (Z.to_nat n)) c0)
      as [Ef [Eb _]].
    rewrite Ef, Eb. repeat split; reflexivity.
Qed.

Lemma cursor_forward_writes_spaces_witness :
  let c := processAll (lit "A") (start defaultOptions) in
  parseState c = Normal /\ savePositionActive c = false
  /\ forallb isParam (lit "5") = true
  /\ currentColumn c + Z.max 1 (parseIntOr (lit "5") 1) <= 80
  /\ output (csiEnd (lit "5") 67 c) = output c ++ lit "     ".
Proof.
  cbv zeta.
  assert (Hn : parseState (processAll (lit "A") (start defaultOptions))
               = Normal) by reflexivity.
  assert (Hs : savePositionActive
                 (processAll (lit "A") (start defaultOptions)) = false)
    by reflexivity.
  assert (Hp : forallb isParam (lit "5") = true) by reflexivity.
  assert (Hf : currentColumn (processAll (lit "A") (start defaultOptions))
               + Z.max 1 (parseIntOr (lit "5") 1) <= 80)
    by (vm_compute; discriminate).
  repeat (split; [assumption|]).
  exact (proj1 (proj1 (proj2 (proj2
           (cursor_forward_writes_spaces defaultOptions (lit "5") []
              (processAll (lit "A") (start defaultOptions)) Hn Hs Hp)))
           Hf)).
Defined.

(** ** Erase display *)

Lemma emitChar_save (ch : jsstring) (c : Converter) :
  savePositionActive (emitChar ch c) = savePositionActive c.
Proof. apply emitChar_frame. Qed.

(** X15: ESC [ 2 J and ESC [ 3 J put three line feeds in the output, set the
    column to 0 and leave the line marked as free of escape sequences, so
    the text that follows is not wrapped; with any other parameter the
    sequence writes nothing and only marks the line. *)
Theorem erase_display_feeds_three_lines (o : ConvertOptions)
    (params run : jsstring) (c : Converter) :
  parseState c = Normal -> savePositionActive c = false ->
  forallb isParam params = true ->
  let n := parseIntOr params 0 in
  let c' := csiEnd params 74 c in
  feed o (ESC :: 91 :: params ++ 74 :: run) c = feed o run c'
  /\ (n = 2 \/ n = 3 ->
      output c' = output c ++ [10; 10; 10]
      /\ currentColumn c' = 0 /\ lineHasAnsi c' = false)
  /\ (n <> 2 -> n <> 3 ->
      output c' = output c /\ currentColumn c' = currentColumn c
      /\ lineHasAnsi c' = true)
  /\ foreground c' = foreground c /\ background c' = background c.
Proof.
  intros Hn Hs Hp n c'.
  split; [apply feed_csi; try assumption; reflexivity|].
  set (c0 := set_lineHasAnsi true
               (set_csiParams params (set_parseState Csi c))).
  assert (E : c' = set_parseState Normal
                     (if (n =? 2) || (n =? 3)
                      then emitChar LF (emitChar LF (emitChar LF c0))
                      else c0)).
  { subst c' c0 n. unfold csiEnd. cbv zeta. cbn [Z.geb Z.leb Z.compare
      Pos.compare Pos.compare_cont andb].
    unfold processCsi. cbv zeta. change (streq [74] (lit "m")) with false.
    change (streq [74] (lit "J")) with true. reflexivity. }
  assert (S0 : savePositionActive c0 = false) by exact Hs.
  assert (L1 : emitChar LF c0
               = set_lineHasAnsi false (set_currentColumn 0 (write LF c0)))
    by (apply emitChar_LF, S0).
  assert (L2 : emitChar LF (emitChar LF c0)
               = set_lineHasAnsi false
                   (set_currentColumn 0 (write LF (emitChar LF c0))))
    by (apply emitChar_LF; rewrite emitChar_save; exact S0).
  assert (L3 : emitChar LF (emitChar LF (emitChar LF c0))
               = set_lineHasAnsi false
                   (set_currentColumn 0
                      (write LF (emitChar LF (emitChar LF c0)))))
    by (apply emitChar_LF; rewrite !emitChar_save; exact S0).
  rewrite E. split; [|split].
  - intros H23.
    replace ((n =? 2) || (n =? 3)) with true
      by (symmetry; apply orb_true_iff; rewrite !Z.eqb_eq; exact H23).
    rewrite L3, L2, L1. subst c0.
    cbn [output currentColumn lineHasAnsi set_parseState set_lineHasAnsi
         set_currentColumn write set_output set_csiParams].
    rewrite <- !app_assoc. repeat split; reflexivity.
  - intros H2 H3.
    replace ((n =? 2) || (n =? 3)) with false
      by (symmetry; apply orb_false_iff; rewrite !Z.eqb_neq; auto).
    subst c0. repeat split; reflexivity.
  - destruct ((n =? 2) || (n =? 3)).
    + rewrite L3, L2, L1. subst c0. split; reflexivity.
    + subst c0. split; reflexivity.
Qed.

Lemma erase_display_feeds_three_lines_witness :
  let c := processAll (lit "Before") (start defaultOptions) in
  parseState c = Normal /\ savePositionActive c = false
  /\ forallb isParam (lit "2") = true
  /\ parseIntOr (lit "2") 0 = 2
  /\ output (csiEnd (lit "2") 74 c) = output c ++ [10; 10; 10]
  /\ lineHasAnsi (csiEnd (lit "2") 74 c) = false.
Proof.
  cbv zeta.
  assert (Hn : parseState (processAll (lit "Before") (start defaultOptions))
               = Normal) by reflexivity.
  assert (Hs : savePositionActive
                 (processAll (lit "Before") (start defaultOptions)) = false)
    by reflexivity.
  assert (Hp : forallb isParam (lit "2") = true) by reflexivity.
  assert (H2 : parseIntOr (lit "2") 0 = 2) by reflexivity.
  repeat (split; [assumption|]).
  pose proof (proj1 (proj2
                (erase_display_feeds_three_lines defaultOptions (lit "2") []
                   (processAll (lit "Before") (start defaultOptions))
                   Hn Hs Hp)) (or_introl H2)) as [Ho [_ Hl]].
  split; [exact Ho|exact Hl].
Defined.

(** ** Sequences that write nothing *)

(** X16: a CSI sequence whose final byte is none of m, J, C, s and u
    (cursor up, down, back and position, erase in line, and every unknown
    one) writes nothing and changes neither colour nor column nor
    suppression; it marks the line as having an escape sequence and keeps
    its parameters in the buffer. *)
Theorem other_sequences_write_nothing (o : ConvertOptions)
    (params : jsstring) (x : Z) (run : jsstring) (c : Converter) :
  parseState c = Normal -> forallb isParam params = true ->
  64 <= x <= 126 ->
  x <> 109 -> x <> 74 -> x <> 67 -> x <> 115 -> x <> 117 ->
  feed o (ESC :: 91 :: params ++ x :: run) c
  = feed o run (set_lineHasAnsi true (set_csiParams params c)).
Proof.
  intros Hn Hp Hx Hm HJ HC Hs Hu.
  destruct (final_byte x Hx) as [Px [Sx Fx]].
  rewrite feed_csi by assumption. f_equal.
  unfold csiEnd. cbv zeta. rewrite Fx. unfold processCsi. cbv zeta.
  change (lit "m") with [109]. change (lit "J") with [74].
  change (lit "s") with [115]. change (lit "u") with [117].
  change (lit "H") with [72]. change (lit "f") with [102].
  change (lit "C") with [67]. rewrite !single_streq.
  rewrite (proj2 (Z.eqb_neq x 109) Hm), (proj2 (Z.eqb_neq x 74) HJ),
    (proj2 (Z.eqb_neq x 115) Hs), (proj2 (Z.eqb_neq x 117) Hu),
    (proj2 (Z.eqb_neq x 67) HC).
  destruct c. cbn in Hn. subst.
  destruct ((x =? 72) || (x =? 102)); reflexivity.
Qed.

Lemma other_sequences_write_nothing_witness :
  let c := processAll (lit "ab") (start defaultOptions) in
  parseState c = Normal
  /\ feed defaultOptions (ESC :: 91 :: lit "10;20" ++ 72 :: lit "cd") c
     = feed defaultOptions (lit "cd")
         (set_lineHasAnsi true (set_csiParams (lit "10;20") c)).
Proof.
  cbv zeta. split; [reflexivity|].
  apply (other_sequences_write_nothing defaultOptions (lit "10;20") 72
           (lit "cd") (processAll (lit "ab") (start defaultOptions)));
    first [reflexivity | lia].
Defined.

(** X17: a sequence that is broken off swallows the character that breaks
    it.  After ESC every character other than [ 7 8 is dropped and the
    converter is as before; after ESC [ and parameters, a character that is
    neither a parameter nor a final byte (a space, a line feed, another
    ESC) is dropped as well, and only the parameter buffer has changed. *)
Theorem broken_sequence_swallows_a_character (o : ConvertOptions)
    (params : jsstring) (x : Z) (run : jsstring) (c : Converter) :
  parseState c = Normal -> isHighSurrogate x = false ->
  (x <> 91 -> x <> 55 -> x <> 56 ->
   feed o (ESC :: x :: run) c = feed o run c)
  /\ (forallb isParam params = true -> isParam x = false ->
      x < 64 \/ 126 < x ->
      feed o (ESC :: 91 :: params ++ x :: run) c
      = feed o run (set_csiParams params c)).
Proof.
  intros Hn Hh. split.
  - intros H1 H2 H3.
    assert (E1 : processAll [ESC; x] c = c).
    { unfold processAll. cbn [fold_left]. unfold processCharCode at 2.
      rewrite Hn. cbn [processNormal ESC Z.eqb Pos.eqb].
      unfold processNormal. cbn [Z.eqb Pos.eqb].
      unfold processCharCode. cbn [parseState set_parseState].
      rewrite (proj2 (Z.eqb_neq x 91) H1), (proj2 (Z.eqb_neq x 55) H2),
        (proj2 (Z.eqb_neq x 56) H3).
      destruct c. cbn in Hn. subst. reflexivity. }
    assert (E2 : processAllUtf8 [[ESC]; [x]] c = c).
    { unfold processAllUtf8. cbn [fold_left]. unfold processUtf8Char at 2.
      cbv zeta. rewrite Hn. unfold processUtf8Normal. cbv zeta.
      change (charCodeAt [ESC] 0 =? 27) with true. cbv iota.
      unfold processUtf8Char. cbv zeta. cbn [parseState set_parseState].
      change (lit "[") with [91]. change (lit "7") with [55].
      change (lit "8") with [56]. rewrite !single_streq.
      rewrite (proj2 (Z.eqb_neq x 91) H1), (proj2 (Z.eqb_neq x 55) H2),
        (proj2 (Z.eqb_neq x 56) H3).
      destruct c. cbn in Hn. subst. reflexivity. }
    change (ESC :: x :: run) with ([ESC; x] ++ run).
    unfold feed. destruct (utf8Input o).
    + rewrite codePoints_app_plain
        by (unfold noSurrogate; cbn [forallb]; rewrite Hh; reflexivity).
      rewrite processAllUtf8_app. cbn [map]. rewrite E2. reflexivity.
    + rewrite processAll_app, E1. reflexivity.
  - intros Hp Hx Hout. rewrite feed_csi by assumption. f_equal.
    unfold csiEnd. cbv zeta.
    replace ((x >=? 64) && (x <=? 126)) with false
      by (symmetry; apply andb_false_iff; rewrite Z.geb_leb, !Z.leb_gt; lia).
    destruct c. cbn in Hn. subst. reflexivity.
Qed.

Lemma broken_sequence_swallows_a_character_witness :
  let c := start defaultOptions in
  parseState c = Normal /\ isHighSurrogate 65 = false
  /\ feed defaultOptions (ESC :: 65 :: lit "bc") c
     = feed defaultOptions (lit "bc") c
  /\ feed defaultOptions (ESC :: 91 :: lit "31" ++ 10 :: lit "bc") c
     = feed defaultOptions (lit "bc") (set_csiParams (lit "31") c).
Proof.
  cbv zeta. split; [reflexivity|]. split; [reflexivity|]. split.
  - apply (proj1 (broken_sequence_swallows_a_character defaultOptions []
                    65 (lit "bc") (start defaultOptions) eq_refl eq_refl));
      lia.
  - apply (proj2 (broken_sequence_swallows_a_character defaultOptions
                    (lit "31") 10 (lit "bc") (start defaultOptions)
                    eq_refl eq_refl));
      first [reflexivity | lia].
Defined.

(** * Further properties: colour codes *)

(** ** The algebra of SGR parameters *)

Lemma hue_idem (f x : Z) :
  0 <= f <= 15 -> 0 <= x <= 7 ->
  bor (band (bor (band f 8) x) 8) x = bor (band f 8) x.
Proof.
  intros Hf Hx. apply Z.eqb_eq. revert x Hx.
  apply (forall_hue
           (fun x => bor (band (bor (band f 8) x) 8) x =? bor (band f 8) x)).
  revert f Hf.
  apply (forall_nibble
           (fun f =>
              forallb
                (fun x => bor (band (bor (band f 8) x) 8) x
                          =? bor (band f 8) x)
                (firstn 8 nibbles))).
  vm_compute. reflexivity.
Qed.

(** X18: applied twice in a row, every SGR parameter but 7 has the effect
    of one application; reverse video (7) exchanges the two colours and is
    undone by a second one. *)
Theorem sgr_parameters_are_idempotent (fb : Z * Z) (code : Z) :
  cgaPair fb ->
  (code <> 7 -> sgrCode (sgrCode fb code) code = sgrCode fb code)
  /\ sgrCode fb 7 = (snd fb, fst fb)
  /\ sgrCode (sgrCode fb 7) 7 = fb.
Proof.
  destruct fb as [f b]. intros [Hf Hb]. cbn [fst snd] in Hf, Hb.
  split; [|split; reflexivity].
  intros H7. unfold sgrCode.
  destruct (code =? 0); [reflexivity|].
  destruct (code =? 1); [rewrite bor_idem; reflexivity|].
  destruct ((code =? 2) || (code =? 22)); [rewrite band_idem; reflexivity|].
  destruct ((code =? 5) || (code =? 6)); [rewrite bor_idem; reflexivity|].
  destruct (code =? 25); [rewrite band_idem; reflexivity|].
  destruct (Z.eqb_spec code 7); [contradiction|].
  destruct ((30 <=? code) && (code <=? 37)).
  { rewrite hue_idem by (try exact Hf; apply ansiToCga_range). reflexivity. }
  destruct (code =? 39); [reflexivity|].
  destruct ((40 <=? code) && (code <=? 47)).
  { rewrite hue_idem by (try exact Hb; apply ansiToCga_range). reflexivity. }
  destruct (code =? 49); [reflexivity|].
  destruct ((90 <=? code) && (code <=? 97)); [reflexivity|].
  destruct ((100 <=? code) && (code <=? 107)); reflexivity.
Qed.

Lemma sgr_parameters_are_idempotent_witness :
  cgaPair (7, 0)
  /\ sgrCode (sgrCode (7, 0) 34) 34 = (1, 0)
  /\ sgrCode (sgrCode (7, 0) 7) 7 = (7, 0).
Proof.
  assert (H : cgaPair (7, 0)) by (split; cbn; lia).
  split; [exact H|]. split.
  - rewrite (proj1 (sgr_parameters_are_idempotent (7, 0) 34 H)) by lia.
    reflexivity.
  - exact (proj2 (proj2 (sgr_parameters_are_idempotent (7, 0) 34 H))).
Defined.

(** ** Resets *)

Lemma split_nonempty (sep : Z) (s : jsstring) : split sep s <> [].
Proof.
  destruct s as [|x r]; cbn; [discriminate|].
  destruct (x =? sep); [discriminate|].
  destruct (split sep r); discriminate.
Qed.

Lemma split_snoc (sep : Z) (s : jsstring) :
  split sep (s ++ [sep]) = split sep s ++ [[]].
Proof.
  induction s as [|x r IH].
  - cbn. rewrite Z.eqb_refl. reflexivity.
  - cbn [app split]. rewrite IH.
    destruct (x =? sep); [reflexivity|].
    destruct (split sep r) as [|h t] eqn:E;
      [exfalso; exact (split_nonempty sep r E)|].
    reflexivity.
Qed.

Lemma sgrCodes_trailing_semicolon (p : jsstring) :
  sgrCodes (p ++ lit ";") = map (fun s => parseIntOr s 0) (split 59 p) ++ [0].
Proof.
  unfold sgrCodes. change (lit ";") with [59].
  replace (streq (p ++ [59]) []) with false
    by (symmetry; apply streq_neq; destruct p; discriminate).
  rewrite split_snoc, map_app. reflexivity.
Qed.

Lemma sgr_fold_reset (codes : list Z) (fb : Z * Z) :
  fold_left sgrCode (codes ++ [0]) fb = (7, 0).
Proof.
  rewrite fold_left_app. cbn [fold_left].
  destruct (fold_left sgrCode codes fb). reflexivity.
Qed.

Lemma processSgr_colors (params : jsstring) (c : Converter) :
  (foreground (processSgr params c), background (processSgr params c))
  = fold_left sgrCode (sgrCodes params) (foreground c, background c).
Proof.
  unfold processSgr.
  destruct (fold_left sgrCode (sgrCodes params) (foreground c, background c))
    as [newFg newBg].
  destruct (switchColor_colors newBg newFg c) as [Ef Eb].
  rewrite Ef, Eb. reflexivity.
Qed.

(** X19: whatever the colours were, an SGR sequence whose last parameter is
    0 leaves light grey on black; so does the sequence without parameter,
    and so does every sequence that ends in a semicolon, the missing
    parameter after it being read as 0. *)
Theorem sgr_reset_forms (params : jsstring) (c : Converter) :
  (forall codes, sgrCodes params = codes ++ [0] ->
     foreground (processSgr params c) = 7
     /\ background (processSgr params c) = 0)
  /\ (foreground (processSgr [] c) = 7 /\ background (processSgr [] c) = 0)
  /\ (foreground (processSgr (params ++ lit ";") c) = 7
      /\ background (processSgr (params ++ lit ";") c) = 0).
Proof.
  assert (R : forall p codes,
             sgrCodes p = codes ++ [0] ->
             foreground (processSgr p c) = 7
             /\ background (processSgr p c) = 0).
  { intros p codes E. pose proof (processSgr_colors p c) as H.
    rewrite E, sgr_fold_reset in H. injection H as H1 H2. auto. }
  split; [apply R|]. split.
  - apply (R [] []). reflexivity.
  - apply (R _ _ (sgrCodes_trailing_semicolon params)).
Qed.

Lemma sgr_reset_forms_witness :
  let c := processSgr (lit "1;31;44") (newConverter defaultOptions) in
  foreground c = 12 /\ background c = 1
  /\ sgrCodes (lit "5;0") = [5] ++ [0]
  /\ foreground (processSgr (lit "5;0") c) = 7
  /\ background (processSgr (lit "32;") c) = 0.
Proof.
  cbv zeta. split; [reflexivity|]. split; [reflexivity|].
  split; [reflexivity|]. split.
  - exact (proj1 (proj1 (sgr_reset_forms (lit "5;0")
                           (processSgr (lit "1;31;44")
                              (newConverter defaultOptions)))
                    [5] eq_refl)).
  - exact (proj2 (proj2 (proj2 (sgr_reset_forms (lit "32")
                                  (processSgr (lit "1;31;44")
                                     (newConverter defaultOptions)))))).
Defined.

(** ** Renegade codes *)

Lemma processRenegadeCode_foreground (code : Z) (c : Converter) :
  0 <= code <= 15 ->
  foreground (processRenegadeCode code c) = code
  /\ background (processRenegadeCode code c) = background c.
Proof.
  intros H. unfold processRenegadeCode. cbv zeta.
  replace ((code >=? 0) && (code <=? 15)) with true
    by (symmetry; apply andb_true_iff; rewrite Z.geb_leb, !Z.leb_le; lia).
  destruct (switchColor_colors (background (set_lineHasAnsi true c)) code
              (set_lineHasAnsi true c)) as [Ef Eb].
  rewrite Ef, Eb. auto.
Qed.

Lemma processRenegadeCode_frame (code : Z) (c : Converter) :
  currentColumn (processRenegadeCode code c) = currentColumn c
  /\ lineHasAnsi (processRenegadeCode code c) = true
  /\ savePositionActive (processRenegadeCode code c) = savePositionActive c.
Proof.
  unfold processRenegadeCode. cbv zeta.
  destruct (if (code >=? 0) && (code <=? 15) then _ else _) as [newFg newBg].
  destruct (switchColor_frame newBg newFg (set_lineHasAnsi true c))
    as [E1 [E2 [E3 _]]].
  rewrite E1, E2, E3. auto.
Qed.

(** X20: with the pipe dialect enabled, the two-digit codes 00 to 15 set
    the foreground to the code and keep the background; the three
    characters are consumed, the column does not move and the line is
    marked as having a sequence. *)
Theorem renegade_foreground_codes (c : Converter) (d1 d2 : Z) :
  parseState c = Normal ->
  renegadePipe (options c) = true ->
  0 <= d1 <= 9 -> 0 <= d2 <= 9 ->
  d1 * 10 + d2 <= 15 ->
  let c' := feed (options c) [124; 48 + d1; 48 + d2] c in
  foreground c' = d1 * 10 + d2
  /\ background c' = background c
  /\ parseState c' = Normal
  /\ currentColumn c' = currentColumn c
  /\ lineHasAnsi c' = true.
Proof.
  intros Hn Hr H1 H2 Hc c'. subst c'.
  rewrite feed_pipe_code by assumption.
  replace (d1 * 10 + d2 <=? 23) with true by (symmetry; apply Z.leb_le; lia).
  cbn [foreground background parseState currentColumn lineHasAnsi
       set_parseState].
  destruct (processRenegadeCode_foreground (d1 * 10 + d2)
              (set_parseState RenegadePipe2
                 (set_renegadeFirstDigit d1
                    (set_parseState RenegadePipe1 c)))
              ltac:(lia)) as [Ef Eb].
  destruct (processRenegadeCode_frame (d1 * 10 + d2)
              (set_parseState RenegadePipe2
                 (set_renegadeFirstDigit d1
                    (set_parseState RenegadePipe1 c))))
    as [Ec [El _]].
  rewrite Ef, Eb, Ec, El. repeat split; reflexivity.
Qed.

Lemma renegade_foreground_codes_witness :
  let c := newConverter renegadeOptions in
  parseState c = Normal /\ renegadePipe (options c) = true
  /\ foreground (feed renegadeOptions (lit "|14") c) = 14
  /\ background (feed renegadeOptions (lit "|14") c) = 0.
Proof.
  cbv zeta. split; [reflexivity|]. split; [reflexivity|].
  pose proof (renegade_foreground_codes (newConverter renegadeOptions) 1 4
                eq_refl eq_refl ltac:(lia) ltac:(lia) ltac:(lia))
    as [Hf [Hb _]].
  split; [exact Hf|exact Hb].
Defined.

(** ** A pipe that starts no code *)

Lemma emitChar_set_parseState (ch : jsstring) (p : ParseState)
    (c : Converter) :
  emitChar ch (set_parseState p c) = set_parseState p (emitChar ch c).
Proof.
  unfold emitChar.
  cbn [savePositionActive lineHasAnsi currentColumn set_parseState].
  destruct (savePositionActive c); [reflexivity|].
  destruct (lineHasAnsi c && (currentColumn c >=? 80) && negb (streq ch LF));
    split_ifs; reflexivity.
Qed.

Lemma emitChar_set_renegadeFirstDigit (ch : jsstring) (d : Z)
    (c : Converter) :
  emitChar ch (set_renegadeFirstDigit d c)
  = set_renegadeFirstDigit d (emitChar ch c).
Proof.
  unfold emitChar.
  cbn [savePositionActive lineHasAnsi currentColumn set_renegadeFirstDigit].
  destruct (savePositionActive c); [reflexivity|].
  destruct (lineHasAnsi c && (currentColumn c >=? 80) && negb (streq ch LF));
    split_ifs; reflexivity.
Qed.

Lemma set_parseState_same (c : Converter) :
  set_parseState (parseState c) c = c.
Proof. destruct c. reflexivity. Qed.

Lemma set_parseState_id (p : ParseState) (c : Converter) :
  parseState c = p -> set_parseState p c = c.
Proof. intros <-. apply set_parseState_same. Qed.

Lemma set_parseState_twice (p q : ParseState) (c : Converter) :
  set_parseState p (set_parseState q c) = set_parseState p c.
Proof. reflexivity. Qed.

Lemma emitChar_parseState (ch : jsstring) (c : Converter) :
  parseState (emitChar ch c) = parseState c.
Proof. apply emitChar_frame. Qed.

(** The converter with the pipe written after all: back in [Normal]. *)
Lemma pipe_written (p : ParseState) (c : Converter) :
  parseState c = Normal ->
  set_parseState Normal (emitChar (lit "|") (set_parseState p c))
  = emitChar (lit "|") c.
Proof.
  intros Hn. rewrite emitChar_set_parseState.
  rewrite <- (set_parseState_same (emitChar (lit "|") c)) at 2.
  rewrite emitChar_parseState, Hn. reflexivity.
Qed.

(** X21: a pipe that is not followed by two digits is text.  When the
    character after the pipe is no digit, the pipe is written and that
    character is processed as if the pipe had been ordinary text before it;
    when only one digit follows, the pipe and the digit are written and the
    character after them is processed in the same way.  It holds on both
    paths. *)
Theorem incomplete_pipe_code_is_text (c : Converter) (x d : Z)
    (ch : jsstring) :
  parseState c = Normal -> renegadePipe (options c) = true ->
  isDigit x = false -> isDigit (charCodeAt ch 0) = false ->
  isDigit d = true ->
  processAll [124; x] c = processCharCode x (emitChar (lit "|") c)
  /\ processAllUtf8 [lit "|"; ch] c
     = processUtf8Char ch (emitChar (lit "|") c)
  /\ processAll [124; d; x] c
     = processCharCode x
         (emitChar [d]
            (emitChar (lit "|") (set_renegadeFirstDigit (d - 48) c)))
  /\ processAllUtf8 [lit "|"; [d]; ch] c
     = processUtf8Char ch
         (emitChar [d]
            (emitChar (lit "|") (set_renegadeFirstDigit (d - 48) c))).
Proof.
  intros Hn Hr Hx Hch Hd.
  unfold isDigit in Hx, Hch, Hd.
  assert (Hd' : 48 <= d <= 57)
    by (apply andb_true_iff in Hd; rewrite !Z.leb_le in Hd; exact Hd).
  assert (P1 : processCharCode 124 c = set_parseState RenegadePipe1 c)
    by (apply processCharCode_pipe; assumption).
  assert (Q1 : processUtf8Char (lit "|") c = set_parseState RenegadePipe1 c).
  { apply (processUtf8Char_prefix 124 c Hn). left. auto. }
  assert (N1 : parseState (emitChar (lit "|") c) = Normal)
    by (rewrite emitChar_parseState; exact Hn).
  assert (N2 : parseState
                 (emitChar [d]
                    (emitChar (lit "|")
                       (set_renegadeFirstDigit (d - 48) c))) = Normal)
    by (rewrite !emitChar_parseState; exact Hn).
  assert (S2 : set_parseState Normal
                 (emitChar [48 + (d - 48)]
                    (emitChar (lit "|")
                       (set_parseState RenegadePipe2
                          (set_renegadeFirstDigit (d - 48)
                             (set_parseState RenegadePipe1 c)))))
               = emitChar [d]
                   (emitChar (lit "|") (set_renegadeFirstDigit (d - 48) c))).
  { replace (48 + (d - 48)) with d by lia.
    change (set_parseState RenegadePipe2
              (set_renegadeFirstDigit (d - 48)
                 (set_parseState RenegadePipe1 c)))
      with (set_parseState RenegadePipe2
              (set_renegadeFirstDigit (d - 48) c)).
    rewrite !emitChar_set_parseState, set_parseState_twice.
    apply set_parseState_id, N2. }
  split; [|split; [|split]].
  - unfold processAll. cbn [fold_left]. rewrite P1.
    unfold processCharCode at 1. cbn [parseState set_parseState].
    rewrite (Z.geb_leb x 48), Hx, (pipe_written _ c Hn).
    unfold processCharCode. rewrite N1. reflexivity.
  - unfold processAllUtf8. cbn [fold_left]. rewrite Q1.
    unfold processUtf8Char at 1. cbv zeta. cbn [parseState set_parseState].
    rewrite (Z.geb_leb (charCodeAt ch 0) 48), Hch, (pipe_written _ c Hn).
    unfold processUtf8Char. cbv zeta. rewrite N1. reflexivity.
  - unfold processAll. cbn [fold_left]. rewrite P1.
    rewrite (processCharCode_pipe1_digit d (set_parseState RenegadePipe1 c)
               eq_refl Hd').
    unfold processCharCode at 1.
    cbn [parseState set_parseState renegadeFirstDigit set_renegadeFirstDigit].
    rewrite (Z.geb_leb x 48), Hx, S2.
    unfold processCharCode. rewrite N2. reflexivity.
  - unfold processAllUtf8. cbn [fold_left]. rewrite Q1.
    rewrite (processUtf8Char_pipe1_digit d (set_parseState RenegadePipe1 c)
               eq_refl Hd').
    unfold processUtf8Char at 1. cbv zeta.
    cbn [parseState set_parseState renegadeFirstDigit set_renegadeFirstDigit].
    rewrite (Z.geb_leb (charCodeAt ch 0) 48), Hch, S2.
    unfold processUtf8Char. cbv zeta. rewrite N2. reflexivity.
Qed.

Lemma incomplete_pipe_code_is_text_witness :
  let c := start renegadeOptions in
  parseState c = Normal /\ renegadePipe (options c) = true
  /\ isDigit 88 = false /\ isDigit 48 = true
  /\ output (processAll (lit "|0X") c) = output c ++ lit "|0X"
  /\ processAll (lit "|0X") c
     = processCharCode 88
         (emitChar (lit "0")
            (emitChar (lit "|") (set_renegadeFirstDigit 0 c))).
Proof.
  cbv zeta. split; [reflexivity|]. split; [reflexivity|].
  split; [reflexivity|]. split; [reflexivity|]. split; [reflexivity|].
  exact (proj1 (proj2 (proj2
           (incomplete_pipe_code_is_text (start renegadeOptions) 88 48
              (lit "X") eq_refl eq_refl eq_refl eq_refl eq_refl)))).
Defined.

(** ** Synchronet codes *)

Lemma processSynchronetCode_frame (code : Z) (c : Converter) :
  currentColumn (processSynchronetCode code c) = currentColumn c
  /\ savePositionActive (processSynchronetCode code c) = savePositionActive c.
Proof.
  unfold processSynchronetCode. cbv zeta.
  destruct (synchronetSwitch code _ _) as [newFg newBg].
  destruct (switchColor_frame newBg newFg (set_lineHasAnsi true c))
    as [E1 [_ [E3 _]]].
  rewrite E1, E3. auto.
Qed.

Lemma synchronet_letter (x f b : Z) :
  In x (lit "kbgcrmyw") ->
  exists h, 0 <= h <= 7
            /\ synchronetSwitch x f b = (h, b)
            /\ synchronetSwitch (x - 32) f b = (h + 8, b).
Proof.
  intros Hin. cbn in Hin.
  destruct Hin as [<-|[<-|[<-|[<-|[<-|[<-|[<-|[<-|[]]]]]]]]];
    [exists 0|exists 1|exists 2|exists 3|exists 4|exists 5|exists 6
     |exists 7];
    (split; [lia|split; reflexivity]).
Qed.

Lemma processAll_ctrlA (x : Z) (c : Converter) :
  parseState c = Normal -> synchronetCtrlA (options c) = true ->
  processAll [1; x] c = set_parseState Normal (processSynchronetCode x c).
Proof.
  intros Hn Hs. unfold processAll. cbn [fold_left].
  rewrite (processCharCode_prefix 1 c Hn) by (right; auto).
  unfold processCharCode. cbn [parseState set_parseState pendingState Z.eqb
                               Pos.eqb].
  unfold processSynchronetCode, switchColor, openTag, closeTag, write,
    set_colors, set_output, set_lineHasAnsi, set_parseState.
  cbn [foreground background output currentColumn lineHasAnsi
       savePositionActive parseState csiParams renegadeFirstDigit options].
  destruct (synchronetSwitch x (foreground c) (background c)) as [f b].
  destruct (negb (b =? background c) || negb (f =? foreground c));
    reflexivity.
Qed.

(** X22: with the Ctrl-A dialect enabled, Ctrl-A and the character after it
    write no text and do not move the column; a digit 0 to 7 sets the
    background to its value and keeps the foreground; each of the letters
    k b g c r m y w sets a foreground in 0..7, and its upper-case form the
    same colour with the intensity bit, both keeping the background. *)
Theorem synchronet_letters_and_digits (c : Converter) (x : Z) :
  parseState c = Normal -> synchronetCtrlA (options c) = true ->
  let after := fun y => processAll [1; y] c in
  parseState (after x) = Normal
  /\ currentColumn (after x) = currentColumn c
  /\ (output (after x) = output c
      \/ output (after x)
         = output c ++ closingTag (background c) (foreground c)
           ++ openingTag (background (after x)) (foreground (after x)))
  /\ (48 <= x <= 55 ->
      background (after x) = x - 48 /\ foreground (after x) = foreground c)
  /\ (In x (lit "kbgcrmyw") ->
      0 <= foreground (after x) <= 7
      /\ foreground (after (x - 32)) = foreground (after x) + 8
      /\ background (after x) = background c
      /\ background (after (x - 32)) = background c).
Proof.
  intros Hn Hs after.
  assert (E : forall y, after y
                        = set_parseState Normal (processSynchronetCode y c))
    by (intros y; apply processAll_ctrlA; assumption).
  assert (F : forall y,
             (foreground (after y), background (after y))
             = synchronetSwitch y (foreground c) (background c)).
  { intros y. rewrite E. cbn [foreground background set_parseState].
    apply processSynchronetCode_fields. }
  split; [rewrite E; reflexivity|]. split.
  { rewrite E. cbn [currentColumn set_parseState].
    apply processSynchronetCode_frame. }
  split.
  { pose proof (F x) as Fx. rewrite E in Fx |- *.
    cbn [output foreground background set_parseState] in Fx |- *.
    unfold processSynchronetCode in Fx |- *. cbv zeta in Fx |- *.
    destruct (synchronetSwitch x (foreground (set_lineHasAnsi true c))
                (background (set_lineHasAnsi true c))) as [f b].
    destruct (switchColor_colors b f (set_lineHasAnsi true c)) as [Ef Eb].
    rewrite Ef, Eb.
    destruct (switchColor_output b f (set_lineHasAnsi true c))
      as [[Ec _]|Eo].
    - left. rewrite Ec. reflexivity.
    - right. rewrite Eo. unfold closingTag, openingTag.
      rewrite <- !app_assoc. reflexivity. }
  split.
  - intros Hx. pose proof (F x) as Fx.
    assert (S : synchronetSwitch x (foreground c) (background c)
                = (foreground c, x - 48)).
    { assert (Hc : x = 48 \/ x = 49 \/ x = 50 \/ x = 51 \/ x = 52 \/ x = 53
                   \/ x = 54 \/ x = 55) by lia.
      destruct Hc as [->|[->|[->|[->|[->|[->|[->| ->]]]]]]]; reflexivity. }
    rewrite S in Fx. injection Fx as F1 F2. auto.
  - intros Hin. pose proof (F x) as Fx. pose proof (F (x - 32)) as Fu.
    destruct (synchronet_letter x (foreground c) (background c) Hin)
      as [h [Hh [E1 E2]]].
    rewrite E1 in Fx. rewrite E2 in Fu.
    injection Fx as F1 F2. injection Fu as F3 F4.
    rewrite F1, F2, F3, F4. repeat split; lia.
Qed.

Lemma synchronet_letters_and_digits_witness :
  let c := start synchronetOptions in
  parseState c = Normal /\ synchronetCtrlA (options c) = true
  /\ In 114 (lit "kbgcrmyw")
  /\ foreground (processAll [1; 114] c) = 4
  /\ foreground (processAll [1; 82] c) = 12
  /\ background (processAll [1; 52] c) = 4.
Proof.
  cbv zeta. split; [reflexivity|]. split; [reflexivity|].
  assert (Hin : In 114 (lit "kbgcrmyw")) by (cbn; tauto).
  split; [exact Hin|]. split; [reflexivity|]. split.
  - pose proof (proj2 (proj2 (proj2 (proj2
                  (synchronet_letters_and_digits (start synchronetOptions)
                     114 eq_refl eq_refl)))) Hin) as [_ [H _]].
    exact H.
  - pose proof (proj1 (proj2 (proj2 (proj2
                  (synchronet_letters_and_digits (start synchronetOptions)
                     52 eq_refl eq_refl)))) ltac:(lia)) as [H _].
    exact H.
Defined.

(** * Further properties: the elements behind the tags *)

(** ** wwwroot/ansi-display.js: the custom elements *)

Lemma inner_loop (bg : nat) (inner : list nat) (r : Registry) :
  fold_left (fun r fg => registerElement r (bg, fg)) inner r
  = fold_left registerElement (map (pair bg) inner) r.
Proof.
  revert r. induction inner as [|fg inner IH]; intros r; [reflexivity|].
  cbn [fold_left map]. apply IH.
Qed.

Lemma nested_loops (outer inner : list nat) (r : Registry) :
  fold_left
    (fun r bg => fold_left (fun r fg => registerElement r (bg, fg)) inner r)
    outer r
  = fold_left registerElement
      (flat_map (fun bg => map (pair bg) inner) outer) r.
Proof.
  revert r. induction outer as [|bg outer IH]; intros r; [reflexivity|].
  cbn [fold_left flat_map]. rewrite fold_left_app, IH, inner_loop.
  reflexivity.
Qed.

Lemma registerAll_pairs (r : Registry) :
  registerAll r = fold_left registerElement colourPairs r.
Proof. apply nested_loops. Qed.

(** A name keeps the element it had; a free name gets the first element the
    loops make for it. *)
Lemma get_registered (l : list (nat * nat)) (r : Registry)
    (name : jsstring) :
  get (fold_left registerElement l r) name
  = match get r name with
    | Some style => Some style
    | None => firstStyle l name
    end.
Proof.
  revert r. induction l as [|[bg fg] l IH]; intros r.
  - cbn. destruct (get r name); reflexivity.
  - cbn [fold_left]. rewrite IH. unfold firstStyle. cbn [find fst snd].
    unfold registerElement.
    destruct (get r (toLowerCase (tagName bg fg))) as [s|] eqn:G.
    + destruct (get r name) as [s'|] eqn:G'; [reflexivity|].
      destruct (streq (toLowerCase (tagName bg fg)) name) eqn:E;
        [|reflexivity].
      apply streq_eq in E. rewrite E in G. congruence.
    + cbv zeta. unfold define. cbn [get].
      destruct (streq (toLowerCase (tagName bg fg)) name) eqn:E.
      * apply streq_eq in E. rewrite E in G. rewrite G. reflexivity.
      * reflexivity.
Qed.

Lemma sameStyle_eq (a b : option (jsstring * jsstring)) :
  sameStyle a b = true -> a = b.
Proof.
  destruct a as [[a1 a2]|], b as [[b1 b2]|]; cbn; try discriminate;
    [|reflexivity].
  rewrite andb_true_iff, !streq_eq. intros [-> ->]. reflexivity.
Qed.

Lemma firstStyle_written (bg fg : Z) :
  0 <= bg <= 15 -> 0 <= fg <= 15 ->
  firstStyle colourPairs (writtenName bg fg)
  = Some (nth (Z.to_nat bg) CGA_COLORS [], nth (Z.to_nat fg) CGA_COLORS []).
Proof.
  intros Hb Hf. apply sameStyle_eq. revert fg Hf.
  apply (forall_nibble
           (fun fg =>
              sameStyle (firstStyle colourPairs (writtenName bg fg))
                (Some (nth (Z.to_nat bg) CGA_COLORS [],
                       nth (Z.to_nat fg) CGA_COLORS [])))).
  revert bg Hb.
  apply (forall_nibble
           (fun bg =>
              forallb
                (fun fg =>
                   sameStyle (firstStyle colourPairs (writtenName bg fg))
                     (Some (nth (Z.to_nat bg) CGA_COLORS [],
                            nth (Z.to_nat fg) CGA_COLORS [])))
                nibbles)).
  vm_compute. reflexivity.
Qed.

(** X23: every tag the converter can write names a custom element that the
    script of the web page defines, whatever was registered before; when the
    name was free, the element paints the background and the foreground with
    the entries of the library's palette for the converter's two colours. *)
Theorem every_written_tag_is_a_defined_element (o : ConvertOptions)
    (c : Converter) (r0 : Registry) :
  reachable o c ->
  let name := writtenName (background c) (foreground c) in
  output (openTag c) = output c ++ lit "<" ++ name ++ lit ">"
  /\ output (closeTag c) = output c ++ lit "</" ++ name ++ lit ">"
  /\ get (registerAll r0) name <> None
  /\ (get r0 name = None ->
      get (registerAll r0) name
      = Some (nth (Z.to_nat (background c)) CGA_COLORS [],
              nth (Z.to_nat (foreground c)) CGA_COLORS [])).
Proof.
  intros Hr name. destruct (reachable_cga o c Hr) as [Hf Hb].
  split; [|split].
  - unfold openTag, write, set_output. cbn [output]. unfold name, writtenName.
    rewrite <- !app_assoc. reflexivity.
  - unfold closeTag, write, set_output. cbn [output].
    unfold name, writtenName. rewrite <- !app_assoc. reflexivity.
  - rewrite registerAll_pairs, get_registered.
    unfold name. rewrite firstStyle_written by assumption.
    split.
    + destruct (get r0 _); discriminate.
    + intros ->. reflexivity.
Qed.

Lemma every_written_tag_is_a_defined_element_witness :
  let c := processSgr (lit "1;31;44") (newConverter defaultOptions) in
  reachable defaultOptions c
  /\ writtenName (background c) (foreground c) = lit "ans-1c"
  /\ get (registerAll []) (lit "ans-1c") = Some (lit "#0000AA", lit "#FF5555").
Proof.
  cbv zeta.
  assert (Hr : reachable defaultOptions
                 (processSgr (lit "1;31;44") (newConverter defaultOptions))).
  { eapply reach_step; [apply reach_new|apply step_processSgr]. }
  split; [exact Hr|]. split; [reflexivity|].
  exact (proj2 (proj2 (proj2
           (every_written_tag_is_a_defined_element defaultOptions _ [] Hr)))
           eq_refl).
Defined.

(** ** wwwroot/ansi-display.js: the 256-colour palette *)

Lemma palette_NoDup : NoDup (map palette256ToRgb extended).
Proof.
  assert (E : nodup (list_eq_dec Z.eq_dec) (map palette256ToRgb extended)
              = map palette256ToRgb extended)
    by (vm_compute; reflexivity).
  rewrite <- E. apply NoDup_nodup.
Qed.

Lemma In_extended (i : Z) : 16 <= i <= 255 -> In i extended.
Proof.
  intros H. unfold extended, range.
  replace i with (Z.of_nat (Z.to_nat i)) by lia.
  apply in_map, in_seq. lia.
Qed.

Lemma NoDup_map_injective {A B : Type} (f : A -> B) (l : list A) (x y : A) :
  NoDup (map f l) -> In x l -> In y l -> f x = f y -> x = y.
Proof.
  induction l as [|a l IH]; intros N Hx Hy E; [contradiction|].
  cbn [map] in N. inversion N as [|? ? Ha Nl]; subst.
  destruct Hx as [<-|Hx], Hy as [<-|Hy].
  - reflexivity.
  - exfalso. apply Ha. rewrite E. apply in_map, Hy.
  - exfalso. apply Ha. rewrite <- E. apply in_map, Hx.
  - apply IH; assumption.
Qed.

(** X24: the palette of the 256-colour element.  Below 16 it is the CGA
    palette; from 16 to 231 it is the 6 x 6 x 6 cube, the index being
    16 + 36 r + 6 g + b and each channel 0 or 55 + 40 times its digit; from
    232 on it is a grey ramp from 8 in steps of 10.  Every channel is in
    0..255, and no two of the indices 16..255 have the same colour. *)
Theorem palette256_cube_and_ramp (i j : Z) :
  (0 <= i <= 15 ->
   palette256ToRgb i = nth (Z.to_nat i) CGA_COLORS [])
  /\ (16 <= i <= 231 ->
      exists r g b,
        0 <= r <= 5 /\ 0 <= g <= 5 /\ 0 <= b <= 5
        /\ i = 16 + 36 * r + 6 * g + b
        /\ palette256ToRgb i = rgb (toValue r) (toValue g) (toValue b)
        /\ 0 <= toValue r <= 255 /\ 0 <= toValue g <= 255
        /\ 0 <= toValue b <= 255)
  /\ (232 <= i <= 255 ->
      exists gray,
        gray = 8 + 10 * (i - 232) /\ 8 <= gray <= 238
        /\ palette256ToRgb i = rgb gray gray gray)
  /\ (16 <= i <= 255 -> 16 <= j <= 255 ->
      palette256ToRgb i = palette256ToRgb j -> i = j).
Proof.
  split; [|split; [|split]].
  - intros H. unfold palette256ToRgb.
    destruct (Z.ltb_spec i 16); [reflexivity|lia].
  - intros H. unfold palette256ToRgb.
    destruct (Z.ltb_spec i 16); [lia|]. destruct (Z.ltb_spec i 232); [|lia].
    cbv zeta.
    exists ((i - 16) / 36), ((i - 16) mod 36 / 6), ((i - 16) mod 6).
    assert (Hr : 0 <= (i - 16) / 36 <= 5).
    { split; [apply Z.div_pos; lia|].
      assert ((i - 16) / 36 < 6) by (apply Z.div_lt_upper_bound; lia). lia. }
    assert (Hm : 0 <= (i - 16) mod 36 < 36) by (apply Z.mod_pos_bound; lia).
    assert (Hg : 0 <= (i - 16) mod 36 / 6 <= 5).
    { split; [apply Z.div_pos; lia|].
      assert ((i - 16) mod 36 / 6 < 6)
        by (apply Z.div_lt_upper_bound; lia). lia. }
    assert (Hb : 0 <= (i - 16) mod 6 <= 5).
    { assert (0 <= (i - 16) mod 6 < 6) by (apply Z.mod_pos_bound; lia). lia. }
    assert (E6 : (i - 16) mod 6 = ((i - 16) mod 36) mod 6)
      by (Z.div_mod_to_equations; lia).
    assert (T : forall d, 0 <= d <= 5 -> 0 <= toValue d <= 255).
    { intros d Hd. unfold toValue. destruct (Z.eqb_spec d 0); lia. }
    pose proof (Z.div_mod (i - 16) 36 ltac:(lia)) as D1.
    pose proof (Z.div_mod ((i - 16) mod 36) 6 ltac:(lia)) as D2.
    split; [exact Hr|]. split; [exact Hg|]. split; [exact Hb|].
    split; [rewrite E6; lia|]. split; [reflexivity|].
    split; [apply T, Hr|]. split; [apply T, Hg|apply T, Hb].
  - intros H. unfold palette256ToRgb.
    destruct (Z.ltb_spec i 16); [lia|]. destruct (Z.ltb_spec i 232); [lia|].
    cbv zeta. exists (8 + 10 * (i - 232)).
    split; [reflexivity|]. split; [lia|].
    replace ((i - 232) * 10 + 8) with (8 + 10 * (i - 232)) by lia.
    reflexivity.
  - intros Hi Hj E.
    exact (NoDup_map_injective palette256ToRgb extended i j palette_NoDup
             (In_extended i Hi) (In_extended j Hj) E).
Qed.

Lemma palette256_cube_and_ramp_witness :
  palette256ToRgb 9 = lit "#5555FF"
  /\ palette256ToRgb 196 = lit "rgb(255,0,0)"
  /\ palette256ToRgb 244 = lit "rgb(128,128,128)"
  /\ 196 = 196.
Proof.
  split; [|split; [|split]].
  - rewrite (proj1 (palette256_cube_and_ramp 9 0)) by lia. reflexivity.
  - destruct (proj1 (proj2 (palette256_cube_and_ramp 196 0)) ltac:(lia))
      as [r [g [b _]]].
    reflexivity.
  - destruct (proj1 (proj2 (proj2 (palette256_cube_and_ramp 244 0)))
                ltac:(lia)) as [gray _].
    reflexivity.
  - apply (proj2 (proj2 (proj2 (palette256_cube_and_ramp 196 196))));
      [lia|lia|reflexivity].
Defined.

(** * Further properties: a file with its trailer *)

(** ** Content, SUB, record *)

Lemma emitAll_suppressed (gs : list jsstring) (c : Converter) :
  savePositionActive c = true -> emitAll gs c = c.
Proof.
  intros Hs. induction gs as [|g gs IH]; [reflexivity|].
  cbn. rewrite emitChar_suppressed by exact Hs. exact IH.
Qed.

(** On a line without escape sequence the emitter writes the characters
    escaped, the carriage returns apart. *)
Lemma emitAll_line (gs : list jsstring) (c : Converter) :
  savePositionActive c = false -> lineHasAnsi c = false ->
  output (emitAll gs c) = output c ++ renderText (filter notCR gs).
Proof.
  revert c. induction gs as [|g gs IH]; intros c Hs Hl.
  - cbn. rewrite app_nil_r. reflexivity.
  - change (emitAll (g :: gs) c) with (emitAll gs (emitChar g c)).
    cbn [filter]. destruct (notCR g) eqn:Hg.
    + destruct (emitChar_plain g c Hs Hl Hg) as [Eo El].
      rewrite IH by (try exact El; rewrite emitChar_save; exact Hs).
      rewrite Eo, renderText_cons, <- app_assoc. reflexivity.
    + unfold notCR in Hg. apply negb_false_iff, streq_eq in Hg. subst g.
      rewrite emitChar_CR by exact Hs.
      rewrite wrapIfNeeded_off by exact Hl. apply IH; assumption.
Qed.

Lemma slice_within (pre post : jsstring) (st : Z) :
  0 <= st ->
  slice (pre ++ post) st (Js.length pre) = skipn (Z.to_nat st) pre.
Proof.
  intros Hst. unfold slice.
  rewrite skipn_app, firstn_app, length_skipn.
  replace (Z.to_nat (Js.length pre - st)
           - (List.length pre - Z.to_nat st))%nat
    with 0%nat by (unfold Js.length; lia).
  cbn [firstn]. rewrite app_nil_r. apply firstn_all2.
  rewrite length_skipn. unfold Js.length. lia.
Qed.

(** A record whose only marker is the one it starts with is found behind
    any text. *)
Lemma lastIndexOf_record (pre record needle : jsstring) :
  needle <> [] -> lastIndexOf record needle = 0 ->
  lastIndexOf (pre ++ record) needle = Js.length pre.
Proof.
  intros Hn H0. unfold lastIndexOf in *.
  destruct (lastIndexOfFrom_found needle record 0 0 ltac:(lia) H0
              ltac:(lia)) as [_ P].
  pose proof (lastIndexOfFrom_last needle record 0 0 ltac:(lia) H0
                ltac:(lia) Hn) as L.
  cbn [Z.sub Z.to_nat skipn] in P, L.
  destruct record as [|x rest].
  - destruct needle; [contradiction|discriminate P].
  - cbn [skipn] in L. rewrite lastIndexOfFrom_at by (try assumption; lia).
    lia.
Qed.

Lemma isPrefix_pad (needle s pad : jsstring) :
  needle <> [] -> padFree needle -> forallb isPad pad = true ->
  isPrefix needle (s ++ pad) = isPrefix needle s.
Proof.
  intros Hn Hf Hp. revert s.
  induction needle as [|x n IH]; intros s; [contradiction|].
  assert (Hx : isPad x = false) by (apply Hf; left; reflexivity).
  destruct s as [|y s].
  - cbn [app]. destruct pad as [|y pad]; [reflexivity|].
    cbn [forallb] in Hp. apply andb_true_iff in Hp. destruct Hp as [Hy _].
    cbn. destruct (Z.eqb_spec x y) as [E|E]; [congruence|reflexivity].
  - cbn. destruct n as [|x' n]; [reflexivity|].
    rewrite IH; [reflexivity|discriminate|].
    intros z Hz. apply Hf. right. exact Hz.
Qed.

Lemma occurs_pad (needle s pad : jsstring) :
  needle <> [] -> padFree needle -> forallb isPad pad = true ->
  occurs needle (s ++ pad) = occurs needle s.
Proof.
  intros Hn Hf Hp. induction s as [|y s IH].
  - cbn [app]. transitivity false.
    + induction pad as [|y pad IHp];
        [destruct needle; [contradiction|reflexivity]|].
      cbn [forallb] in Hp. apply andb_true_iff in Hp.
      destruct Hp as [Hy Hpad]. rewrite occurs_cons, (IHp Hpad).
      rewrite <- (app_nil_l (y :: pad)).
      rewrite (isPrefix_pad needle [] (y :: pad) Hn Hf)
        by (cbn [forallb]; rewrite Hy, Hpad; reflexivity).
      destruct needle; [contradiction|reflexivity].
    + destruct needle; [contradiction|reflexivity].
  - cbn [app]. rewrite !occurs_cons, IH.
    change (y :: s ++ pad) with ((y :: s) ++ pad).
    rewrite isPrefix_pad by assumption. reflexivity.
Qed.

Lemma lastIndexOf_padded (record pad needle : jsstring) :
  needle <> [] -> padFree needle -> forallb isPad pad = true ->
  lastIndexOf record needle = 0 -> lastIndexOf (record ++ pad) needle = 0.
Proof.
  intros Hn Hf Hp H0. unfold lastIndexOf in *.
  destruct (lastIndexOfFrom_found needle record 0 0 ltac:(lia) H0
              ltac:(lia)) as [_ P].
  pose proof (lastIndexOfFrom_last needle record 0 0 ltac:(lia) H0
                ltac:(lia) Hn) as L.
  cbn [Z.sub Z.to_nat skipn] in P, L.
  destruct record as [|x rest].
  - destruct needle; [contradiction|discriminate P].
  - cbn [skipn] in L.
    change ((x :: rest) ++ pad) with ([] ++ x :: (rest ++ pad)).
    rewrite lastIndexOfFrom_at; [reflexivity|lia| |].
    + change (x :: rest ++ pad) with ((x :: rest) ++ pad).
      apply isPrefix_app, P.
    + rewrite occurs_pad by assumption. exact L.
Qed.

Lemma marker_padFree : padFree (lit "SAUCE00").
Proof.
  intros x Hx. cbn in Hx.
  repeat (destruct Hx as [<-|Hx]; [reflexivity|]). contradiction.
Qed.

Lemma pad_noSurrogate (pad : jsstring) :
  forallb isPad pad = true -> noSurrogate pad = true.
Proof.
  unfold noSurrogate. rewrite !forallb_forall. intros H x Hx.
  specialize (H x Hx). unfold isPad in H. apply orb_true_iff in H.
  rewrite !Z.eqb_eq in H. destruct H as [-> | ->]; reflexivity.
Qed.

Lemma pad_not_meaningful (pad : jsstring) :
  forallb isPad pad = true -> hasMeaningfulContent pad = false.
Proof.
  intros H. unfold hasMeaningfulContent.
  induction pad as [|x pad IH]; [reflexivity|].
  cbn [forallb] in H. apply andb_true_iff in H. destruct H as [Hx Hp].
  cbn [existsb]. rewrite (IH Hp), orb_false_r.
  unfold isPad in Hx. destruct (x =? 0), (x =? 26); try reflexivity.
  discriminate Hx.
Qed.

(** A file made of content, a SUB, a record written by [createSauceRecord]
    and padding: the converter before the last closing tag. *)
Lemma finalState_file (o : ConvertOptions) (content t a g d f : jsstring)
    (w h : Z) (pad : jsstring) :
  let record := createSauceRecord t a g d w h f in
  let sauce := {| title := t; author := a; group := g; date := d;
                  width := w; height := h; comments := []; font := f |} in
  fieldText 35 t = true -> fieldText 20 a = true ->
  fieldText 20 g = true -> fieldText 8 d = true ->
  fieldText 22 f = true ->
  0 <= w <= 65535 -> 0 <= h <= 65535 ->
  ~ In 26 content ->
  occurs (lit "COMNT") (content ++ [26]) = false ->
  lastIndexOf record (lit "SAUCE00") = 0 ->
  nonEmpty (formatSauceOutput sauce) = true ->
  forallb isPad pad = true ->
  finalState (content ++ 26 :: record ++ pad) o
  = emitAll (codePoints (formatSauceOutput sauce))
      (emitChar LF (feed o content (start o))).
Proof.
  intros record sauce Ht Ha Hg Hd Hf Hw Hh Hsub Hcomnt Hmark Hblock Hpad.
  set (pre := content ++ [26]).
  set (sp := Js.length pre).
  set (input := pre ++ record ++ pad).
  assert (Einput : content ++ 26 :: record ++ pad = input)
    by (unfold input, pre; rewrite <- app_assoc; reflexivity).
  assert (Hsp : 0 <= sp) by (unfold sp, Js.length; lia).
  assert (Hlen : Js.length input = sp + 128 + Js.length pad).
  { pose proof (createSauceRecord_length t a g d w h f) as L.
    fold record in L. unfold input, sp, Js.length in *.
    rewrite !length_app. lia. }
  assert (Efind : findSaucePositions input
                  = (Some sp, None, Some (sp + 128))).
  { unfold findSaucePositions, input.
    assert (Hm : lastIndexOf (record ++ pad) (lit "SAUCE00") = 0).
    { apply lastIndexOf_padded;
        [discriminate|apply marker_padFree|exact Hpad|exact Hmark]. }
    rewrite (lastIndexOf_record pre (record ++ pad) (lit "SAUCE00")
               ltac:(discriminate) Hm).
    fold sp. destruct (Z.eqb_spec sp (-1)) as [E|_]; [lia|]. cbv zeta.
    unfold sp. rewrite slice_within by lia.
    rewrite (lastIndexOf_absent _ (lit "COMNT"))
      by (apply occurs_skipn, Hcomnt).
    reflexivity. }
  assert (Eparse : parseSauceRecord input sp None = Some sauce).
  { unfold input. rewrite app_assoc.
    pose proof (parseSauceRecord_created pre t a g d f w h
                  Ht Ha Hg Hd Hf Hw Hh) as P.
    fold record sp in P.
    revert P. unfold parseSauceRecord.
    pose proof (createSauceRecord_length t a g d w h f) as L.
    fold record in L.
    assert (L1 : Js.length (pre ++ record) = sp + 128)
      by (unfold sp, Js.length in *; rewrite length_app; lia).
    assert (L2 : Js.length ((pre ++ record) ++ pad)
                 = sp + 128 + Js.length pad)
      by (unfold Js.length in *; rewrite length_app; lia).
    rewrite L1, L2.
    destruct (Z.gtb_spec (sp + 128) (sp + 128)); [lia|].
    destruct (Z.gtb_spec (sp + 128) (sp + 128 + Js.length pad));
      [unfold Js.length in *; lia|].
    assert (S : forall x y, 0 <= x -> x <= y -> y <= sp + 128 ->
                  slice ((pre ++ record) ++ pad) x y
                  = slice (pre ++ record) x y).
    { intros x y Hx Hxy Hy. unfold slice.
      rewrite skipn_app, firstn_app, length_skipn.
      replace (Z.to_nat (y - x)
               - (List.length (pre ++ record) - Z.to_nat x))%nat
        with 0%nat by (unfold Js.length in L1; lia).
      cbn [firstn]. apply app_nil_r. }
    assert (C : forall x, 0 <= x < sp + 128 ->
                  charCodeAt ((pre ++ record) ++ pad) x
                  = charCodeAt (pre ++ record) x).
    { intros x Hx. unfold charCodeAt. apply app_nth1.
      unfold Js.length in L1. lia. }
    unfold decodeField.
    rewrite !S, !C by lia. tauto. }
  assert (Eindex : indexOf input [26] = Js.length content).
  { rewrite <- Einput. unfold indexOf.
    rewrite (indexOfFrom_unit_first 26 content (record ++ pad) 0 Hsub).
    lia. }
  assert (Econtent : slice input 0 (Js.length content) = content).
  { rewrite <- Einput. apply slice_prefix. }
  assert (Etail : sliceFrom input (sp + 128) = pad).
  { unfold sliceFrom, input. rewrite app_assoc, skipn_app.
    pose proof (createSauceRecord_length t a g d w h f) as L.
    fold record in L.
    assert (L1 : List.length (pre ++ record) = Z.to_nat (sp + 128))
      by (unfold sp, Js.length in *; rewrite length_app; lia).
    rewrite <- L1, skipn_all, Nat.sub_diag. reflexivity. }
  rewrite Einput. unfold finalState, feed, start.
  destruct (utf8Input o).
  - unfold convertUtf8State. cbv zeta. rewrite Efind.
    unfold contentEnd, emitSauce. rewrite Eindex, Eparse. cbv zeta.
    rewrite Hblock.
    destruct (Z.eqb_spec (Js.length content) (-1)) as [E|_];
      [unfold Js.length in E; lia|].
    cbn [negb]. rewrite Econtent, Etail.
    rewrite <- (app_nil_r pad) at 1.
    rewrite (codePoints_app_plain pad [] (pad_noSurrogate pad Hpad)).
    cbn [codePoints]. rewrite app_nil_r, first_units.
    rewrite (pad_not_meaningful pad Hpad).
    destruct (sp + 128 <? Js.length input); reflexivity.
  - unfold convertState. cbv zeta. rewrite Efind.
    unfold contentEnd, emitSauce. rewrite Eindex, Eparse. cbv zeta.
    rewrite Hblock.
    destruct (Z.eqb_spec (Js.length content) (-1)) as [E|_];
      [unfold Js.length in E; lia|].
    cbn [negb]. rewrite Econtent, Etail.
    rewrite (pad_not_meaningful pad Hpad).
    destruct (sp + 128 <? Js.length input); reflexivity.
Qed.

(** X25: a file made of content, a SUB and a record written by
    [createSauceRecord] is rendered as the content, then, unless the content
    has left the save-position suppression on, a line feed and the lines of
    the record, HTML-escaped and never wrapped; with the suppression on the
    record leaves no trace. *)
Theorem sauce_block_follows_the_content (o : ConvertOptions)
    (content t a g d f : jsstring) (w h : Z) :
  let record := createSauceRecord t a g d w h f in
  let sauce := {| title := t; author := a; group := g; date := d;
                  width := w; height := h; comments := []; font := f |} in
  let c := feed o content (start o) in
  fieldText 35 t = true -> fieldText 20 a = true ->
  fieldText 20 g = true -> fieldText 8 d = true ->
  fieldText 22 f = true ->
  0 <= w <= 65535 -> 0 <= h <= 65535 ->
  ~ In SUB content ->
  occurs (lit "COMNT") (content ++ [SUB]) = false ->
  lastIndexOf record (lit "SAUCE00") = 0 ->
  nonEmpty (formatSauceOutput sauce) = true ->
  (savePositionActive c = false ->
   ansiToHtml (content ++ SUB :: record) o
   = output c ++ LF
     ++ renderText (filter notCR (codePoints (formatSauceOutput sauce)))
     ++ closingTag (background c) (foreground c) ++ lit "</pre>")
  /\ (savePositionActive c = true ->
      ansiToHtml (content ++ SUB :: record) o
      = output c ++ closingTag (background c) (foreground c)
        ++ lit "</pre>").
Proof.
  intros record sauce c Ht Ha Hg Hd Hf Hw Hh Hsub Hcomnt Hmark Hblock.
  unfold SUB in *.
  pose proof (finalState_file o content t a g d f w h []
                Ht Ha Hg Hd Hf Hw Hh Hsub Hcomnt Hmark Hblock eq_refl)
    as Estate.
  rewrite app_nil_r in Estate. fold record sauce c in Estate.
  rewrite ansiToHtml_finalState, Estate.
  destruct (emitAll_frame (codePoints (formatSauceOutput sauce))
              (emitChar LF c)) as [Ef [Eb _]].
  destruct (emitChar_frame LF c) as [Ef' [Eb' _]].
  rewrite Ef, Eb, Ef', Eb'.
  split; intros Hs.
  - rewrite emitAll_line.
    + rewrite emitChar_LF by exact Hs.
      cbn [output set_lineHasAnsi set_currentColumn write set_output].
      rewrite <- !app_assoc. reflexivity.
    + rewrite emitChar_save. exact Hs.
    + rewrite emitChar_LF by exact Hs. reflexivity.
  - rewrite emitAll_suppressed by (rewrite emitChar_save; exact Hs).
    rewrite emitChar_suppressed by exact Hs. reflexivity.
Qed.

Lemma sauce_block_follows_the_content_witness :
  ansiToHtml (lit "Content before SAUCE" ++ SUB :: sampleSauce) defaultOptions
  = header ++ lit "<ans-07>Content before SAUCE" ++ LF
    ++ lit "Title: Test Title" ++ LF ++ lit "Author: Test Author" ++ LF
    ++ lit "Group: Test Group" ++ LF ++ lit "Date: 2024-01-15" ++ LF
    ++ lit "Size: 80x25" ++ LF ++ lit "Font: IBM VGA" ++ LF
    ++ lit "</ans-07></pre>".
Proof.
  assert (Hsub : ~ In SUB (lit "Content before SAUCE")).
  { cbn. intros H. repeat (destruct H as [H|H]; [discriminate H|]).
    exact H. }
  unfold sampleSauce.
  rewrite (proj1 (sauce_block_follows_the_content defaultOptions
                    (lit "Content before SAUCE") (lit "Test Title")
                    (lit "Test Author") (lit "Test Group") (lit "20240115")
                    (lit "IBM VGA") 80 25
                    eq_refl eq_refl eq_refl eq_refl eq_refl
                    ltac:(lia) ltac:(lia) Hsub eq_refl eq_refl eq_refl)
             eq_refl).
  reflexivity.
Defined.

(** X26: NUL and SUB characters behind the record are padding: they are not
    rendered and do not change what is rendered before them. *)
Theorem padding_after_the_record_is_ignored (o : ConvertOptions)
    (content t a g d f : jsstring) (w h : Z) (pad : jsstring) :
  let record := createSauceRecord t a g d w h f in
  let sauce := {| title := t; author := a; group := g; date := d;
                  width := w; height := h; comments := []; font := f |} in
  fieldText 35 t = true -> fieldText 20 a = true ->
  fieldText 20 g = true -> fieldText 8 d = true ->
  fieldText 22 f = true ->
  0 <= w <= 65535 -> 0 <= h <= 65535 ->
  ~ In SUB content ->
  occurs (lit "COMNT") (content ++ [SUB]) = false ->
  lastIndexOf record (lit "SAUCE00") = 0 ->
  nonEmpty (formatSauceOutput sauce) = true ->
  forallb isPad pad = true ->
  ansiToHtml (content ++ SUB :: record ++ pad) o
  = ansiToHtml (content ++ SUB :: record) o.
Proof.
  intros record sauce Ht Ha Hg Hd Hf Hw Hh Hsub Hcomnt Hmark Hblock Hpad.
  unfold SUB in *.
  pose proof (finalState_file o content t a g d f w h pad
                Ht Ha Hg Hd Hf Hw Hh Hsub Hcomnt Hmark Hblock Hpad) as E1.
  pose proof (finalState_file o content t a g d f w h []
                Ht Ha Hg Hd Hf Hw Hh Hsub Hcomnt Hmark Hblock eq_refl) as E2.
  rewrite app_nil_r in E2. fold record in E1, E2.
  rewrite !ansiToHtml_finalState, E1, E2. reflexivity.
Qed.

Lemma padding_after_the_record_is_ignored_witness :
  ansiToHtml (lit "Content" ++ SUB :: sampleSauce ++ [0; 0; 26; 0])
    defaultOptions
  = ansiToHtml (lit "Content" ++ SUB :: sampleSauce) defaultOptions.
Proof.
  assert (Hsub : ~ In SUB (lit "Content")).
  { cbn. intros H. repeat (destruct H as [H|H]; [discriminate H|]).
    exact H. }
  unfold sampleSauce.
  apply (padding_after_the_record_is_ignored defaultOptions
           (lit "Content") (lit "Test Title") (lit "Test Author")
           (lit "Test Group") (lit "20240115") (lit "IBM VGA") 80 25
           [0; 0; 26; 0]
           eq_refl eq_refl eq_refl eq_refl eq_refl
           ltac:(lia) ltac:(lia) Hsub eq_refl eq_refl eq_refl eq_refl).
Defined.

(** * Further properties: comments and decoders *)

(** ** The comment block *)

Lemma commentLines_count (data : jsstring) :
  (List.length (commentLines data)
   <= Z.to_nat ((Js.length data + 63) / 64))%nat.
Proof.
  unfold commentLines.
  etransitivity; [apply filter_length_le|].
  rewrite length_map, length_seq. lia.
Qed.

Lemma commentLines_lines (data : jsstring) :
  Forall (fun line => line <> [] /\ Js.length line <= 64
                      /\ trimEnd line = line)
    (commentLines data).
Proof.
  unfold commentLines. apply Forall_forall. intros line Hin.
  apply filter_In in Hin. destruct Hin as [Hin Hne].
  apply in_map_iff in Hin. destruct Hin as [k [<- _]].
  split; [|split].
  - intros E. rewrite E in Hne. discriminate Hne.
  - unfold decodeField.
    pose proof (trimEnd_length
                  (map decodeChar
                     (slice data (64 * Z.of_nat k) (64 * Z.of_nat k + 64))))
      as H.
    rewrite length_map in H.
    pose proof (slice_length data (64 * Z.of_nat k) (64 * Z.of_nat k + 64))
      as H'.
    unfold Js.length in *. lia.
  - unfold decodeField. apply trimEnd_idem.
Qed.

(** X27: when [findSaucePositions] has found a comment block, the parser
    takes it: the comments of the record are the 64-character chunks of the
    text between [COMNT] and the record, decoded and trimmed, the empty ones
    left out; there are at most 256 of them, none is empty, none is longer
    than 64 characters or ends in a blank. *)
Theorem comment_block_gives_at_most_256_lines (input : jsstring)
    (sp cp : Z) (ap : option Z) (s : SauceRecord) :
  findSaucePositions input = (Some sp, Some cp, ap) ->
  parseSauceRecord input sp (Some cp) = Some s ->
  comments s = commentLines (slice input (cp + 5) sp)
  /\ (List.length (comments s) <= 256)%nat
  /\ Forall (fun line => line <> [] /\ Js.length line <= 64
                         /\ trimEnd line = line)
       (comments s).
Proof.
  intros Hfind Hparse.
  destruct (proj2 (findSaucePositions_spec input) sp (Some cp) ap Hfind)
    as [Hsp [_ [_ [_ [_ [Hc _]]]]]].
  destruct (Hc cp eq_refl) as [Hcp [Hwin [Hbefore Hid]]].
  assert (E : comments s = commentLines (slice input (cp + 5) sp)).
  { unfold parseSauceRecord in Hparse.
    destruct (sp + 128 >? Js.length input); [discriminate Hparse|].
    destruct (negb (streq (slice input sp (sp + 5)) (lit "SAUCE")));
      [discriminate Hparse|].
    injection Hparse as <-. cbn [comments].
    rewrite Hid, streq_refl.
    destruct (Z.ltb_spec cp sp); [reflexivity|lia]. }
  rewrite E. split; [reflexivity|]. split; [|apply commentLines_lines].
  etransitivity; [apply commentLines_count|].
  pose proof (slice_length input (cp + 5) sp) as L.
  assert (B : (Js.length (slice input (cp + 5) sp) + 63) / 64 < 257).
  { apply Z.div_lt_upper_bound; lia. }
  lia.
Qed.

Lemma comment_block_gives_at_most_256_lines_witness :
  findSaucePositions commentedFile = (Some 201, Some 4, Some 329)
  /\ exists s,
       parseSauceRecord commentedFile 201 (Some 4) = Some s
       /\ comments s = [lit "First comment"; lit "Second"]
       /\ (List.length (comments s) <= 256)%nat.
Proof.
  assert (F : findSaucePositions commentedFile
              = (Some 201, Some 4, Some 329)) by (vm_compute; reflexivity).
  split; [exact F|].
  destruct (parseSauceRecord commentedFile 201 (Some 4)) as [s|] eqn:P;
    [|vm_compute in P; discriminate P].
  exists s. split; [reflexivity|].
  destruct (comment_block_gives_at_most_256_lines commentedFile 201 4
              (Some 329) s F P) as [E [L _]].
  split; [|exact L].
  rewrite E. vm_compute. reflexivity.
Defined.

(** ** The two decoders *)

Lemma table_has_no_replacement (code u : Z) :
  cp437 code = Some u -> u <> 65533.
Proof.
  unfold cp437. destruct (code <? 0); [discriminate|].
  intros E Hu. apply nth_error_In in E. subst u.
  assert (N : existsb (fun x => x =? 65533) CP437_TO_UNICODE = false)
    by (vm_compute; reflexivity).
  assert (Y : existsb (fun x => x =? 65533) CP437_TO_UNICODE = true).
  { apply existsb_exists. exists 65533. split; [exact E|reflexivity]. }
  congruence.
Qed.

Lemma cp437_beyond (code : Z) : 255 < code -> cp437 code = None.
Proof.
  intros H. unfold cp437. destruct (Z.ltb_spec code 0); [reflexivity|].
  apply nth_error_None.
  change (List.length CP437_TO_UNICODE) with 256%nat. lia.
Qed.

(** X28: the content decoder and the field decoder agree on bytes: a byte
    that is plain text is written as the character [decodeField] gives for
    it, which is never U+FFFD.  Beyond 255 they part: the content shows
    U+FFFD where a field keeps the character. *)
Theorem content_and_fields_decode_bytes_alike (code : Z) (c : Converter) :
  parseState c = Normal ->
  startsSequence (options c) code = false ->
  code <> 10 -> code <> 13 ->
  (0 <= code <= 255 ->
   processCharCode code c = emitChar [decodeChar code] c
   /\ decodeChar code <> 65533)
  /\ (255 < code ->
      processCharCode code c = emitChar [65533] c
      /\ decodeChar code = code).
Proof.
  intros Hn Hs H10 H13.
  rewrite (processCharCode_plain code c Hn Hs).
  rewrite (proj2 (Z.eqb_neq code 10) H10), (proj2 (Z.eqb_neq code 13) H13).
  unfold glyph437, decodeChar. split.
  - intros Hb. destruct (cp437_defined code Hb) as [u Eu]. rewrite Eu.
    split; [|exact (table_has_no_replacement code u Eu)].
    destruct ((code <? 32) || (code >=? 127)) eqn:T; [reflexivity|].
    apply orb_false_iff in T. destruct T as [T1 T2].
    rewrite cp437_ascii in Eu by lia. congruence.
  - intros Hb. rewrite (cp437_beyond code Hb).
    replace ((code <? 32) || (code >=? 127)) with true
      by (symmetry; apply orb_true_iff; right; lia).
    split; reflexivity.
Qed.

Lemma content_and_fields_decode_bytes_alike_witness :
  let c := start defaultOptions in
  parseState c = Normal /\ startsSequence (options c) 219 = false
  /\ processCharCode 219 c = emitChar [9608] c
  /\ decodeChar 219 = 9608
  /\ processCharCode 9608 c = emitChar [65533] c.
Proof.
  cbv zeta. split; [reflexivity|]. split; [reflexivity|].
  split; [|split; [reflexivity|]].
  - apply (proj1 (content_and_fields_decode_bytes_alike 219
                    (start defaultOptions) eq_refl eq_refl
                    ltac:(lia) ltac:(lia))).
    lia.
  - apply (proj2 (content_and_fields_decode_bytes_alike 9608
                    (start defaultOptions) eq_refl eq_refl
                    ltac:(lia) ltac:(lia))).
    lia.
Defined.
